(** * Recruitment crew: sourcing, evaluation, ranking, outreach

    A shallow embedding of [recruitment_assistant/agents/crew.py] and the
    properties its specification states about it.

    Conventions of the embedding.
    - A Python [str] is a [string]; each character is one code point below
      256, so [String.length] is Python's [len] and [utf8_encode] is
      [str.encode("utf-8")] on that range.
    - A Python [float] score is an exact rational [Q]; [min] and the
      comparisons are the ones of [Q].  Rounding of binary floating point is
      not modelled: where the code rounds a sum (0.72 + 32/400, a score
      + 0.1), a comparison that sits exactly on a threshold, the order of
      two scores that tie, or the last digit of a two-decimal rendering can
      come out differently there.  The statements below stay away from
      such boundaries.
    - Exceptions are values of [PyExn]; code that may raise returns a
      [result], and methods that log or touch the crew run in the state
      monad [M] over a [World].  Both loggers of the module write to the
      world's [events].
    - Wall-clock fields ([created_at], [sourced_at], [evaluated_at],
      [ranked_at], the timestamps and durations of log events) are left out.
      In the code every seed, evaluation, ranked entry and draft carries the
      time it was made, and the dataclass equality compares it; so two
      records made by separate calls are equal here and not there.
      Statements that relate the results of separate calls therefore
      compare the fields the records have ([same_ranking]), not the
      records.
      The random part of a draft id is read from the world's [uuid_source]. *)

From Stdlib Require Import ZArith QArith Qminmax String Ascii List Lia.
From Stdlib Require Import Sorting.Sorted Sorting.Permutation.
From stdpp Require Import gmap strings list pretty.

Open Scope string_scope.
Open Scope list_scope.
Open Scope Z_scope.

(** ** Strings *)

Module PyStr.

Definition code (c : ascii) : Z := Z.of_N (N_of_ascii c).
Definition chr (n : Z) : ascii := ascii_of_N (Z.to_N n).

Fixpoint map_chars (f : ascii -> ascii) (s : string) : string :=
  match s with
  | EmptyString => EmptyString
  | String c s' => String (f c) (map_chars f s')
  end.

Fixpoint concat_map (f : ascii -> string) (s : string) : string :=
  match s with
  | EmptyString => EmptyString
  | String c s' => f c +:+ concat_map f s'
  end.

(** [str.lower] on code points below 256: the ASCII capitals and the
    Latin-1 capitals 0xC0..0xDE without the multiplication sign 0xD7. *)
Definition lower_char (c : ascii) : ascii :=
  let n := code c in
  if ((65 <=? n) && (n <=? 90)) || ((192 <=? n) && (n <=? 222) && negb (n =? 215))
  then chr (n + 32) else c.

Definition lower : string -> string := map_chars lower_char.

(** [str.upper] restricted to ASCII letters; it is only applied to
    hexadecimal digests, where it agrees with Python's. *)
Definition upper_char (c : ascii) : ascii :=
  let n := code c in
  if (97 <=? n) && (n <=? 122) then chr (n - 32) else c.

Definition upper : string -> string := map_chars upper_char.

(** [s.replace(old, new)] for single characters. *)
Definition replace_char (old new : ascii) : string -> string :=
  map_chars (fun c => if Ascii.eqb c old then new else c).

(** [s[:n]] for [n >= 0]. *)
Definition take (n : nat) (s : string) : string := String.substring 0 n s.

(** [str.encode("utf-8")] for code points below 256. *)
Fixpoint utf8_encode (s : string) : list Byte.byte :=
  match s with
  | EmptyString => []
  | String c s' =>
      let n := code c in
      if n <? 128 then byte_of_ascii c :: utf8_encode s'
      else byte_of_ascii (chr (Z.lor 192 (Z.shiftr n 6)))
           :: byte_of_ascii (chr (Z.lor 128 (Z.land n 63)))
           :: utf8_encode s'
  end.

(** [html.escape(value)] with its default [quote=True]. *)
Definition html_escape_char (c : ascii) : string :=
  let n := code c in
  if n =? 38 then "&amp;"
  else if n =? 60 then "&lt;"
  else if n =? 62 then "&gt;"
  else if n =? 34 then "&quot;"
  else if n =? 39 then "&#x27;"
  else String c EmptyString.

Definition html_escape : string -> string := concat_map html_escape_char.

End PyStr.

(** ** [hashlib.md5] (RFC 1321) *)

Module MD5.

Definition w32 (x : Z) : Z := Z.land x 4294967295.

Definition rotl32 (x c : Z) : Z :=
  w32 (Z.lor (Z.shiftl x c) (Z.shiftr x (32 - c))).

Definition not32 (x : Z) : Z := Z.lxor x 4294967295.

Definition shifts : list Z :=
  [ 7; 12; 17; 22; 7; 12; 17; 22; 7; 12; 17; 22; 7; 12; 17; 22;
    5; 9; 14; 20; 5; 9; 14; 20; 5; 9; 14; 20; 5; 9; 14; 20;
    4; 11; 16; 23; 4; 11; 16; 23; 4; 11; 16; 23; 4; 11; 16; 23;
    6; 10; 15; 21; 6; 10; 15; 21; 6; 10; 15; 21; 6; 10; 15; 21 ].

Definition sines : list Z :=
  [ 0xd76aa478; 0xe8c7b756; 0x242070db; 0xc1bdceee;
    0xf57c0faf; 0x4787c62a; 0xa8304613; 0xfd469501;
    0x698098d8; 0x8b44f7af; 0xffff5bb1; 0x895cd7be;
    0x6b901122; 0xfd987193; 0xa679438e; 0x49b40821;
    0xf61e2562; 0xc040b340; 0x265e5a51; 0xe9b6c7aa;
    0xd62f105d; 0x02441453; 0xd8a1e681; 0xe7d3fbc8;
    0x21e1cde6; 0xc33707d6; 0xf4d50d87; 0x455a14ed;
    0xa9e3e905; 0xfcefa3f8; 0x676f02d9; 0x8d2a4c8a;
    0xfffa3942; 0x8771f681; 0x6d9d6122; 0xfde5380c;
    0xa4beea44; 0x4bdecfa9; 0xf6bb4b60; 0xbebfbc70;
    0x289b7ec6; 0xeaa127fa; 0xd4ef3085; 0x04881d05;
    0xd9d4d039; 0xe6db99e5; 0x1fa27cf8; 0xc4ac5665;
    0xf4292244; 0x432aff97; 0xab9423a7; 0xfc93a039;
    0x655b59c3; 0x8f0ccc92; 0xffeff47d; 0x85845dd1;
    0x6fa87e4f; 0xfe2ce6e0; 0xa3014314; 0x4e0811a1;
    0xf7537e82; 0xbd3af235; 0x2ad7d2bb; 0xeb86d391 ].

Definition at_ (l : list Z) (i : Z) : Z := nth (Z.to_nat i) l 0.

Record regs := Regs { ra : Z; rb : Z; rc : Z; rd : Z }.

Definition init : regs :=
  Regs 0x67452301 0xefcdab89 0x98badcfe 0x10325476.

(** One of the 64 operations on a block of sixteen words. *)
Definition step (words : list Z) (r : regs) (i : Z) : regs :=
  let '(Regs a b c d) := r in
  let '(f, g) :=
    if i <? 16 then (Z.lor (Z.land b c) (Z.land (not32 b) d), i)
    else if i <? 32 then (Z.lor (Z.land d b) (Z.land (not32 d) c), (5 * i + 1) mod 16)
    else if i <? 48 then (Z.lxor (Z.lxor b c) d, (3 * i + 5) mod 16)
    else (Z.lxor c (Z.lor b (not32 d)), (7 * i) mod 16) in
  let f' := w32 (f + a + at_ sines i + at_ words g) in
  Regs d (w32 (b + rotl32 f' (at_ shifts i))) b c.

Definition le32 (b0 b1 b2 b3 : Z) : Z :=
  b0 + Z.shiftl b1 8 + Z.shiftl b2 16 + Z.shiftl b3 24.

Fixpoint words_of (n : nat) (bytes : list Z) : list Z :=
  match n, bytes with
  | S n', b0 :: b1 :: b2 :: b3 :: rest => le32 b0 b1 b2 b3 :: words_of n' rest
  | _, _ => []
  end.

Definition block (r : regs) (bytes : list Z) : regs :=
  let words := words_of 16 bytes in
  let r' := fold_left (step words) (map Z.of_nat (seq 0 64)) r in
  Regs (w32 (ra r + ra r')) (w32 (rb r + rb r'))
       (w32 (rc r + rc r')) (w32 (rd r + rd r')).

Fixpoint blocks (n : nat) (r : regs) (bytes : list Z) : regs :=
  match n with
  | O => r
  | S n' => blocks n' (block r (firstn 64 bytes)) (skipn 64 bytes)
  end.

Definition le_bytes (k : nat) (x : Z) : list Z :=
  map (fun i => Z.land (Z.shiftr x (8 * Z.of_nat i)) 255) (seq 0 k).

Definition pad (msg : list Z) : list Z :=
  let len := Z.of_nat (length msg) in
  msg ++ [128] ++ repeat 0 (Z.to_nat ((55 - len) mod 64))
      ++ le_bytes 8 (Z.land (8 * len) 18446744073709551615).

Definition digest (msg : list Byte.byte) : list Z :=
  let padded := pad (map (fun b => Z.of_N (Byte.to_N b)) msg) in
  let r := blocks (length padded / 64)%nat init padded in
  le_bytes 4 (ra r) ++ le_bytes 4 (rb r) ++ le_bytes 4 (rc r) ++ le_bytes 4 (rd r).

Definition hex_digit (n : Z) : ascii :=
  if n <? 10 then PyStr.chr (48 + n) else PyStr.chr (87 + n).

Fixpoint hex (bytes : list Z) : string :=
  match bytes with
  | [] => EmptyString
  | b :: rest => String (hex_digit (Z.shiftr b 4)) (String (hex_digit (Z.land b 15)) (hex rest))
  end.

(** [hashlib.md5(data).hexdigest()] *)
Definition hexdigest (data : list Byte.byte) : string := hex (digest data).

End MD5.

(** ** Exceptions *)

Inductive PyExn : Type :=
| KeyError (key : string)
| ZeroDivisionError
| CrewError (message : string) (cause : PyExn)
| OtherError (kind message : string).

(** [str(exc)] *)
Definition exn_str (exc : PyExn) : string :=
  match exc with
  | KeyError key => "'" +:+ key +:+ "'"
  | ZeroDivisionError => "division by zero"
  | CrewError message _ => message
  | OtherError _ message => message
  end.

Inductive result (A : Type) : Type :=
| Ok (value : A)
| Raise (exc : PyExn).
Arguments Ok {A} value.
Arguments Raise {A} exc.

#[global] Instance result_ret : MRet result := fun A a => Ok a.
#[global] Instance result_bind : MBind result := fun A B k r =>
  match r with
  | Ok a => k a
  | Raise exc => Raise exc
  end.

Fixpoint result_map {A B} (f : A -> result B) (l : list A) : result (list B) :=
  match l with
  | [] => Ok []
  | x :: l' => y ← f x; ys ← result_map f l'; Ok (y :: ys)
  end.

(** ** Python built-ins used by the agents *)

(** [a / b] on integers: true division. *)
Definition truediv (a b : Z) : result Q :=
  if b =? 0 then Raise ZeroDivisionError else Ok (inject_Z a / inject_Z b)%Q.

(** [mapping[key]] *)
Definition getitem {V} (mapping : gmap string V) (key : string) : result V :=
  match mapping !! key with
  | Some v => Ok v
  | None => Raise (KeyError key)
  end.

(** [seq[:stop]]: a negative [stop] counts from the end. *)
Definition slice_to {A} (l : list A) (stop : Z) : list A :=
  if stop <? 0 then firstn (Z.to_nat (Z.of_nat (length l) + stop)) l
  else firstn (Z.to_nat stop) l.

(** [x in seq] for strings. *)
Definition str_in (x : string) (l : list string) : bool :=
  existsb (String.eqb x) l.

Definition Qlt_bool (x y : Q) : bool := negb (Qle_bool y x).

(** [len(seq)] *)
Definition len {A} (l : list A) : Z := Z.of_nat (length l).

(** [sum(...)] over integers. *)
Definition sum (l : list Z) : Z := fold_left Z.add l 0.

(** [enumerate(seq, start)] *)
Fixpoint enumerate {A} (l : list A) (start : Z) : list (Z * A) :=
  match l with
  | [] => []
  | x :: l' => (start, x) :: enumerate l' (start + 1)
  end.

(** [sorted(seq, key=key, reverse=True)]: a stable sort, greatest key
    first; elements with equal keys keep their input order. *)
Section Sorted.
Context {A : Type} (key : A -> Q).

Fixpoint insert_desc (x : A) (l : list A) : list A :=
  match l with
  | [] => [x]
  | y :: l' =>
      if Qle_bool (key y) (key x) then x :: y :: l'
      else y :: insert_desc x l'
  end.

Definition sorted_reverse (l : list A) : list A :=
  fold_right insert_desc [] l.
End Sorted.

(** [f"{x:.2f}"] on the exact rational: two decimals, rounded half to
    even.  The code formats the binary float instead, whose value lies a
    little beside the rational, so next to a midpoint its last digit can
    differ from this one (0.835 prints as 0.83 there and 0.84 here).  No
    statement below quotes the digits. *)
Definition format_2f (x : Q) : string :=
  let a := (Qnum x * 100) in
  let b := Z.pos (Qden x) in
  let fl := Z.abs a / b in
  let twice := 2 * (Z.abs a mod b) in
  let hundredths :=
    if b <? twice then fl + 1
    else if twice =? b then (if Z.even fl then fl else fl + 1)
    else fl in
  let cents := hundredths mod 100 in
  (if Qnum x <? 0 then "-" else EmptyString)
    +:+ pretty (hundredths / 100) +:+ "."
    +:+ (if cents <? 10 then "0" else EmptyString) +:+ pretty cents.

(** ** Data model *)

Record JobDescriptionModel := {
  jd_title : string;
  jd_content : string;
  jd_classification : string }.

Definition mkJobDescription (title content : string) : JobDescriptionModel :=
  {| jd_title := title; jd_content := content; jd_classification := "Tier-2" |}.

Record CandidateSeed := {
  seed_candidate_id : string;
  seed_name : string;
  seed_role : string;
  seed_score : Q;
  seed_rationale : string;
  seed_tags : list string;
  seed_data_sources : list string }.

Record EvaluationResult := {
  ev_candidate_id : string;
  ev_candidate_name : string;
  ev_role : string;
  ev_score : Q;
  ev_rationale : string;
  ev_bias_flags : list string;
  ev_comments : string;
  ev_tags : list string;
  ev_profile_url : string }.

Record RankedCandidate := {
  rc_candidate_id : string;
  rc_name : string;
  rc_role : string;
  final_score : Q;
  rc_rationale : string;
  rc_tags : list string;
  rc_bias_flags : list string;
  rank_label : string;
  recommendation : string;
  rc_profile_url : string;
  notes : option string }.

Record OutreachTemplate := {
  tone : string;
  cta : string;
  compliance_notes : string;
  eu_ai_statement : string }.

Definition default_template : OutreachTemplate := {|
  tone := "professional";
  cta := "Let's schedule a time to chat";
  compliance_notes := "GDPR-compliant; transparent opt-out included.";
  eu_ai_statement :=
    "High-risk HR workflow per EU AI Act; human oversight and record keeping enforced." |}.

Record OutreachDraft := {
  draft_campaign_id : string;
  draft_candidate_id : string;
  draft_message : string;
  draft_template : OutreachTemplate;
  draft_id : string }.

Record RankingPolicy := {
  pol_name : string;
  diversity_bonus : Q;
  bias_tolerance : Q;
  respect_bias_flags : bool }.

Definition default_policy : RankingPolicy := {|
  pol_name := "balanced";
  diversity_bonus := 0.05;
  bias_tolerance := 0.7;
  respect_bias_flags := true |}.

Record CompliancePolicy := {
  gdpr_note : string;
  eu_ai_act_category : string;
  retention_days : Z;
  logging_level : string }.

Definition default_compliance : CompliancePolicy := {|
  gdpr_note := "Personal data processed only for recruitment; subject rights respected.";
  eu_ai_act_category := "High-Risk HR";
  retention_days := 30;
  logging_level := "INFO" |}.

Record RiskAssessment := {
  risk_score : Q;
  risk_bias_flags : Z;
  risk_level : string }.

(** A record of the candidate source. *)
Record Profile := {
  prof_name : string;
  prof_role : string;
  prof_score : Q;
  prof_tags : list string;
  prof_data_sources : list string;
  prof_profile_url : string }.

Definition BASE_PROFILES : list Profile := [
  {| prof_name := "Alex Dev"; prof_role := "Backend Engineer"; prof_score := 0.60;
     prof_tags := ["Data Deficient"; "Manual Review Required"];
     prof_data_sources := ["Serper.dev"; "GitHub"];
     prof_profile_url := "https://talent.example.com/alex-dev" |};
  {| prof_name := "Marina Byte"; prof_role := "Full Stack Engineer"; prof_score := 0.72;
     prof_tags := ["High Confidence"];
     prof_data_sources := ["Serper.dev"; "Portfolio"];
     prof_profile_url := "https://talent.example.com/marina-byte" |};
  {| prof_name := "Kai Ops"; prof_role := "DevOps Engineer"; prof_score := 0.68;
     prof_tags := ["Manual Review Required"];
     prof_data_sources := ["GitHub"; "Browserless.io"];
     prof_profile_url := "https://talent.example.com/kai-ops" |};
  {| prof_name := "Nia Vector"; prof_role := "Platform Architect"; prof_score := 0.64;
     prof_tags := ["Leadership Potential"];
     prof_data_sources := ["LinkedIn"; "Public Portfolio"];
     prof_profile_url := "https://talent.example.com/nia-vector" |} ].

(** ** The work of each stage *)

Definition _stable_candidate_id (name job_title : string) : string :=
  let key := name +:+ "|" +:+ job_title in
  let digest := PyStr.take 8 (MD5.hexdigest (PyStr.utf8_encode key)) in
  "CAN-" +:+ PyStr.upper digest.

(** The loop body of [ResearcherAgent.research]; the score is the exact
    sum where the code has the rounded one. *)
Definition research_seed (job_description : JobDescriptionModel) (content_bonus : Q)
    (profile : Profile) : CandidateSeed := {|
  seed_candidate_id := _stable_candidate_id (prof_name profile) (jd_title job_description);
  seed_name := prof_name profile;
  seed_role := prof_role profile;
  seed_score := Qmin 0.95 (prof_score profile + content_bonus);
  seed_rationale :=
    prof_name profile +:+ " shows a " +:+ prof_role profile
      +:+ " signal that aligns with " +:+ jd_title job_description +:+ ".";
  seed_tags := prof_tags profile;
  seed_data_sources := prof_data_sources profile |}.

(** The block traced by [ResearcherAgent.research]. *)
Definition research_seeds (candidate_pool : list Profile)
    (job_description : JobDescriptionModel) (limit : Z) : result (list CandidateSeed) :=
  content_bonus ← truediv (Z.of_nat (String.length (jd_content job_description))) 400;
  Ok (map (research_seed job_description content_bonus) (slice_to candidate_pool limit)).

Definition _derive_bias_flags (bias_thresholds : gmap string Q) (seed : CandidateSeed)
    : result (list string) :=
  let flags := [] in
  let flags :=
    if str_in "Data Deficient" (seed_tags seed) then flags ++ ["Data Deficient"] else flags in
  let flags :=
    if str_in "Manual Review Required" (seed_tags seed)
    then flags ++ ["Manual Review Required"] else flags in
  fallback ← getitem bias_thresholds "default";
  let threshold := default fallback (bias_thresholds !! seed_role seed) in
  Ok (if Qlt_bool (seed_score seed) threshold then flags ++ ["Bias Warning"] else flags).

(** The loop body of [EvaluatorAgent.evaluate]. *)
Definition evaluate_seed (bias_thresholds : gmap string Q) (seed : CandidateSeed)
    : result EvaluationResult :=
  bias_flags ← _derive_bias_flags bias_thresholds seed;
  Ok {| ev_candidate_id := seed_candidate_id seed;
        ev_candidate_name := seed_name seed;
        ev_role := seed_role seed;
        ev_score := Qmin 1 (seed_score seed + 0.1);
        ev_rationale := seed_rationale seed;
        ev_bias_flags := bias_flags;
        ev_comments :=
          "Evaluated " +:+ seed_name seed +:+ "; " +:+ pretty (len (seed_tags seed))
            +:+ " tag(s) observed.";
        ev_tags := seed_tags seed;
        ev_profile_url :=
          "https://talent.example.com/"
            +:+ PyStr.replace_char " " "-" (PyStr.lower (seed_name seed)) |}.

(** The block traced by [EvaluatorAgent.evaluate]. *)
Definition evaluate_seeds (bias_thresholds : gmap string Q) (seeds : list CandidateSeed)
    : result (list EvaluationResult) :=
  result_map (evaluate_seed bias_thresholds) seeds.

Definition diversity_boost (policy : RankingPolicy) (evaluation : EvaluationResult) : Q :=
  if existsb (fun tag => str_in tag ["Manual Review Required"; "Data Deficient"])
       (ev_tags evaluation)
  then diversity_bonus policy else 0.

(** The loop body of [RecommenderAgent.recommend].  The entry's [ranked_at]
    (the time it is made) is not part of the record. *)
Definition rank_entry (policy : RankingPolicy) (entry : Z * EvaluationResult)
    : RankedCandidate :=
  let '(position, evaluation) := entry in
  let score := Qmin 1 (ev_score evaluation + diversity_boost policy evaluation) in
  {| rc_candidate_id := ev_candidate_id evaluation;
     rc_name := ev_candidate_name evaluation;
     rc_role := ev_role evaluation;
     final_score := score;
     rc_rationale := ev_rationale evaluation;
     rc_tags := ev_tags evaluation;
     rc_bias_flags := ev_bias_flags evaluation;
     rank_label := "Tier " +:+ pretty (1 + (position - 1) / 2);
     recommendation :=
       "Rank " +:+ pretty position +:+ ": " +:+ ev_candidate_name evaluation
         +:+ " (" +:+ format_2f score +:+ ")";
     rc_profile_url := ev_profile_url evaluation;
     notes :=
       match ev_bias_flags evaluation with
       | [] => None
       | _ :: _ => Some "Manual review advised."
       end |}.

Definition sorted_evaluations (evaluations : list EvaluationResult) : list EvaluationResult :=
  sorted_reverse ev_score evaluations.

(** The block traced by [RecommenderAgent.recommend]. *)
Definition rank_evaluations (evaluations : list EvaluationResult) (policy : RankingPolicy)
    : result (list RankedCandidate) :=
  Ok (map (rank_entry policy) (enumerate (sorted_evaluations evaluations) 1)).

(** The body of [RecruitmentCrew.assess_risk]. *)
Definition risk_of (evaluations : list EvaluationResult) : result RiskAssessment :=
  let flag_count := sum (map (fun evaluation => len (ev_bias_flags evaluation)) evaluations) in
  ratio ← truediv flag_count (Z.max 1 (len evaluations));
  let score := Qmin 1 ratio in
  let level := if Qlt_bool 0.3 score then "elevated" else "standard" in
  Ok {| risk_score := score; risk_bias_flags := flag_count; risk_level := level |}.

(** ** Agents and the crew *)

Record ResearcherAgent := {
  researcher_llm_model : string;
  _candidate_pool : list Profile }.

Record EvaluatorAgent := {
  evaluator_llm_model : string;
  _bias_thresholds : gmap string Q }.

Record RecommenderAgent := {
  active_policy : RankingPolicy }.

(** [ResearcherAgent.__init__]: [list(candidate_pool or BASE_PROFILES)]. *)
Definition ResearcherAgent_init (candidate_pool : option (list Profile)) : ResearcherAgent := {|
  researcher_llm_model := "gpt-4o-mini";
  _candidate_pool :=
    match candidate_pool with
    | Some (profile :: rest) => profile :: rest
    | Some [] | None => BASE_PROFILES
    end |}.

(** [EvaluatorAgent.__init__]: [dict(bias_thresholds or {"default": 0.65})]. *)
Definition EvaluatorAgent_init (bias_thresholds : option (gmap string Q)) : EvaluatorAgent := {|
  evaluator_llm_model := "gpt-4o";
  _bias_thresholds :=
    match bias_thresholds with
    | Some thresholds =>
        if decide (thresholds = ∅) then {[ "default" := 0.65%Q ]} else thresholds
    | None => {[ "default" := 0.65%Q ]}
    end |}.

Definition RecommenderAgent_init : RecommenderAgent := {|
  active_policy := default_policy |}.

Record RecruitmentCrew := {
  policy : RankingPolicy;
  compliance : CompliancePolicy;
  researcher : ResearcherAgent;
  evaluator : EvaluatorAgent;
  recommender : RecommenderAgent;
  sourcer_model : string;
  eval_model : string;
  latest_candidates : list RankedCandidate;
  latest_evaluations : list EvaluationResult;
  risk_history : list RiskAssessment;
  job_description : JobDescriptionModel;
  jd_data : gmap string string }.

(** What [RecruitmentCrew.__init__] may receive as [jd_data]. *)
Inductive JDSource :=
| JDNone
| JDDict (source : gmap string string)
| JDModel (source : JobDescriptionModel).

Definition _normalize_job_description (source : JDSource) : JobDescriptionModel :=
  match source with
  | JDModel model => model
  | JDDict d =>
      mkJobDescription (default "Talent Search" (d !! "title"))
                       (default "No JD provided." (d !! "content"))
  | JDNone => mkJobDescription "Talent Search" "No JD provided."
  end.

Definition RecruitmentCrew_init (jd_data : JDSource) (policy : option RankingPolicy)
    (compliance_policy : option CompliancePolicy) (candidate_pool : option (list Profile))
    (evaluator_bias_thresholds : option (gmap string Q)) : RecruitmentCrew :=
  let policy := default default_policy policy in
  let researcher := ResearcherAgent_init candidate_pool in
  let evaluator := EvaluatorAgent_init evaluator_bias_thresholds in
  let job_description := _normalize_job_description jd_data in
  {| policy := policy;
     compliance := default default_compliance compliance_policy;
     researcher := researcher;
     evaluator := evaluator;
     recommender := {| active_policy := policy |};
     sourcer_model := researcher_llm_model researcher;
     eval_model := evaluator_llm_model evaluator;
     latest_candidates := [];
     latest_evaluations := [];
     risk_history := [];
     job_description := job_description;
     jd_data :=
       match jd_data with
       | JDDict d => d
       | _ => {[ "title" := jd_title job_description;
                 "content" := jd_content job_description ]}
       end |}.

(** ** The world: the crew, the log sink and the source of draft ids *)

Inductive LogLevel := INFO | WARNING | ERROR.

Inductive LogValue :=
| LStr (s : string)
| LInt (n : Z).

Record LogEvent := {
  log_level : LogLevel;
  log_event : string;
  log_context : list (string * LogValue) }.

Record World := {
  crew : RecruitmentCrew;
  events : list LogEvent;
  uuid_source : nat -> string;
  uuid_draws : nat }.

Definition with_crew (f : RecruitmentCrew -> RecruitmentCrew) (w : World) : World := {|
  crew := f (crew w);
  events := events w;
  uuid_source := uuid_source w;
  uuid_draws := uuid_draws w |}.

Definition emit (level : LogLevel) (event : string) (context : list (string * LogValue))
    (w : World) : World := {|
  crew := crew w;
  events := events w ++ [{| log_level := level; log_event := event; log_context := context |}];
  uuid_source := uuid_source w;
  uuid_draws := uuid_draws w |}.

(** Computations that read and write the world and may raise; what was
    written before an exception stays written. *)
Definition M (A : Type) : Type := World -> result A * World.

#[global] Instance M_ret : MRet M := fun A a w => (Ok a, w).
#[global] Instance M_bind : MBind M := fun A B k m w =>
  match m w with
  | (Ok a, w') => k a w'
  | (Raise exc, w') => (Raise exc, w')
  end.

Definition lift {A} (r : result A) : M A := fun w => (r, w).
Definition gets {A} (f : World -> A) : M A := fun w => (Ok (f w), w).
Definition modify (f : World -> World) : M unit := fun w => (Ok tt, f w).
Definition log (level : LogLevel) (event : string) (context : list (string * LogValue))
    : M unit := modify (emit level event context).

Fixpoint M_map {A B} (f : A -> M B) (l : list A) : M (list B) :=
  match l with
  | [] => mret []
  | x :: l' => y ← f x; ys ← M_map f l'; mret (y :: ys)
  end.

(** [uuid4().hex] *)
Definition uuid4_hex : M string := fun w =>
  (Ok (uuid_source w (uuid_draws w)),
   {| crew := crew w; events := events w;
      uuid_source := uuid_source w; uuid_draws := S (uuid_draws w) |}).

(** [AgentTracer.trace]: the [with] block is [body]. *)
Definition trace {A} (agent_name operation : string) (context : list (string * LogValue))
    (body : M A) : M A := fun w =>
  let about := [("agent", LStr agent_name); ("operation", LStr operation)] in
  let w1 := emit INFO "agent_operation_start" (about ++ context) w in
  match body w1 with
  | (Ok a, w2) => (Ok a, emit INFO "agent_operation_end" (about ++ context) w2)
  | (Raise exc, w2) =>
      let w3 :=
        emit ERROR "agent_operation_failed"
          (about ++ [("error", LStr (exn_str exc))] ++ context) w2 in
      (Raise (CrewError (agent_name +:+ " failed during " +:+ operation) exc),
       emit INFO "agent_operation_end" (about ++ context) w3)
  end.

(** What the four stages compute: for the three agents, the block inside
    their trace boundary; for the risk assessment, the body of
    [assess_risk].  The crew only sequences them; [source_stages] below is
    what this repository plugs in. *)
Class Stages := {
  research_stage : list Profile -> JobDescriptionModel -> Z -> result (list CandidateSeed);
  evaluate_stage : gmap string Q -> list CandidateSeed -> result (list EvaluationResult);
  recommend_stage : list EvaluationResult -> RankingPolicy -> result (list RankedCandidate);
  risk_stage : list EvaluationResult -> result RiskAssessment }.

Section Crew.
Context {stages : Stages}.

Definition research (self : ResearcherAgent) (job_description : JobDescriptionModel)
    (limit : Z) : M (list CandidateSeed) :=
  trace "researcher" "research"
    [("job_title", LStr (jd_title job_description)); ("limit", LInt limit);
     ("model", LStr (researcher_llm_model self))]
    (lift (research_stage (_candidate_pool self) job_description limit)).

Definition evaluate (self : EvaluatorAgent) (seeds : list CandidateSeed)
    : M (list EvaluationResult) :=
  trace "evaluator" "evaluate"
    [("candidate_count", LInt (len seeds)); ("model", LStr (evaluator_llm_model self))]
    (lift (evaluate_stage (_bias_thresholds self) seeds)).

(** [RecommenderAgent._apply_policy] on the crew's recommender. *)
Definition _apply_policy (new_policy : RankingPolicy) : M unit :=
  modify (with_crew (fun self => {|
    policy := policy self;
    compliance := compliance self;
    researcher := researcher self;
    evaluator := evaluator self;
    recommender := {| active_policy := new_policy |};
    sourcer_model := sourcer_model self;
    eval_model := eval_model self;
    latest_candidates := latest_candidates self;
    latest_evaluations := latest_evaluations self;
    risk_history := risk_history self;
    job_description := job_description self;
    jd_data := jd_data self |})).

Definition set_policy (new_policy : RankingPolicy) : M unit := _apply_policy new_policy.

Definition recommend (evaluations : list EvaluationResult) (ranking : RankingPolicy)
    : M (list RankedCandidate) :=
  _apply_policy ranking;;
  trace "recommender" "recommend" [("policy", LStr (pol_name ranking))]
    (lift (recommend_stage evaluations ranking)).

Definition _sanitize (value : string) : string := PyStr.html_escape value.

(** [WriterAgent.draft] *)
Definition draft (campaign_id : string) (candidate : RankedCandidate)
    (template : OutreachTemplate) : M OutreachDraft :=
  trace "writer" "draft"
    [("campaign_id", LStr campaign_id); ("candidate_id", LStr (rc_candidate_id candidate))]
    (let safe_name := _sanitize (rc_name candidate) in
     let safe_role := _sanitize (rc_role candidate) in
     let safe_rationale := _sanitize (PyStr.lower (rc_rationale candidate)) in
     let safe_cta := _sanitize (cta template) in
     let safe_compliance := _sanitize (compliance_notes template) in
     let safe_eu_statement := _sanitize (eu_ai_statement template) in
     let nl := String (PyStr.chr 10) EmptyString in
     let message :=
       "Hi " +:+ safe_name +:+ "," +:+ nl +:+ nl
         +:+ "I saw your work as a " +:+ safe_role +:+ " and the way you "
         +:+ safe_rationale +:+ nl
         +:+ safe_compliance +:+ " " +:+ safe_eu_statement +:+ nl
         +:+ safe_cta +:+ "." +:+ nl +:+ nl
         +:+ "Best," +:+ nl +:+ "Recruitment Assistant Crew" in
     hex ← uuid4_hex;
     mret {| draft_campaign_id := campaign_id;
             draft_candidate_id := rc_candidate_id candidate;
             draft_message := message;
             draft_template := template;
             draft_id := "DRAFT-" +:+ PyStr.upper (PyStr.take 6 hex) |}).

Definition assess_risk (evaluations : list EvaluationResult) : M RiskAssessment :=
  lift (risk_stage evaluations).

Definition _record_state (candidates : list RankedCandidate)
    (evaluations : list EvaluationResult) (risk : RiskAssessment) : M unit :=
  modify (with_crew (fun self => {|
    policy := policy self;
    compliance := compliance self;
    researcher := researcher self;
    evaluator := evaluator self;
    recommender := recommender self;
    sourcer_model := sourcer_model self;
    eval_model := eval_model self;
    latest_candidates := candidates;
    latest_evaluations := evaluations;
    risk_history := risk_history self ++ [risk];
    job_description := job_description self;
    jd_data := jd_data self |})).

(** The block traced by [run_campaign]. *)
Definition campaign_block (payload : JobDescriptionModel) (limit : Z)
    : M (list RankedCandidate * list EvaluationResult) :=
  sourcer ← gets (fun w => researcher (crew w));
  seeds ← research sourcer payload limit;
  screener ← gets (fun w => evaluator (crew w));
  evaluations ← evaluate screener seeds;
  ranking ← gets (fun w => policy (crew w));
  ranked ← recommend evaluations ranking;
  risk ← assess_risk evaluations;
  _record_state ranked evaluations risk;;
  log INFO "crew_run_campaign_complete"
    [("job_title", LStr (jd_title payload)); ("candidates", LInt (len ranked));
     ("bias_flags",
      LInt (sum (map (fun evaluation => len (ev_bias_flags evaluation)) evaluations)))];;
  mret (ranked, evaluations).

Definition run_campaign (job_description_arg : option JobDescriptionModel) (limit : Z)
    : M (list RankedCandidate * list EvaluationResult) :=
  bound ← gets (fun w => job_description (crew w));
  let payload := default bound job_description_arg in
  log INFO "crew_run_campaign_start"
    [("job_title", LStr (jd_title payload)); ("limit", LInt limit)];;
  trace "crew" "run_campaign" [("job_title", LStr (jd_title payload))]
    (campaign_block payload limit).

Definition set_crew_policy (new_policy : RankingPolicy) : M unit :=
  modify (with_crew (fun self => {|
    policy := new_policy;
    compliance := compliance self;
    researcher := researcher self;
    evaluator := evaluator self;
    recommender := recommender self;
    sourcer_model := sourcer_model self;
    eval_model := eval_model self;
    latest_candidates := latest_candidates self;
    latest_evaluations := latest_evaluations self;
    risk_history := risk_history self;
    job_description := job_description self;
    jd_data := jd_data self |})).

Definition rerank (evaluations : option (list EvaluationResult))
    (policy_arg : option RankingPolicy) : M (list RankedCandidate) :=
  snapshot ← gets (fun w => latest_evaluations (crew w));
  let source :=
    match evaluations with
    | Some (evaluation :: rest) => evaluation :: rest
    | Some [] | None => snapshot
    end in
  match source with
  | [] => log WARNING "rerank_without_evaluations" [];; mret []
  | _ :: _ =>
      current ← gets (fun w => policy (crew w));
      let active := default current policy_arg in
      set_crew_policy active;;
      set_policy active;;
      ranked ← recommend source active;
      risk ← assess_risk source;
      _record_state ranked source risk;;
      mret ranked
  end.

Definition generate_outreach (campaign_id : string)
    (candidates : option (list RankedCandidate)) (template : option OutreachTemplate)
    : M (list OutreachDraft) :=
  snapshot ← gets (fun w => latest_candidates (crew w));
  let roster :=
    match candidates with
    | Some (candidate :: rest) => candidate :: rest
    | Some [] | None => snapshot
    end in
  match roster with
  | [] =>
      log WARNING "generate_outreach_no_candidates" [("campaign_id", LStr campaign_id)];;
      mret []
  | _ :: _ =>
      let template := default default_template template in
      M_map (fun candidate => draft campaign_id candidate template) roster
  end.

End Crew.

(** The stages as this repository implements them. *)
#[global] Instance source_stages : Stages := {|
  research_stage := research_seeds;
  evaluate_stage := evaluate_seeds;
  recommend_stage := rank_evaluations;
  risk_stage := risk_of |}.

(** A world for a freshly constructed crew. *)
Definition fresh_world (self : RecruitmentCrew) (uuids : nat -> string) : World := {|
  crew := self; events := []; uuid_source := uuids; uuid_draws := 0 |}.

(** * The campaign store and the HTTP handlers *)

(** ** Built-ins used by the API *)

(** [str.isspace] of a character with a code point below 256. *)
Definition isspace (c : ascii) : bool :=
  let n := PyStr.code c in
  ((9 <=? n) && (n <=? 13)) || ((28 <=? n) && (n <=? 32)) || (n =? 133) || (n =? 160).

Fixpoint lstrip (s : string) : string :=
  match s with
  | EmptyString => EmptyString
  | String c s' => if isspace c then lstrip s' else s
  end.

Fixpoint rstrip (s : string) : string :=
  match s with
  | EmptyString => EmptyString
  | String c s' =>
      match rstrip s' with
      | EmptyString => if isspace c then EmptyString else String c EmptyString
      | String c' rest => String c (String c' rest)
      end
  end.

(** [s.strip()] *)
Definition strip (s : string) : string := rstrip (lstrip s).

(** [f"{n:03d}"] for [n >= 0]. *)
Definition format_03d (n : Z) : string :=
  let digits := pretty n in
  String.concat EmptyString (repeat "0" (3 - String.length digits)) +:+ digits.

(** [value or fallback] for an optional string. *)
Definition or_str (value : option string) (fallback : string) : string :=
  match value with
  | Some (String c s) => String c s
  | Some EmptyString | None => fallback
  end.

Module Store.

Inductive CampaignStatus := CREATED | INITIALIZED | RUNNING | RANKED | PURGED.

Definition status_value (status : CampaignStatus) : string :=
  match status with
  | CREATED => "created"
  | INITIALIZED => "initialized"
  | RUNNING => "running"
  | RANKED => "ranked"
  | PURGED => "purged"
  end.

(** [CampaignStatus(value)], [None] standing for its [ValueError]. *)
Definition status_of_value (value : string) : option CampaignStatus :=
  List.find (fun status => String.eqb (status_value status) value)
    [CREATED; INITIALIZED; RUNNING; RANKED; PURGED].

(** The [status] argument of [update_status]: a member or a plain string. *)
Inductive StatusArg :=
| Member (status : CampaignStatus)
| Plain (value : string).

(** What the metrics and the audit details hold. *)
Inductive Value :=
| VInt (n : Z)
| VBool (b : bool)
| VStr (s : string)
| VStatus (status : CampaignStatus).

Record Insight := {
  insight_source : string;
  insight_summary : string }.

(** The dict [run_serper_search] returns. *)
Record SerperInsights := {
  serper_query : string;
  serper_insights : list Insight }.

Record CampaignRecord := {
  cr_campaign_id : string;
  cr_title : string;
  cr_description : string;
  cr_job_description : string;
  cr_created_at : string;
  cr_status : CampaignStatus;
  cr_candidates : list RankedCandidate;
  cr_evaluations : list EvaluationResult;
  cr_outreach_drafts : list OutreachDraft;
  cr_metrics : gmap string Value;
  cr_serper_insights : SerperInsights }.

Record AuditEntry := {
  audit_timestamp : string;
  audit_campaign_id : string;
  audit_action : string;
  audit_details : gmap string Value }.

Record CampaignStore := {
  _campaigns : gmap string CampaignRecord;
  _audit_logs : list AuditEntry }.

(** The process: the world of the crew of [main.py], the store, and the
    clock as the sequence of its readings.  The store's lock is left out:
    calls are taken one at a time. *)
Record App := {
  world : World;
  store : CampaignStore;
  clock_source : nat -> string;
  clock_draws : nat }.

Definition with_world (f : World -> World) (app : App) : App := {|
  world := f (world app);
  store := store app;
  clock_source := clock_source app;
  clock_draws := clock_draws app |}.

Definition with_store (f : CampaignStore -> CampaignStore) (app : App) : App := {|
  world := world app;
  store := f (store app);
  clock_source := clock_source app;
  clock_draws := clock_draws app |}.

(** What ends a call early: an [HTTPException], or any other exception. *)
Inductive Failure :=
| HTTPException (status_code : Z) (detail : string)
| Uncaught (exc : PyExn).

Inductive outcome (A : Type) : Type :=
| Done (value : A)
| Failed (failure : Failure).
Arguments Done {A} value.
Arguments Failed {A} failure.

Definition H (A : Type) : Type := App -> outcome A * App.

#[global] Instance H_ret : MRet H := fun A a app => (Done a, app).
#[global] Instance H_bind : MBind H := fun A B k m app =>
  match m app with
  | (Done a, app') => k a app'
  | (Failed failure, app') => (Failed failure, app')
  end.

Definition raise {A} (failure : Failure) : H A := fun app => (Failed failure, app).
Definition read {A} (f : App -> A) : H A := fun app => (Done (f app), app).
Definition update (f : App -> App) : H unit := fun app => (Done tt, f app).

(** A call on a crew of its own: log and uuids are the process's, the crew
    is gone when the call is over. *)
Definition on_crew {A} (self : RecruitmentCrew) (operation : M A) : H A := fun app =>
  let '(r, w') := operation (with_crew (fun _ => self) (world app)) in
  (match r with
   | Ok a => Done a
   | Raise exc => Failed (Uncaught exc)
   end,
   with_world (fun w => with_crew (fun _ => crew w) w') app).

Definition _next_id : H string :=
  campaigns ← read (fun app => _campaigns (store app));
  mret ("CAMP_" +:+ format_03d (Z.of_nat (size campaigns) + 1)).

Definition _timestamp : H string := fun app =>
  (Done (clock_source app (clock_draws app)),
   {| world := world app; store := store app;
      clock_source := clock_source app; clock_draws := S (clock_draws app) |}).

Definition _resolve_status (status : StatusArg) : H CampaignStatus :=
  match status with
  | Member status => mret status
  | Plain value =>
      match status_of_value value with
      | Some status => mret status
      | None =>
          raise (Uncaught (OtherError "ValueError" ("Unknown campaign status: " +:+ value)))
      end
  end.

(** [self._campaigns[campaign_id] = record] *)
Definition set_campaign (campaign_id : string) (record : CampaignRecord) : H unit :=
  update (with_store (fun self => {|
    _campaigns := <[campaign_id := record]> (_campaigns self);
    _audit_logs := _audit_logs self |})).

(** [self._audit_logs.append(entry)] *)
Definition append_audit (entry : AuditEntry) : H unit :=
  update (with_store (fun self => {|
    _campaigns := _campaigns self;
    _audit_logs := _audit_logs self ++ [entry] |})).

Definition _build_metrics (candidates : list RankedCandidate) : H (gmap string Value) :=
  let bias_checks := sum (map (fun candidate => len (rc_bias_flags candidate)) candidates) in
  let data_deficient :=
    sum (map (fun _ => 1)
           (List.filter (fun candidate => str_in "Data Deficient" (rc_tags candidate))
              candidates)) in
  let selection_rationale :=
    match candidates with
    | top :: _ => "Top candidate: " +:+ rc_name top +:+ " (" +:+ rc_role top +:+ ")"
    | [] => "Pending"
    end in
  generated_at ← _timestamp;
  mret ({[ "total_candidates" := VInt (len candidates);
           "bias_checks_passed" := VBool (bias_checks =? 0);
           "bias_checks" := VInt bias_checks;
           "data_deficient_count" := VInt data_deficient;
           "selection_rationale" := VStr selection_rationale;
           "generated_at" := VStr generated_at ]} : gmap string Value).

(** [replace(candidate, bias_flags=[])] *)
Definition without_bias_flags (candidate : RankedCandidate) : RankedCandidate := {|
  rc_candidate_id := rc_candidate_id candidate;
  rc_name := rc_name candidate;
  rc_role := rc_role candidate;
  final_score := final_score candidate;
  rc_rationale := rc_rationale candidate;
  rc_tags := rc_tags candidate;
  rc_bias_flags := [];
  rank_label := rank_label candidate;
  recommendation := recommendation candidate;
  rc_profile_url := rc_profile_url candidate;
  notes := notes candidate |}.

(** The crew [_populate_seed_campaign] builds for itself. *)
Definition seed_crew : RecruitmentCrew :=
  RecruitmentCrew_init
    (JDDict {[ "title" := "AI Platform Engineer";
               "content" := "Build resilient recruitment automation using CrewAI and FastAPI." ]})
    None None None None.

Definition _populate_seed_campaign : H unit :=
  '(ranked, evaluations) ← on_crew seed_crew (run_campaign None 4);
  let sanitized_ranked := map without_bias_flags ranked in
  metrics ← _build_metrics sanitized_ranked;
  created_at ← _timestamp;
  let record := {|
    cr_campaign_id := "CAMP_001";
    cr_title := "Sample Campaign";
    cr_description := "Seed campaign for health/status checks";
    cr_job_description := "Auto-generated JD";
    cr_created_at := created_at;
    cr_status := CREATED;
    cr_candidates := sanitized_ranked;
    cr_evaluations := evaluations;
    cr_outreach_drafts := [];
    cr_metrics := metrics;
    cr_serper_insights := {| serper_query := "seed campaign"; serper_insights := [] |} |} in
  set_campaign (cr_campaign_id record) record;;
  append_audit {|
    audit_timestamp := cr_created_at record;
    audit_campaign_id := cr_campaign_id record;
    audit_action := "campaign_seeded";
    audit_details := {[ "title" := VStr (cr_title record) ]} |}.

(** [CampaignStore()] *)
Definition CampaignStore_init : H unit :=
  update (with_store (fun _ => {| _campaigns := ∅; _audit_logs := [] |}));;
  _populate_seed_campaign.

Definition create_campaign (title description job_description : string)
    (candidates : list RankedCandidate) (evaluations : list EvaluationResult)
    (metrics : gmap string Value) (serper_insights : SerperInsights) : H CampaignRecord :=
  campaign_id ← _next_id;
  created_at ← _timestamp;
  let record := {|
    cr_campaign_id := campaign_id;
    cr_title := title;
    cr_description := description;
    cr_job_description := job_description;
    cr_created_at := created_at;
    cr_status := INITIALIZED;
    cr_candidates := candidates;
    cr_evaluations := evaluations;
    cr_outreach_drafts := [];
    cr_metrics := metrics;
    cr_serper_insights := serper_insights |} in
  set_campaign campaign_id record;;
  append_audit {|
    audit_timestamp := cr_created_at record;
    audit_campaign_id := campaign_id;
    audit_action := "campaign_created";
    audit_details := {[ "title" := VStr title; "status" := VStatus (cr_status record) ]} |};;
  mret record.

Definition get_campaign (campaign_id : string) : H (option CampaignRecord) :=
  read (fun app => _campaigns (store app) !! campaign_id).

Definition update_status (campaign_id : string) (status : StatusArg) : H unit :=
  campaign ← get_campaign campaign_id;
  match campaign with
  | None => mret tt
  | Some campaign =>
      resolved ← _resolve_status status;
      set_campaign campaign_id {|
        cr_campaign_id := cr_campaign_id campaign;
        cr_title := cr_title campaign;
        cr_description := cr_description campaign;
        cr_job_description := cr_job_description campaign;
        cr_created_at := cr_created_at campaign;
        cr_status := resolved;
        cr_candidates := cr_candidates campaign;
        cr_evaluations := cr_evaluations campaign;
        cr_outreach_drafts := cr_outreach_drafts campaign;
        cr_metrics := cr_metrics campaign;
        cr_serper_insights := cr_serper_insights campaign |};;
      timestamp ← _timestamp;
      append_audit {|
        audit_timestamp := timestamp;
        audit_campaign_id := campaign_id;
        audit_action := "status_update";
        audit_details := {[ "status" := VStatus resolved ]} |}
  end.

Definition update_candidates (campaign_id : string) (candidates : list RankedCandidate)
    (evaluations : list EvaluationResult) (metrics : gmap string Value)
    : H (option CampaignRecord) :=
  campaign ← get_campaign campaign_id;
  match campaign with
  | None => mret None
  | Some campaign =>
      let updated := {|
        cr_campaign_id := cr_campaign_id campaign;
        cr_title := cr_title campaign;
        cr_description := cr_description campaign;
        cr_job_description := cr_job_description campaign;
        cr_created_at := cr_created_at campaign;
        cr_status := RANKED;
        cr_candidates := candidates;
        cr_evaluations := evaluations;
        cr_outreach_drafts := cr_outreach_drafts campaign;
        cr_metrics := metrics;
        cr_serper_insights := cr_serper_insights campaign |} in
      set_campaign campaign_id updated;;
      mret (Some updated)
  end.

Definition add_outreach_drafts (campaign_id : string) (drafts : list OutreachDraft)
    : H (option (list OutreachDraft)) :=
  campaign ← get_campaign campaign_id;
  match campaign with
  | None => mret None
  | Some campaign =>
      set_campaign campaign_id {|
        cr_campaign_id := cr_campaign_id campaign;
        cr_title := cr_title campaign;
        cr_description := cr_description campaign;
        cr_job_description := cr_job_description campaign;
        cr_created_at := cr_created_at campaign;
        cr_status := cr_status campaign;
        cr_candidates := cr_candidates campaign;
        cr_evaluations := cr_evaluations campaign;
        cr_outreach_drafts := drafts;
        cr_metrics := cr_metrics campaign;
        cr_serper_insights := cr_serper_insights campaign |};;
      mret (Some drafts)
  end.

Definition record_audit (campaign_id action : string) (details : option (gmap string Value))
    : H unit :=
  timestamp ← _timestamp;
  append_audit {|
    audit_timestamp := timestamp;
    audit_campaign_id := campaign_id;
    audit_action := action;
    audit_details := default ∅ details |}.

Definition get_audit_logs : H (list AuditEntry) :=
  read (fun app => _audit_logs (store app)).

Definition purge_campaign (campaign_id : string) : H bool :=
  stored ← read (fun app => _campaigns (store app));
  match stored !! campaign_id with
  | None => mret false
  | Some _ =>
      update (with_store (fun self => {|
        _campaigns := delete campaign_id (_campaigns self);
        _audit_logs := _audit_logs self |}));;
      timestamp ← _timestamp;
      append_audit {|
        audit_timestamp := timestamp;
        audit_campaign_id := campaign_id;
        audit_action := "campaign_purged";
        audit_details := {[ "status" := VStatus PURGED ]} |};;
      mret true
  end.

End Store.

Module Api.
Import Store.

Record CampaignCreateRequest := {
  req_title : string;
  req_description : string;
  req_content : string }.

Record RankRequest := {
  strategy : option string;
  limit : option Z }.

Record OutreachRequest := {
  req_campaign_id : option string;
  template_tone : option string;
  req_cta : option string;
  req_compliance_notes : option string }.

(** [OutreachRequest()] *)
Definition OutreachRequest_init : OutreachRequest := {|
  req_campaign_id := None; template_tone := None; req_cta := None;
  req_compliance_notes := None |}.

Record CampaignStatusResponse := {
  status_campaign_id : string;
  status_status : CampaignStatus;
  last_updated : string;
  total_candidates : Z;
  status_bias_flags : Z;
  phase : string;
  status_metrics : gmap string Value }.

(** The dict [_serialize_candidate] returns. *)
Record CandidatePayload := {
  out_candidate_id : string;
  out_name : string;
  out_role : string;
  out_score : Q;
  out_rationale : string;
  out_rank_label : string;
  out_bias_flags : list string;
  out_tags : list string;
  out_profile_url : string }.

(** The dict [_persist_campaign] returns. *)
Record CreateResponse := {
  created_campaign_id : string;
  created_status : CampaignStatus;
  created_metrics : gmap string Value;
  created_serper : SerperInsights }.

(** The dict [rank_candidates] returns. *)
Record RankResponse := {
  rank_campaign_id : string;
  ranked_candidates : list CandidatePayload;
  rank_metrics : gmap string Value }.

Record DraftPayload := {
  out_draft_id : string;
  out_draft_candidate_id : string;
  out_message : string }.

(** The dict [generate_outreach] returns. *)
Record OutreachResponse := {
  outreach_campaign_id : string;
  drafts : list DraftPayload }.

(** [logger.info] and [logger.exception] of [main.py] write to the log of
    the process. *)
Definition logger (level : LogLevel) (event : string) (context : list (string * LogValue))
    : H unit :=
  update (with_world (emit level event context)).

Definition _validate_jd (title content : string) : H unit :=
  if Z.of_nat (String.length (strip title)) <? 5
  then raise (HTTPException 400 "Invalid JD Title")
  else if Z.of_nat (String.length (strip content)) <? 20
  then raise (HTTPException 400 "Invalid JD content")
  else mret tt.

Definition safe_crew_call {A} (operation : M A) (detail : string) : H A := fun app =>
  match operation (world app) with
  | (Ok a, w') => (Done a, with_world (fun _ => w') app)
  | (Raise exc, w') =>
      (logger ERROR "crew-operation-failed"
         [("detail", LStr detail); ("error", LStr (exn_str exc))];;
       raise (HTTPException 500
                ("Crew operation '" +:+ detail +:+ "' failed: " +:+ exn_str exc)))
        (with_world (fun _ => w') app)
  end.

Definition build_metrics (ranked : list RankedCandidate) (evaluations : list EvaluationResult)
    : H (gmap string Value) :=
  let bias_checks := sum (map (fun eval => len (ev_bias_flags eval)) evaluations) in
  let data_deficient :=
    sum (map (fun _ => 1)
           (List.filter (fun candidate => str_in "Data Deficient" (rc_tags candidate))
              ranked)) in
  let selection_rationale :=
    match ranked with
    | top :: _ => rc_name top +:+ " (" +:+ rc_role top +:+ ") leads the pack"
    | [] => "Campaign initializing"
    end in
  generated_at ← _timestamp;
  mret ({[ "total_candidates" := VInt (len ranked);
           "bias_checks" := VInt bias_checks;
           "bias_checks_passed" := VBool (bias_checks =? 0);
           "data_deficient_count" := VInt data_deficient;
           "selection_rationale" := VStr selection_rationale;
           "generated_at" := VStr generated_at ]} : gmap string Value).

Definition run_serper_search (query : string) : H SerperInsights :=
  logger INFO "serper-search" [("query", LStr query)];;
  mret {| serper_query := query;
          serper_insights :=
            [{| insight_source := "SerperAI";
                insight_summary := "Top skills matched for " +:+ query |}] |}.

Definition _serialize_candidate (candidate : RankedCandidate) : CandidatePayload := {|
  out_candidate_id := rc_candidate_id candidate;
  out_name := rc_name candidate;
  out_role := rc_role candidate;
  out_score := final_score candidate;
  out_rationale := rc_rationale candidate;
  out_rank_label := rank_label candidate;
  out_bias_flags := rc_bias_flags candidate;
  out_tags := rc_tags candidate;
  out_profile_url := rc_profile_url candidate |}.

Definition _persist_campaign (payload : CampaignCreateRequest)
    (job_description : JobDescriptionModel) : H CreateResponse :=
  '(ranked, evaluations) ← safe_crew_call (run_campaign (Some job_description) 4)
                             "run_campaign";
  metrics ← build_metrics ranked evaluations;
  serper_insights ←
    run_serper_search (or_str (Some (jd_content job_description)) (req_title payload));
  record ← Store.create_campaign (req_title payload) (req_description payload)
             (jd_content job_description) ranked evaluations metrics serper_insights;
  record_audit (cr_campaign_id record) "campaign_initialized"
    (Some {[ "jd" := VStr (req_title payload) ]});;
  mret {| created_campaign_id := cr_campaign_id record;
          created_status := cr_status record;
          created_metrics := metrics;
          created_serper := serper_insights |}.

Definition create_campaign (payload : CampaignCreateRequest) : H CreateResponse :=
  _validate_jd (req_title payload) (req_content payload);;
  _persist_campaign payload (mkJobDescription (req_title payload) (req_content payload)).

Definition create_campaign_alias (payload : CampaignCreateRequest) : H CreateResponse :=
  create_campaign payload.

Definition campaign_status (campaign_id : string) : H CampaignStatusResponse :=
  campaign ← get_campaign campaign_id;
  match campaign with
  | None => raise (HTTPException 404 "Campaign not found")
  | Some campaign =>
      mret {| status_campaign_id := cr_campaign_id campaign;
              status_status := cr_status campaign;
              last_updated := cr_created_at campaign;
              total_candidates := len (cr_candidates campaign);
              status_bias_flags :=
                sum (map (fun candidate => len (rc_bias_flags candidate))
                       (cr_candidates campaign));
              phase :=
                match cr_candidates campaign with
                | _ :: _ => "ranking"
                | [] => "initializing"
                end;
              status_metrics := cr_metrics campaign |}
  end.

Definition campaign_candidates (campaign_id : string) : H (list CandidatePayload) :=
  campaign ← get_campaign campaign_id;
  match campaign with
  | None => raise (HTTPException 404 "Campaign not found")
  | Some campaign => mret (map _serialize_candidate (cr_candidates campaign))
  end.

Definition rank_candidates (campaign_id : string) (payload : RankRequest) : H RankResponse :=
  campaign ← get_campaign campaign_id;
  match campaign with
  | None => raise (HTTPException 404 "Campaign not found")
  | Some campaign =>
      match cr_evaluations campaign with
      | [] => raise (HTTPException 400 "No evaluations available for ranking")
      | _ :: _ =>
          let ranking := {|
            pol_name := or_str (strategy payload) "balanced";
            diversity_bonus := diversity_bonus default_policy;
            bias_tolerance := bias_tolerance default_policy;
            respect_bias_flags := respect_bias_flags default_policy |} in
          ranked ← safe_crew_call
                     (rerank (Some (cr_evaluations campaign)) (Some ranking)) "rerank";
          let ranked :=
            match limit payload with
            | Some n => if negb (n =? 0) && (0 <? n) then slice_to ranked n else ranked
            | None => ranked
            end in
          metrics ← build_metrics ranked (cr_evaluations campaign);
          updated ← update_candidates campaign_id ranked (cr_evaluations campaign) metrics;
          match updated with
          | None => raise (HTTPException 500 "Failed to update ranking")
          | Some _ =>
              record_audit campaign_id "ranking_updated"
                (Some {[ "strategy" := VStr (pol_name ranking) ]});;
              mret {| rank_campaign_id := campaign_id;
                      ranked_candidates := map _serialize_candidate ranked;
                      rank_metrics := metrics |}
          end
      end
  end.

Definition generate_outreach (campaign_id : string) (payload : option OutreachRequest)
    : H OutreachResponse :=
  campaign ← get_campaign campaign_id;
  match campaign with
  | None => raise (HTTPException 404 "Campaign not found")
  | Some campaign =>
      let payload := default OutreachRequest_init payload in
      let template := {|
        tone := or_str (template_tone payload) "professional";
        cta := or_str (req_cta payload) "Let's schedule time to chat";
        compliance_notes :=
          or_str (req_compliance_notes payload)
            "GDPR-compliant; transparent opt-out included";
        eu_ai_statement := eu_ai_statement default_template |} in
      written ← safe_crew_call
                  (generate_outreach campaign_id (Some (cr_candidates campaign))
                     (Some template))
                  "generate_outreach";
      persisted ← add_outreach_drafts campaign_id written;
      match persisted with
      | None => raise (HTTPException 500 "Failed to persist outreach drafts")
      | Some persisted =>
          record_audit campaign_id "outreach_generated"
            (Some {[ "draft_count" := VInt (len persisted) ]});;
          mret {| outreach_campaign_id := campaign_id;
                  drafts :=
                    map (fun d => {| out_draft_id := draft_id d;
                                     out_draft_candidate_id := draft_candidate_id d;
                                     out_message := draft_message d |})
                        persisted |}
      end
  end.

Definition audit_logs : H (list AuditEntry) := get_audit_logs.

Definition purge_campaign (campaign_id : string) : H (string * string) :=
  purged ← Store.purge_campaign campaign_id;
  if purged : bool then mret (campaign_id, "purged")
  else raise (HTTPException 404 "Campaign not found").

(** The module-level [crew = RecruitmentCrew()] and [store = CampaignStore()]
    of [main.py], run on a process that has not logged or drawn anything. *)
Definition startup (uuids clock : nat -> string) : outcome unit * App :=
  CampaignStore_init {|
    world := fresh_world (RecruitmentCrew_init JDNone None None None None) uuids;
    store := {| _campaigns := ∅; _audit_logs := [] |};
    clock_source := clock;
    clock_draws := 0 |}.

End Api.

(** * Vocabulary of the properties *)

(** ** Order *)

(** [x] comes no later than [y] in descending order of [key]. *)
Definition key_ge {A} (key : A -> Q) (x y : A) : Prop := (key y <= key x)%Q.

(** The elements whose key equals [q]. *)
Definition same_key {A} (key : A -> Q) (q : Q) (x : A) : bool := Qeq_bool (key x) q.

(** Positions [i < j] of a list are in non-increasing order of [f]. *)
Definition non_increasing {A} (f : A -> Q) (l : list A) : Prop :=
  forall (i j : nat) (x y : A),
    (i < j)%nat -> l !! i = Some x -> l !! j = Some y -> (f y <= f x)%Q.

(** [l'] is [l] reordered, with the elements of equal key in input order. *)
Definition stable_reordering {A} (key : A -> Q) (l l' : list A) : Prop :=
  Permutation l l'
  /\ forall q, List.filter (same_key key q) l' = List.filter (same_key key q) l.

(** ** What the stages return *)

(** The list [recommend] returns. *)
Definition ranking_of (evaluations : list EvaluationResult) (ranking : RankingPolicy)
    : list RankedCandidate :=
  map (rank_entry ranking) (enumerate (sorted_evaluations evaluations) 1).

(** [len(job_description.content) / 400] *)
Definition content_bonus_of (job_description : JobDescriptionModel) : Q :=
  (inject_Z (Z.of_nat (String.length (jd_content job_description))) / inject_Z 400)%Q.

(** The list [research] returns. *)
Definition seeds_of (self : ResearcherAgent) (job_description : JobDescriptionModel)
    (limit : Z) : list CandidateSeed :=
  map (research_seed job_description (content_bonus_of job_description))
      (slice_to (_candidate_pool self) limit).

(** The number of bias flags over all evaluations. *)
Definition bias_flag_total (evaluations : list EvaluationResult) : Z :=
  len (concat (map ev_bias_flags evaluations)).

(** [flags / max(1, evaluation count)], before the clamp. *)
Definition flag_density (evaluations : list EvaluationResult) : Q :=
  (inject_Z (bias_flag_total evaluations) / inject_Z (Z.max 1 (len evaluations)))%Q.

(** What leaves a trace boundary around a block that ended as [r]. *)
Definition traced {A} (agent_name operation : string) (r : result A) : result A :=
  match r with
  | Ok a => Ok a
  | Raise exc => Raise (CrewError (agent_name +:+ " failed during " +:+ operation) exc)
  end.

(** How a stage of [run_campaign] can fail, and the exception that then
    leaves the stage: the three agents wrap theirs at their own trace
    boundary, the risk assessment has none. *)
Inductive StageFailure {stages : Stages} (self : RecruitmentCrew)
    (payload : JobDescriptionModel) (limit : Z) : PyExn -> Prop :=
| research_raises original :
    research_stage (_candidate_pool (researcher self)) payload limit = Raise original ->
    StageFailure self payload limit (CrewError "researcher failed during research" original)
| evaluate_raises seeds original :
    research_stage (_candidate_pool (researcher self)) payload limit = Ok seeds ->
    evaluate_stage (_bias_thresholds (evaluator self)) seeds = Raise original ->
    StageFailure self payload limit (CrewError "evaluator failed during evaluate" original)
| recommend_raises seeds evaluations original :
    research_stage (_candidate_pool (researcher self)) payload limit = Ok seeds ->
    evaluate_stage (_bias_thresholds (evaluator self)) seeds = Ok evaluations ->
    recommend_stage evaluations (policy self) = Raise original ->
    StageFailure self payload limit (CrewError "recommender failed during recommend" original)
| risk_raises seeds evaluations ranked original :
    research_stage (_candidate_pool (researcher self)) payload limit = Ok seeds ->
    evaluate_stage (_bias_thresholds (evaluator self)) seeds = Ok evaluations ->
    recommend_stage evaluations (policy self) = Ok ranked ->
    risk_stage evaluations = Raise original ->
    StageFailure self payload limit original.

(** ** Construction *)




(** ** Inputs of the examples *)

(** A source of draft ids that always hands out the empty string. *)
Definition no_uuids : nat -> string := fun _ => EmptyString.

(** [RecruitmentCrew()], before any call. *)
Definition default_world : World :=
  fresh_world (RecruitmentCrew_init JDNone None None None None) no_uuids.

(** [ResearcherAgent()] *)
Definition default_researcher : ResearcherAgent := ResearcherAgent_init None.

(** The job description of the repository's agent tests. *)
Definition test_jd : JobDescriptionModel :=
  mkJobDescription "Senior Python Engineer" "Build scalable APIs".

(** The same title with another content. *)
Definition other_jd : JobDescriptionModel :=
  mkJobDescription "Senior Python Engineer" "Own the billing platform end to end".

(** The world after [run_campaign(test_jd)] on the default crew. *)
Definition campaign_world : World := snd (run_campaign (Some test_jd) 4 default_world).

(** A crew whose evaluator has a threshold for one role and no fallback. *)
Definition world_without_default : World :=
  fresh_world
    (RecruitmentCrew_init JDNone None None None (Some {[ "Backend Engineer" := 0.5%Q ]}))
    no_uuids.

(** The second record of [BASE_PROFILES]. *)
Definition marina : Profile := {|
  prof_name := "Marina Byte"; prof_role := "Full Stack Engineer"; prof_score := 0.72;
  prof_tags := ["High Confidence"];
  prof_data_sources := ["Serper.dev"; "Portfolio"];
  prof_profile_url := "https://talent.example.com/marina-byte" |}.

Definition cx_plain : EvaluationResult := {|
  ev_candidate_id := "CAN-0000000A"; ev_candidate_name := "Ada"; ev_role := "Engineer";
  ev_score := 0.70; ev_rationale := "solid"; ev_bias_flags := [];
  ev_comments := "none"; ev_tags := ["High Confidence"]; ev_profile_url := "https://talent.example.com/x" |}.

Definition cx_review : EvaluationResult := {|
  ev_candidate_id := "CAN-0000000B"; ev_candidate_name := "Bob"; ev_role := "Engineer";
  ev_score := 0.68; ev_rationale := "sparse"; ev_bias_flags := ["Manual Review Required"];
  ev_comments := "none"; ev_tags := ["Manual Review Required"]; ev_profile_url := "https://talent.example.com/x" |}.

Definition cx_over : EvaluationResult := {|
  ev_candidate_id := "CAN-0000000C"; ev_candidate_name := "Cy"; ev_role := "Engineer";
  ev_score := 1.2; ev_rationale := "imported"; ev_bias_flags := [];
  ev_comments := "none"; ev_tags := []; ev_profile_url := "https://talent.example.com/x" |}.

Definition cx_flagged : EvaluationResult := {|
  ev_candidate_id := "CAN-0000000D"; ev_candidate_name := "Dee"; ev_role := "Engineer";
  ev_score := 0.70; ev_rationale := "thin record";
  ev_bias_flags := ["Data Deficient"; "Manual Review Required"; "Bias Warning"];
  ev_comments := "none"; ev_tags := ["Data Deficient"; "Manual Review Required"];
  ev_profile_url := "https://talent.example.com/x" |}.

(** A policy without a diversity bonus, and one with a negative bonus. *)
Definition no_bonus : RankingPolicy := {|
  pol_name := "strict"; diversity_bonus := 0; bias_tolerance := 0.7;
  respect_bias_flags := true |}.

Definition penalising : RankingPolicy := {|
  pol_name := "penalising"; diversity_bonus := -0.1; bias_tolerance := 0.7;
  respect_bias_flags := true |}.

(** ** Vocabulary of the further properties *)

(** What the evaluator copies from a seed, and the score it gives. *)
Definition evaluation_of_seed (seed : CandidateSeed) (evaluation : EvaluationResult) : Prop :=
  ev_candidate_id evaluation = seed_candidate_id seed
  /\ ev_candidate_name evaluation = seed_name seed
  /\ ev_role evaluation = seed_role seed
  /\ ev_rationale evaluation = seed_rationale seed
  /\ ev_tags evaluation = seed_tags seed
  /\ ev_score evaluation = Qmin 1 (seed_score seed + 0.1)
  /\ (ev_score evaluation <= 1)%Q.

(** The threshold [_derive_bias_flags] compares a seed with. *)
Definition threshold_for (bias_thresholds : gmap string Q) (fallback : Q)
    (seed : CandidateSeed) : Q :=
  default fallback (bias_thresholds !! seed_role seed).

(** An evaluator with a threshold for one role and no fallback. *)
Definition evaluator_without_default : EvaluatorAgent :=
  EvaluatorAgent_init (Some {[ "Backend Engineer" := 0.5%Q ]}).

(** The first seed of the default source for [test_jd]. *)
Definition alex_seed : CandidateSeed :=
  research_seed test_jd (content_bonus_of test_jd)
    {| prof_name := "Alex Dev"; prof_role := "Backend Engineer"; prof_score := 0.60;
       prof_tags := ["Data Deficient"; "Manual Review Required"];
       prof_data_sources := ["Serper.dev"; "GitHub"];
       prof_profile_url := "https://talent.example.com/alex-dev" |}.

(** What a ranked entry carries over from its evaluation. *)
Definition evaluation_payload (evaluation : EvaluationResult)
    : string * string * string * string * list string * list string * string :=
  (ev_candidate_id evaluation, ev_candidate_name evaluation, ev_role evaluation,
   ev_rationale evaluation, ev_tags evaluation, ev_bias_flags evaluation,
   ev_profile_url evaluation).

Definition ranked_payload (candidate : RankedCandidate)
    : string * string * string * string * list string * list string * string :=
  (rc_candidate_id candidate, rc_name candidate, rc_role candidate,
   rc_rationale candidate, rc_tags candidate, rc_bias_flags candidate,
   rc_profile_url candidate).

(** [m] takes every crew to one related to it by [R], whether it returns
    or raises. *)
Definition keeps {A} (R : RecruitmentCrew -> RecruitmentCrew -> Prop) (m : M A) : Prop :=
  forall w, R (crew w) (crew (snd (m w))).

(** Everything of a crew but its snapshots, its risk history and the
    recommender's active policy. *)
Definition same_configuration (before after : RecruitmentCrew) : Prop :=
  policy after = policy before
  /\ compliance after = compliance before
  /\ researcher after = researcher before
  /\ evaluator after = evaluator before
  /\ sourcer_model after = sourcer_model before
  /\ eval_model after = eval_model before
  /\ job_description after = job_description before
  /\ jd_data after = jd_data before.

(** The risk history is only ever appended to. *)
Definition history_grows (before after : RecruitmentCrew) : Prop :=
  risk_history before `prefix_of` risk_history after.

(** The stored ranking is the ranking of the stored evaluations under the
    crew's policy. *)
Definition snapshot_consistent (self : RecruitmentCrew) : Prop :=
  latest_candidates self = ranking_of (latest_evaluations self) (policy self).

(** The evaluations and the policy [rerank] works with. *)
Definition rerank_source (evaluations : option (list EvaluationResult))
    (self : RecruitmentCrew) : list EvaluationResult :=
  match evaluations with
  | Some (evaluation :: rest) => evaluation :: rest
  | Some [] | None => latest_evaluations self
  end.

Definition rerank_policy (policy_arg : option RankingPolicy) (self : RecruitmentCrew)
    : RankingPolicy :=
  default (policy self) policy_arg.

(** The characters that open or close markup or an attribute value:
    [<], [>], the double and the single quote. *)
Definition markup_char (c : ascii) : bool :=
  let n := PyStr.code c in
  (n =? 60) || (n =? 62) || (n =? 34) || (n =? 39).

(** None of them occurs in [s]. *)
Definition markup_free (s : string) : Prop :=
  Forall (fun c => markup_char c = false) (list_ascii_of_string s).

(** The characters [html.escape] rewrites: the ampersand and the four
    markup characters. *)
Definition escaped_char (c : ascii) : bool :=
  (PyStr.code c =? 38) || markup_char c.

(** None of them occurs in [s]. *)
Definition escape_free (s : string) : Prop :=
  Forall (fun c => escaped_char c = false) (list_ascii_of_string s).

(** The id [draft] derives from a [uuid4().hex]. *)
Definition draft_id_of (hex : string) : string :=
  "DRAFT-" +:+ PyStr.upper (PyStr.take 6 hex).

(** The roster [generate_outreach] drafts for. *)
Definition outreach_roster (candidates : option (list RankedCandidate))
    (self : RecruitmentCrew) : list RankedCandidate :=
  match candidates with
  | Some (candidate :: rest) => candidate :: rest
  | Some [] | None => latest_candidates self
  end.

(** A candidate whose name and rationale carry markup. *)
Definition cx_markup : RankedCandidate := {|
  rc_candidate_id := "CAN-0000000E"; rc_name := "<b>Eve</b>"; rc_role := "R&D 'Lead'";
  final_score := 0.9; rc_rationale := "Ships <script> daily";
  rc_tags := []; rc_bias_flags := []; rank_label := "Tier 1";
  recommendation := "Rank 1: Eve (0.90)";
  rc_profile_url := "https://talent.example.com/eve"; notes := None |}.


(** A job description given as a complete dict. *)
Definition jd_dict (title content : string) : gmap string string :=
  {[ "title" := title; "content" := content ]}.


(** ** The store and the handlers *)

(** The campaigns and the audit trail of the process. *)
Definition campaigns (app : Store.App) : gmap string Store.CampaignRecord :=
  Store._campaigns (Store.store app).

Definition audit_trail (app : Store.App) : list Store.AuditEntry :=
  Store._audit_logs (Store.store app).

(** The process after one reading of the clock. *)
Definition tick (app : Store.App) : Store.App := snd (Store._timestamp app).

(** The id [_next_id] hands out when the store holds [n] campaigns. *)
Definition camp_id (n : nat) : string := "CAMP_" +:+ format_03d (Z.of_nat n + 1).

(** A policy that differs from the default one in everything but the bonus. *)
Definition strict_policy : RankingPolicy := {|
  pol_name := "strict";
  diversity_bonus := diversity_bonus default_policy;
  bias_tolerance := 0.1;
  respect_bias_flags := false |}.

(** A clock that reads its own tick count. *)
Definition tick_clock : nat -> string := fun n => pretty n.

(** The process once [main.py] is loaded. *)
Definition started_app : Store.App := snd (Api.startup no_uuids tick_clock).

Definition sample_request : Api.CampaignCreateRequest := {|
  Api.req_title := "Senior Python Engineer";
  Api.req_description := "Recruitment campaign";
  Api.req_content := "Build scalable APIs for the hiring platform." |}.

Definition second_app : Store.App := snd (Api.create_campaign sample_request started_app).

(** The candidates the rank endpoint keeps of a ranking. *)
Definition kept_of (limit : option Z) (ranked : list RankedCandidate)
    : list RankedCandidate :=
  match limit with
  | Some n => if 0 <? n then firstn (Z.to_nat n) ranked else ranked
  | None => ranked
  end.

(** A campaign once it is ranked. *)
Definition ranked_record (campaign : Store.CampaignRecord)
    (candidates : list RankedCandidate) (evaluations : list EvaluationResult)
    (metrics : gmap string Store.Value) : Store.CampaignRecord := {|
  Store.cr_campaign_id := Store.cr_campaign_id campaign;
  Store.cr_title := Store.cr_title campaign;
  Store.cr_description := Store.cr_description campaign;
  Store.cr_job_description := Store.cr_job_description campaign;
  Store.cr_created_at := Store.cr_created_at campaign;
  Store.cr_status := Store.RANKED;
  Store.cr_candidates := candidates;
  Store.cr_evaluations := evaluations;
  Store.cr_outreach_drafts := Store.cr_outreach_drafts campaign;
  Store.cr_metrics := metrics;
  Store.cr_serper_insights := Store.cr_serper_insights campaign |}.

(** The process with one more campaign, or one campaign replaced. *)
Definition with_campaign (campaign_id : string) (record : Store.CampaignRecord)
    (app : Store.App) : Store.App :=
  Store.with_store
    (fun self => {| Store._campaigns := <[campaign_id := record]> (Store._campaigns self);
                    Store._audit_logs := Store._audit_logs self |})
    app.

(** The entry the store logs for a new campaign, and the one the handler
    adds. *)
Definition created_entry (timestamp campaign_id title : string) : Store.AuditEntry := {|
  Store.audit_timestamp := timestamp;
  Store.audit_campaign_id := campaign_id;
  Store.audit_action := "campaign_created";
  Store.audit_details :=
    {[ "title" := Store.VStr title; "status" := Store.VStatus Store.INITIALIZED ]} |}.

Definition initialized_entry (timestamp campaign_id title : string) : Store.AuditEntry := {|
  Store.audit_timestamp := timestamp;
  Store.audit_campaign_id := campaign_id;
  Store.audit_action := "campaign_initialized";
  Store.audit_details := {[ "jd" := Store.VStr title ]} |}.

(** A request passes [_validate_jd]. *)
Definition valid_request (payload : Api.CampaignCreateRequest) : Prop :=
  5 <= Z.of_nat (String.length (strip (Api.req_title payload)))
  /\ 20 <= Z.of_nat (String.length (strip (Api.req_content payload))).

(** The job description the create endpoint hands to the crew. *)
Definition posted_jd (payload : Api.CampaignCreateRequest) : JobDescriptionModel :=
  mkJobDescription (Api.req_title payload) (Api.req_content payload).

(** The record [create_campaign] stores. *)
Definition created_record (app : Store.App) (title description job_description : string)
    (candidates : list RankedCandidate) (evaluations : list EvaluationResult)
    (metrics : gmap string Store.Value) (serper_insights : Store.SerperInsights)
    : Store.CampaignRecord := {|
  Store.cr_campaign_id := camp_id (size (campaigns app));
  Store.cr_title := title;
  Store.cr_description := description;
  Store.cr_job_description := job_description;
  Store.cr_created_at := Store.clock_source app (Store.clock_draws app);
  Store.cr_status := Store.INITIALIZED;
  Store.cr_candidates := candidates;
  Store.cr_evaluations := evaluations;
  Store.cr_outreach_drafts := [];
  Store.cr_metrics := metrics;
  Store.cr_serper_insights := serper_insights |}.

(** The process with one more audit entry. *)
Definition with_audit (entry : Store.AuditEntry) (app : Store.App) : Store.App :=
  Store.with_store
    (fun self => {| Store._campaigns := Store._campaigns self;
                    Store._audit_logs := Store._audit_logs self ++ [entry] |})
    app.

Definition short_request : Api.CampaignCreateRequest := {|
  Api.req_title := "  QA  ";
  Api.req_description := "Recruitment campaign";
  Api.req_content := "Build scalable APIs for the hiring platform." |}.

(** A campaign with new outreach drafts. *)
Definition drafted_record (campaign : Store.CampaignRecord) (written : list OutreachDraft)
    : Store.CampaignRecord := {|
  Store.cr_campaign_id := Store.cr_campaign_id campaign;
  Store.cr_title := Store.cr_title campaign;
  Store.cr_description := Store.cr_description campaign;
  Store.cr_job_description := Store.cr_job_description campaign;
  Store.cr_created_at := Store.cr_created_at campaign;
  Store.cr_status := Store.cr_status campaign;
  Store.cr_candidates := Store.cr_candidates campaign;
  Store.cr_evaluations := Store.cr_evaluations campaign;
  Store.cr_outreach_drafts := written;
  Store.cr_metrics := Store.cr_metrics campaign;
  Store.cr_serper_insights := Store.cr_serper_insights campaign |}.

(** The template the outreach endpoint builds from a request. *)
Definition requested_template (payload : option Api.OutreachRequest) : OutreachTemplate :=
  let payload := default Api.OutreachRequest_init payload in
  {| tone := or_str (Api.template_tone payload) "professional";
     cta := or_str (Api.req_cta payload) "Let's schedule time to chat";
     compliance_notes :=
       or_str (Api.req_compliance_notes payload)
         "GDPR-compliant; transparent opt-out included";
     eu_ai_statement := eu_ai_statement default_template |}.

Definition outreach_entry (timestamp campaign_id : string) (count : Z) : Store.AuditEntry := {|
  Store.audit_timestamp := timestamp;
  Store.audit_campaign_id := campaign_id;
  Store.audit_action := "outreach_generated";
  Store.audit_details := {[ "draft_count" := Store.VInt count ]} |}.

(** ** Rankings made by separate calls *)

(** Two ranked entries agree on every field [recommend] computes.  The time
    the entry was made, which the records leave out, is not compared. *)
Definition same_ranked_fields (r1 r2 : RankedCandidate) : Prop :=
  ranked_payload r1 = ranked_payload r2
  /\ final_score r1 = final_score r2
  /\ rank_label r1 = rank_label r2
  /\ recommendation r1 = recommendation r2
  /\ notes r1 = notes r2.

(** Two rankings list entries that agree field by field, position by
    position. *)
Definition same_ranking (l1 l2 : list RankedCandidate) : Prop :=
  Forall2 same_ranked_fields l1 l2.

(** * Properties *)

(** ** The monad and the trace boundary *)

Lemma bind_ok {A B} (m : M A) (k : A -> M B) (w w' : World) (a : A) :
  m w = (Ok a, w') -> (m ≫= k) w = k a w'.
Proof. intros Hm. unfold mbind, M_bind. now rewrite Hm. Qed.

Lemma bind_raise {A B} (m : M A) (k : A -> M B) (w w' : World) (exc : PyExn) :
  m w = (Raise exc, w') -> (m ≫= k) w = (Raise exc, w').
Proof. intros Hm. unfold mbind, M_bind. now rewrite Hm. Qed.

(** ** Sorting *)

Section SortedFacts.
Context {A : Type} (key : A -> Q).

Lemma insert_desc_perm (x : A) (l : list A) :
  Permutation (x :: l) (insert_desc key x l).
Proof.
  induction l as [|y l IH]; simpl.
  - apply Permutation_refl.
  - destruct (Qle_bool (key y) (key x)).
    + apply Permutation_refl.
    + eapply perm_trans; [apply perm_swap|]. now apply perm_skip.
Qed.

Lemma sorted_reverse_perm (l : list A) : Permutation l (sorted_reverse key l).
Proof.
  induction l as [|x l IH]; simpl.
  - apply perm_nil.
  - eapply perm_trans; [apply perm_skip, IH|]. apply insert_desc_perm.
Qed.

Lemma insert_desc_Forall (P : A -> Prop) (x : A) (l : list A) :
  P x -> Forall P l -> Forall P (insert_desc key x l).
Proof.
  intros Hx Hl. induction Hl as [|y l Hy Hl IH]; simpl.
  - now repeat constructor.
  - destruct (Qle_bool (key y) (key x)); repeat constructor; trivial.
Qed.

Lemma insert_desc_sorted (x : A) (l : list A) :
  StronglySorted (key_ge key) l -> StronglySorted (key_ge key) (insert_desc key x l).
Proof.
  induction 1 as [|y l Hs IH Hy]; simpl.
  - repeat constructor.
  - destruct (Qle_bool (key y) (key x)) eqn:Hcmp.
    + apply Qle_bool_iff in Hcmp.
      constructor; [now constructor|].
      constructor; [exact Hcmp|].
      eapply Forall_impl; [exact Hy|].
      intros z Hz. unfold key_ge in *. now apply Qle_trans with (key y).
    + constructor; [exact IH|].
      apply insert_desc_Forall; [|exact Hy].
      unfold key_ge. apply Qlt_le_weak, Qnot_le_lt.
      intros Hle. apply Qle_bool_iff in Hle. congruence.
Qed.

Lemma sorted_reverse_sorted (l : list A) :
  StronglySorted (key_ge key) (sorted_reverse key l).
Proof.
  induction l as [|x l IH]; simpl.
  - constructor.
  - now apply insert_desc_sorted.
Qed.

Lemma insert_desc_stable (q : Q) (x : A) (l : list A) :
  List.filter (same_key key q) (insert_desc key x l) = List.filter (same_key key q) (x :: l).
Proof.
  induction l as [|y l IH]; [reflexivity|].
  cbn [insert_desc].
  destruct (Qle_bool (key y) (key x)) eqn:Hcmp; [reflexivity|].
  cbn [List.filter] in *. rewrite IH.
  destruct (same_key key q x) eqn:Hx, (same_key key q y) eqn:Hy; try reflexivity.
  exfalso. unfold same_key in *.
  apply Qeq_bool_iff in Hx, Hy.
  assert (Hle : (key y <= key x)%Q) by (rewrite Hx, Hy; apply Qle_refl).
  apply Qle_bool_iff in Hle. congruence.
Qed.

Lemma sorted_reverse_stable (q : Q) (l : list A) :
  List.filter (same_key key q) (sorted_reverse key l) = List.filter (same_key key q) l.
Proof.
  induction l as [|x l IH]; [reflexivity|].
  cbn [sorted_reverse fold_right]. rewrite insert_desc_stable.
  cbn [List.filter]. fold (sorted_reverse key l). now rewrite IH.
Qed.
End SortedFacts.

Lemma StronglySorted_lookup {A} (R : A -> A -> Prop) (l : list A) (i j : nat) (x y : A) :
  StronglySorted R l -> (i < j)%nat -> l !! i = Some x -> l !! j = Some y -> R x y.
Proof.
  intros Hs. revert i j. induction Hs as [|z l Hs IH Hz]; intros i j Hij Hi Hj.
  - discriminate.
  - destruct j as [|j]; [lia|]. destruct i as [|i]; cbn in Hi, Hj.
    + injection Hi as <-. rewrite Forall_forall in Hz.
      apply Hz. now apply list_elem_of_lookup_2 with j.
    + apply IH with i j; trivial. lia.
Qed.

Lemma enumerate_lookup {A} (l : list A) (start : Z) (i : nat) :
  enumerate l start !! i = (fun x => (start + Z.of_nat i, x)) <$> l !! i.
Proof.
  revert start i. induction l as [|x l IH]; intros start i; [reflexivity|].
  destruct i as [|i]; cbn.
  - now rewrite Z.add_0_r.
  - rewrite IH. destruct (l !! i); cbn; [|reflexivity].
    do 2 f_equal. lia.
Qed.

(** ** Ranking *)

Lemma ranking_of_lookup evaluations ranking (i : nat) (r : RankedCandidate) :
  ranking_of evaluations ranking !! i = Some r ->
  exists e, sorted_evaluations evaluations !! i = Some e
            /\ r = rank_entry ranking (1 + Z.of_nat i, e).
Proof.
  unfold ranking_of. rewrite list_lookup_fmap, enumerate_lookup.
  destruct (sorted_evaluations evaluations !! i) as [e|]; cbn; [|discriminate].
  intros [= <-]. now exists e.
Qed.

Lemma rank_entries_Forall2 (P : EvaluationResult -> RankedCandidate -> Prop)
    (ranking : RankingPolicy) (l : list EvaluationResult) (start : Z) :
  (forall position e, In e l -> P e (rank_entry ranking (position, e))) ->
  Forall2 P l (map (rank_entry ranking) (enumerate l start)).
Proof.
  revert start. induction l as [|e l IH]; intros start HP; cbn [enumerate map].
  - constructor.
  - constructor; [apply HP; now left|].
    apply IH. intros position e' He'. apply HP. now right.
Qed.

Lemma recommend_run evaluations ranking (w : World) :
  exists w', recommend evaluations ranking w = (Ok (ranking_of evaluations ranking), w')
             /\ latest_candidates (crew w') = latest_candidates (crew w)
             /\ latest_evaluations (crew w') = latest_evaluations (crew w)
             /\ risk_history (crew w') = risk_history (crew w)
             /\ policy (crew w') = policy (crew w).
Proof. eexists. split; [reflexivity|]. now cbn. Qed.

(** C1: the output of [recommend] is meant to be non-increasing in final
    score, and the repository's test compares the first final score with the
    last.  The code does not deliver it.  On the test's own campaign (job
    description "Senior Python Engineer" / "Build scalable APIs", the default
    candidates, limit 4) the ranking is Marina Byte 0.8675, Kai Ops 0.8775,
    Nia Vector 0.7875, Alex Dev 0.7975: positions 0 and 1, and 2 and 3, are
    out of order. *)
Theorem recommend_fixture_out_of_order :
  exists ranked evaluations w',
    run_campaign (Some test_jd) 4 default_world = (Ok (ranked, evaluations), w')
    /\ map rc_name ranked = ["Marina Byte"; "Kai Ops"; "Nia Vector"; "Alex Dev"]
    /\ Forall2 Qeq (map final_score ranked) [0.8675%Q; 0.8775%Q; 0.7875%Q; 0.7975%Q]
    /\ ~ non_increasing final_score ranked.
Proof.
  do 3 eexists. split; [vm_compute; reflexivity|].
  split; [reflexivity|]. split; [repeat constructor|].
  intros H. specialize (H 0%nat 1%nat _ _ ltac:(lia) eq_refl eq_refl).
  revert H. vm_compute. intros H. now apply H.
Qed.

(** Nor is the first final score always at least the last: ranking Ada
    (0.70, no review tag) and Bob (0.68, "Manual Review Required") under the
    default policy puts Ada first with 0.70 and Bob second with 0.73. *)
Lemma recommend_final_score_can_increase :
  exists ranked w' first second,
    recommend [cx_plain; cx_review] default_policy default_world = (Ok ranked, w')
    /\ ranked = [first; second]
    /\ (final_score first == 0.70)%Q /\ (final_score second == 0.73)%Q
    /\ ~ (final_score second <= final_score first)%Q.
Proof.
  do 4 eexists. split; [reflexivity|]. split; [reflexivity|].
  split; [reflexivity|]. split; [reflexivity|].
  vm_compute. intros H. now apply H.
Qed.

(** What [recommend] does guarantee: it returns the evaluations in
    non-increasing order of their raw score, ties in input order, each with
    final score [min(1, raw + boost)]; the final scores themselves are
    non-increasing when no evaluation receives a diversity boost. *)
Lemma recommend_ordered_by_raw_score evaluations ranking (w : World) :
  exists ranked w',
    recommend evaluations ranking w = (Ok ranked, w')
    /\ Forall2 (fun e r =>
                  rc_candidate_id r = ev_candidate_id e
                  /\ final_score r = Qmin 1 (ev_score e + diversity_boost ranking e))
               (sorted_evaluations evaluations) ranked
    /\ stable_reordering ev_score evaluations (sorted_evaluations evaluations)
    /\ non_increasing ev_score (sorted_evaluations evaluations)
    /\ ((forall e, In e evaluations -> (diversity_boost ranking e == 0)%Q) ->
        non_increasing final_score ranked).
Proof.
  destruct (recommend_run evaluations ranking w) as (w' & Hrun & _).
  exists (ranking_of evaluations ranking), w'.
  split; [exact Hrun|]. split; [|split; [|split]].
  - apply rank_entries_Forall2. intros position e _. now split.
  - split; [apply sorted_reverse_perm|].
    intros q. apply (sorted_reverse_stable ev_score q evaluations).
  - intros i j x y Hij Hi Hj.
    exact (StronglySorted_lookup _ _ _ _ _ _ (sorted_reverse_sorted ev_score evaluations) Hij Hi Hj).
  - intros Hboost i j x y Hij Hi Hj.
    apply ranking_of_lookup in Hi as (ei & Hi & ->), Hj as (ej & Hj & ->).
    cbn [rank_entry final_score].
    assert (Hin : forall k e, sorted_evaluations evaluations !! k = Some e -> In e evaluations).
    { intros k e Hk. eapply Permutation_in; [apply Permutation_sym, sorted_reverse_perm|].
      apply list_elem_of_In. eapply list_elem_of_lookup_2, Hk. }
    apply Q.min_le_compat_l.
    rewrite (Hboost _ (Hin _ _ Hi)), (Hboost _ (Hin _ _ Hj)), !Qplus_0_r.
    exact (StronglySorted_lookup _ _ _ _ _ _ (sorted_reverse_sorted ev_score evaluations) Hij Hi Hj).
Qed.

Lemma recommend_ordered_by_raw_score_witness :
  exists ranked w',
    recommend [cx_review; cx_plain] no_bonus default_world = (Ok ranked, w')
    /\ non_increasing final_score ranked.
Proof.
  destruct (recommend_ordered_by_raw_score [cx_review; cx_plain] no_bonus default_world)
    as (ranked & w' & Hrun & _ & _ & _ & Hfinal).
  exists ranked, w'. split; [exact Hrun|].
  apply Hfinal. intros e [<-|[<-|[]]]; reflexivity.
Defined.

(** C6, as stated, fails: a negative diversity bonus lowers a tagged
    candidate's score, and a raw score above 1 is clamped to 1. *)
Lemma recommend_final_score_below_raw :
  (exists ranked w' r,
     recommend [cx_review] penalising default_world = (Ok ranked, w')
     /\ ranked = [r] /\ (final_score r == 0.58)%Q
     /\ ~ (ev_score cx_review <= final_score r)%Q)
  /\ (exists ranked w' r,
        recommend [cx_over] default_policy default_world = (Ok ranked, w')
        /\ ranked = [r] /\ (final_score r == 1)%Q
        /\ ~ (ev_score cx_over <= final_score r)%Q).
Proof.
  split; do 3 eexists; (split; [reflexivity|]); (split; [reflexivity|]);
    (split; [reflexivity|]); vm_compute; intros H; now apply H.
Qed.

(** C6, amended: when the policy's diversity bonus is not negative and the
    raw scores are at most 1, every ranked candidate's final score is at
    least the raw score of the evaluation it was made from. *)
Theorem recommend_final_score_ge_raw evaluations ranking (w : World) :
  (0 <= diversity_bonus ranking)%Q ->
  (forall e, In e evaluations -> (ev_score e <= 1)%Q) ->
  exists ranked w',
    recommend evaluations ranking w = (Ok ranked, w')
    /\ Permutation evaluations (sorted_evaluations evaluations)
    /\ Forall2 (fun e r =>
                  rc_candidate_id r = ev_candidate_id e
                  /\ (ev_score e <= final_score r)%Q)
               (sorted_evaluations evaluations) ranked.
Proof.
  intros Hbonus Hraw.
  destruct (recommend_run evaluations ranking w) as (w' & Hrun & _).
  exists (ranking_of evaluations ranking), w'.
  split; [exact Hrun|]. split; [apply sorted_reverse_perm|].
  apply rank_entries_Forall2. intros position e He.
  split; [reflexivity|]. cbn [rank_entry final_score].
  apply Q.min_glb.
  { apply Hraw. eapply Permutation_in; [apply Permutation_sym, sorted_reverse_perm|exact He]. }
  rewrite <- (Qplus_0_r (ev_score e)) at 1.
  apply Qplus_le_r. unfold diversity_boost.
  destruct (existsb _ _); [exact Hbonus | apply Qle_refl].
Qed.

Lemma recommend_final_score_ge_raw_witness :
  exists ranked w',
    recommend [cx_plain; cx_review] default_policy default_world = (Ok ranked, w')
    /\ Forall2 (fun e r => (ev_score e <= final_score r)%Q)
               (sorted_evaluations [cx_plain; cx_review]) ranked.
Proof.
  destruct (recommend_final_score_ge_raw [cx_plain; cx_review] default_policy default_world)
    as (ranked & w' & Hrun & _ & Hall).
  - vm_compute. discriminate.
  - intros e [<-|[<-|[]]]; vm_compute; discriminate.
  - exists ranked, w'. split; [exact Hrun|].
    eapply Forall2_impl; [exact Hall|]. now intros e r [_ H].
Defined.

(** ** Risk assessment *)

Lemma sum_from (l : list Z) (a : Z) : fold_left Z.add l a = a + sum l.
Proof.
  unfold sum. revert a. induction l as [|x l IH]; intros a; cbn [fold_left].
  - lia.
  - rewrite (IH (a + x)), (IH (0 + x)). lia.
Qed.

Lemma sum_flags evaluations :
  sum (map (fun evaluation => len (ev_bias_flags evaluation)) evaluations)
  = bias_flag_total evaluations.
Proof.
  unfold bias_flag_total, len.
  induction evaluations as [|e l IH]; [reflexivity|].
  cbn [map concat]. unfold sum in *. cbn [fold_left].
  rewrite sum_from. unfold sum. rewrite IH, length_app. lia.
Qed.

Lemma risk_of_ok evaluations :
  risk_of evaluations
  = Ok {| risk_score := Qmin 1 (flag_density evaluations);
          risk_bias_flags := bias_flag_total evaluations;
          risk_level :=
            if Qlt_bool 0.3 (Qmin 1 (flag_density evaluations))
            then "elevated" else "standard" |}.
Proof.
  unfold risk_of, truediv, flag_density. rewrite sum_flags.
  destruct (Z.eqb_spec (Z.max 1 (len evaluations)) 0) as [H0|_]; [lia|reflexivity].
Qed.

Lemma Qlt_bool_iff (x y : Q) : Qlt_bool x y = true <-> (x < y)%Q.
Proof.
  unfold Qlt_bool. rewrite negb_true_iff. split.
  - intros H. apply Qnot_le_lt. intros Hle. apply Qle_bool_iff in Hle. congruence.
  - intros H. destruct (Qle_bool y x) eqn:Hle; [|reflexivity].
    apply Qle_bool_iff in Hle. exfalso. now apply (Qlt_not_le x y).
Qed.

(** C2, as stated, fails: one evaluation carrying three flags has
    flags / max(1, count) = 3, but the score is 1. *)
Lemma assess_risk_score_is_clamped :
  exists risk,
    assess_risk [cx_flagged] default_world = (Ok risk, default_world)
    /\ (flag_density [cx_flagged] == 3)%Q
    /\ (risk_score risk == 1)%Q
    /\ ~ (risk_score risk == flag_density [cx_flagged])%Q.
Proof.
  eexists. split; [reflexivity|]. split; [reflexivity|]. split; [reflexivity|].
  vm_compute. discriminate.
Qed.

(** C2, amended: the score is [min(1, flags / max(1, count))], the flag
    count is the total over all evaluations, and the level is "elevated"
    exactly when the score exceeds 0.3 (which is when the unclamped ratio
    does), otherwise "standard". *)
Theorem assess_risk_score_and_level evaluations (w : World) :
  exists risk,
    assess_risk evaluations w = (Ok risk, w)
    /\ risk_bias_flags risk = bias_flag_total evaluations
    /\ risk_score risk = Qmin 1 (flag_density evaluations)
    /\ (risk_level risk = "elevated" <-> (0.3 < risk_score risk)%Q)
    /\ (risk_level risk = "elevated" <-> (0.3 < flag_density evaluations)%Q)
    /\ (risk_level risk <> "elevated" -> risk_level risk = "standard").
Proof.
  eexists. unfold assess_risk, lift. cbn [risk_stage source_stages].
  rewrite risk_of_ok. split; [reflexivity|]. cbn [risk_bias_flags risk_score risk_level].
  split; [reflexivity|]. split; [reflexivity|].
  assert (Hlevel : Qlt_bool 0.3 (Qmin 1 (flag_density evaluations)) = true
                   <-> (0.3 < flag_density evaluations)%Q).
  { rewrite Qlt_bool_iff. split.
    - intros H. eapply Qlt_le_trans; [exact H | apply Q.le_min_r].
    - intros H. apply Q.min_glb_lt; [reflexivity | exact H]. }
  destruct (Qlt_bool 0.3 (Qmin 1 (flag_density evaluations))) eqn:Hcmp.
  - split; [|split].
    + split; [intros _; now apply Qlt_bool_iff | reflexivity].
    + split; [intros _; now apply Hlevel | reflexivity].
    + intros H. now contradict H.
  - split; [|split].
    + split; [discriminate|]. intros H. apply Qlt_bool_iff in H. congruence.
    + split; [discriminate|]. intros H. apply Hlevel in H. congruence.
    + reflexivity.
Qed.

(** C8: on no evaluations the assessment is score 0, level "standard" and
    0 flags; and the denominator [max(1, count)] is never 0, so no list of
    evaluations makes the division raise. *)
Theorem assess_risk_empty (w : World) :
  assess_risk [] w
  = (Ok {| risk_score := 0; risk_bias_flags := 0; risk_level := "standard" |}, w)
  /\ (forall evaluations : list EvaluationResult, Z.max 1 (len evaluations) <> 0)
  /\ (forall evaluations : list EvaluationResult, exists ratio,
        truediv (bias_flag_total evaluations) (Z.max 1 (len evaluations)) = Ok ratio)
  /\ (forall evaluations w', exists risk, assess_risk evaluations w' = (Ok risk, w')).
Proof.
  split; [reflexivity|]. split; [intros; lia|]. split.
  - intros evaluations. unfold truediv.
    destruct (Z.eqb_spec (Z.max 1 (len evaluations)) 0) as [H0|_]; [lia|]. now eexists.
  - intros evaluations w'. eexists. unfold assess_risk, lift.
    cbn [risk_stage source_stages]. now rewrite risk_of_ok.
Qed.

(** ** Research *)

Lemma research_run self job_description limit (w : World) :
  exists w', research self job_description limit w
             = (Ok (seeds_of self job_description limit), w')
             /\ crew w' = crew w.
Proof. eexists. split; reflexivity. Qed.




(** ** Candidate ids *)

Lemma map_chars_length (f : ascii -> ascii) (s : string) :
  String.length (PyStr.map_chars f s) = String.length s.
Proof. induction s as [|c s IH]; cbn; congruence. Qed.

Lemma take_length (n : nat) (s : string) :
  String.length (PyStr.take n s) = Nat.min n (String.length s).
Proof.
  unfold PyStr.take. revert s. induction n as [|n IH]; intros s.
  - now destruct s.
  - destruct s as [|c s]; [reflexivity|]. cbn. now rewrite IH.
Qed.

Lemma hex_length (bytes : list Z) : String.length (MD5.hex bytes) = (2 * length bytes)%nat.
Proof. induction bytes as [|b bytes IH]; cbn [MD5.hex String.length length]; lia. Qed.

Lemma hexdigest_length (data : list Byte.byte) : String.length (MD5.hexdigest data) = 32%nat.
Proof.
  unfold MD5.hexdigest. rewrite hex_length. unfold MD5.digest, MD5.le_bytes.
  now rewrite !length_app, !length_map, !length_seq.
Qed.

Lemma _stable_candidate_id_shape (name job_title : string) :
  exists digest,
    _stable_candidate_id name job_title = "CAN-" +:+ digest
    /\ String.length digest = 8%nat.
Proof.
  eexists. split; [reflexivity|].
  unfold PyStr.upper. now rewrite map_chars_length, take_length, hexdigest_length.
Qed.

(** C7: two calls of [research] under the same job title give a candidate
    of a given name the same id, whatever the sources, the limits, the rest
    of the job description and the log; the id is "CAN-" followed by eight
    characters of the digest of name and title. *)
Theorem candidate_id_deterministic
    (self1 self2 : ResearcherAgent) (jd1 jd2 : JobDescriptionModel) (limit1 limit2 : Z)
    (w1 w2 w1' w2' : World) (seeds1 seeds2 : list CandidateSeed) (s1 s2 : CandidateSeed) :
  jd_title jd1 = jd_title jd2 ->
  research self1 jd1 limit1 w1 = (Ok seeds1, w1') ->
  research self2 jd2 limit2 w2 = (Ok seeds2, w2') ->
  In s1 seeds1 -> In s2 seeds2 ->
  seed_name s1 = seed_name s2 ->
  seed_candidate_id s1 = seed_candidate_id s2
  /\ seed_candidate_id s1 = _stable_candidate_id (seed_name s1) (jd_title jd1)
  /\ exists digest,
       seed_candidate_id s1 = "CAN-" +:+ digest /\ String.length digest = 8%nat.
Proof.
  intros Htitle Hrun1 Hrun2 Hin1 Hin2 Hname.
  destruct (research_run self1 jd1 limit1 w1) as (? & Hr1 & _).
  destruct (research_run self2 jd2 limit2 w2) as (? & Hr2 & _).
  rewrite Hr1 in Hrun1. rewrite Hr2 in Hrun2.
  injection Hrun1 as <- _. injection Hrun2 as <- _.
  unfold seeds_of in Hin1, Hin2.
  apply in_map_iff in Hin1 as (p1 & <- & _), Hin2 as (p2 & <- & _).
  cbn [research_seed seed_candidate_id seed_name] in *.
  rewrite Hname, Htitle. split; [reflexivity|]. split; [reflexivity|].
  apply _stable_candidate_id_shape.
Qed.

Lemma candidate_id_deterministic_witness :
  let s1 := research_seed test_jd (content_bonus_of test_jd) marina in
  let s2 := research_seed other_jd (content_bonus_of other_jd) marina in
  seed_candidate_id s1 = seed_candidate_id s2
  /\ seed_candidate_id s1 = _stable_candidate_id "Marina Byte" "Senior Python Engineer".
Proof.
  intros s1 s2.
  destruct (candidate_id_deterministic default_researcher default_researcher
              test_jd other_jd 4 2 default_world default_world _ _ _ _ s1 s2
              eq_refl eq_refl eq_refl)
    as (Hsame & Hid & _).
  - right. left. reflexivity.
  - right. left. reflexivity.
  - reflexivity.
  - split; [exact Hsame | exact Hid].
Defined.

(** ** The orchestrator *)


Lemma trace_run {A} agent_name operation context (body : M A) (w w1 : World) (r : result A) :
  body (emit INFO "agent_operation_start"
          ([("agent", LStr agent_name); ("operation", LStr operation)] ++ context) w)
  = (r, w1) ->
  exists w', trace agent_name operation context body w = (traced agent_name operation r, w')
             /\ crew w' = crew w1.
Proof.
  intros Hbody. unfold trace. rewrite Hbody.
  destruct r; eexists; split; reflexivity.
Qed.

Lemma bind_gets {A B} (f : World -> A) (k : A -> M B) (w : World) :
  (gets f ≫= k) w = k (f w) w.
Proof. reflexivity. Qed.

Lemma bind_log {B} level event context (k : unit -> M B) (w : World) :
  (log level event context ≫= k) w = k tt (emit level event context w).
Proof. reflexivity. Qed.

Section CrewFacts.
Context {stages : Stages}.

Lemma research_step self payload limit (w : World) :
  exists w',
    research self payload limit w
    = (traced "researcher" "research" (research_stage (_candidate_pool self) payload limit), w')
    /\ crew w' = crew w.
Proof.
  edestruct (trace_run "researcher" "research"
               [("job_title", LStr (jd_title payload)); ("limit", LInt limit);
                ("model", LStr (researcher_llm_model self))]
               (lift (research_stage (_candidate_pool self) payload limit)) w)
    as (w' & Hrun & Hcrew); [reflexivity|].
  exists w'. split; [exact Hrun | exact Hcrew].
Qed.

Lemma evaluate_step self seeds (w : World) :
  exists w',
    evaluate self seeds w
    = (traced "evaluator" "evaluate" (evaluate_stage (_bias_thresholds self) seeds), w')
    /\ crew w' = crew w.
Proof.
  edestruct (trace_run "evaluator" "evaluate"
               [("candidate_count", LInt (len seeds));
                ("model", LStr (evaluator_llm_model self))]
               (lift (evaluate_stage (_bias_thresholds self) seeds)) w)
    as (w' & Hrun & Hcrew); [reflexivity|].
  exists w'. split; [exact Hrun | exact Hcrew].
Qed.

(** [recommend] touches the recommender's active policy and nothing else
    of the crew. *)
Lemma recommend_step evaluations ranking (w : World) :
  exists w',
    recommend evaluations ranking w
    = (traced "recommender" "recommend" (recommend_stage evaluations ranking), w')
    /\ latest_candidates (crew w') = latest_candidates (crew w)
    /\ latest_evaluations (crew w') = latest_evaluations (crew w)
    /\ risk_history (crew w') = risk_history (crew w)
    /\ policy (crew w') = policy (crew w).
Proof.
  unfold recommend.
  edestruct (trace_run "recommender" "recommend" [("policy", LStr (pol_name ranking))]
               (lift (recommend_stage evaluations ranking))) as (w' & Hrun & Hcrew);
    [reflexivity|].
  exists w'. split.
  - erewrite bind_ok; [exact Hrun | reflexivity].
  - rewrite Hcrew. now cbn.
Qed.

Lemma campaign_block_raises payload limit (w : World) (cause : PyExn) :
  StageFailure (crew w) payload limit cause ->
  exists w',
    campaign_block payload limit w = (Raise cause, w')
    /\ latest_candidates (crew w') = latest_candidates (crew w)
    /\ latest_evaluations (crew w') = latest_evaluations (crew w)
    /\ risk_history (crew w') = risk_history (crew w).
Proof.
  intros Hfail. unfold campaign_block. rewrite bind_gets.
  destruct (research_step (researcher (crew w)) payload limit w) as (w1 & E1 & C1).
  destruct Hfail as [original H1 | seeds original H1 H2
                     | seeds evaluations original H1 H2 H3
                     | seeds evaluations ranked original H1 H2 H3 H4];
    rewrite H1 in E1; cbn [traced] in E1.
  { exists w1. rewrite (bind_raise _ _ _ _ _ E1), C1. auto. }
  all: rewrite (bind_ok _ _ _ _ _ E1), bind_gets, C1.
  all: destruct (evaluate_step (evaluator (crew w)) seeds w1) as (w2 & E2 & C2);
    rewrite H2 in E2; cbn [traced] in E2.
  { exists w2. rewrite (bind_raise _ _ _ _ _ E2), C2, C1. auto. }
  all: rewrite (bind_ok _ _ _ _ _ E2), bind_gets, C2, C1.
  all: destruct (recommend_step evaluations (policy (crew w)) w2)
         as (w3 & E3 & K1 & K2 & K3 & _);
    rewrite H3 in E3; cbn [traced] in E3; rewrite C2, C1 in K1, K2, K3.
  { exists w3. rewrite (bind_raise _ _ _ _ _ E3). auto. }
  rewrite (bind_ok _ _ _ _ _ E3).
  exists w3. split; [|auto].
  apply bind_raise. unfold assess_risk, lift. now rewrite H4.
Qed.

Lemma campaign_block_ok payload limit (w : World) seeds evaluations ranked risk :
  research_stage (_candidate_pool (researcher (crew w))) payload limit = Ok seeds ->
  evaluate_stage (_bias_thresholds (evaluator (crew w))) seeds = Ok evaluations ->
  recommend_stage evaluations (policy (crew w)) = Ok ranked ->
  risk_stage evaluations = Ok risk ->
  exists w',
    campaign_block payload limit w = (Ok (ranked, evaluations), w')
    /\ latest_candidates (crew w') = ranked
    /\ latest_evaluations (crew w') = evaluations
    /\ risk_history (crew w') = risk_history (crew w) ++ [risk].
Proof.
  intros H1 H2 H3 H4. unfold campaign_block. rewrite bind_gets.
  destruct (research_step (researcher (crew w)) payload limit w) as (w1 & E1 & C1).
  rewrite H1 in E1. rewrite (bind_ok _ _ _ _ _ E1), bind_gets, C1.
  destruct (evaluate_step (evaluator (crew w)) seeds w1) as (w2 & E2 & C2).
  rewrite H2 in E2. rewrite (bind_ok _ _ _ _ _ E2), bind_gets, C2, C1.
  destruct (recommend_step evaluations (policy (crew w)) w2)
    as (w3 & E3 & _ & _ & K3 & _).
  rewrite H3 in E3. rewrite (bind_ok _ _ _ _ _ E3).
  rewrite C2, C1 in K3.
  eexists. split.
  - erewrite bind_ok; [|unfold assess_risk, lift; now rewrite H4].
    erewrite bind_ok; [|reflexivity]. rewrite bind_log. reflexivity.
  - cbn. rewrite K3. auto.
Qed.

Lemma run_campaign_unfold job_description_arg limit (w : World) :
  let payload := default (job_description (crew w)) job_description_arg in
  run_campaign job_description_arg limit w
  = trace "crew" "run_campaign" [("job_title", LStr (jd_title payload))]
      (campaign_block payload limit)
      (emit INFO "crew_run_campaign_start"
         [("job_title", LStr (jd_title payload)); ("limit", LInt limit)] w).
Proof. reflexivity. Qed.

End CrewFacts.

(** C5: whatever the stages compute, when one of them raises, the run
    raises a [CrewError] of the crew's own trace boundary whose cause is
    the exception that left the stage (for an agent: its [CrewError], naming
    agent and operation, around the original), and the snapshots and the
    risk history are as before the call. *)
Theorem run_campaign_aborts_without_commit (stages : Stages)
    (job_description_arg : option JobDescriptionModel) (limit : Z) (w : World)
    (cause : PyExn) :
  StageFailure (crew w) (default (job_description (crew w)) job_description_arg) limit cause ->
  exists w',
    run_campaign job_description_arg limit w
    = (Raise (CrewError "crew failed during run_campaign" cause), w')
    /\ latest_candidates (crew w') = latest_candidates (crew w)
    /\ latest_evaluations (crew w') = latest_evaluations (crew w)
    /\ risk_history (crew w') = risk_history (crew w).
Proof.
  intros Hfail. rewrite run_campaign_unfold. cbv zeta.
  set (payload := default (job_description (crew w)) job_description_arg) in *.
  set (w0 := emit INFO "crew_run_campaign_start" _ w).
  set (w1 := emit INFO "agent_operation_start"
               ([("agent", LStr "crew"); ("operation", LStr "run_campaign")]
                  ++ [("job_title", LStr (jd_title payload))]) w0).
  destruct (campaign_block_raises payload limit w1 cause Hfail) as (w2 & Hblock & K1 & K2 & K3).
  destruct (trace_run "crew" "run_campaign" [("job_title", LStr (jd_title payload))]
              (campaign_block payload limit) w0 w2 (Raise cause) Hblock)
    as (w' & Hrun & Hcrew).
  exists w'. split; [exact Hrun|]. rewrite Hcrew. auto.
Qed.

Lemma run_campaign_aborts_without_commit_witness :
  exists w',
    run_campaign None 4 world_without_default
    = (Raise (CrewError "crew failed during run_campaign"
                (CrewError "evaluator failed during evaluate" (KeyError "default"))), w')
    /\ latest_candidates (crew w') = []
    /\ latest_evaluations (crew w') = []
    /\ risk_history (crew w') = [].
Proof.
  apply (run_campaign_aborts_without_commit source_stages None 4 world_without_default).
  apply (evaluate_raises _ _ _
           (seeds_of default_researcher (mkJobDescription "Talent Search" "No JD provided.") 4)
           (KeyError "default")).
  - reflexivity.
  - vm_compute. reflexivity.
Defined.

(** Conversely, [run_campaign] raises only when a stage did, and then only
    that [CrewError]. *)
Lemma run_campaign_raises_only_for_a_stage (stages : Stages)
    (job_description_arg : option JobDescriptionModel) (limit : Z) (w w' : World)
    (exc : PyExn) :
  run_campaign job_description_arg limit w = (Raise exc, w') ->
  exists cause,
    exc = CrewError "crew failed during run_campaign" cause
    /\ StageFailure (crew w) (default (job_description (crew w)) job_description_arg)
         limit cause.
Proof.
  rewrite run_campaign_unfold. cbv zeta.
  set (payload := default (job_description (crew w)) job_description_arg).
  set (w0 := emit INFO "crew_run_campaign_start" _ w).
  set (w1 := emit INFO "agent_operation_start"
               ([("agent", LStr "crew"); ("operation", LStr "run_campaign")]
                  ++ [("job_title", LStr (jd_title payload))]) w0).
  intros Hrun.
  assert (Hfail : forall cause, StageFailure (crew w) payload limit cause ->
                                exc = CrewError "crew failed during run_campaign" cause).
  { intros cause Hcause.
    destruct (campaign_block_raises payload limit w1 cause Hcause) as (w2 & Hblock & _).
    destruct (trace_run "crew" "run_campaign" [("job_title", LStr (jd_title payload))]
                (campaign_block payload limit) w0 w2 (Raise cause) Hblock)
      as (w3 & Htrace & _).
    rewrite Htrace in Hrun. cbn [traced] in Hrun. now injection Hrun as <- _. }
  destruct (research_stage (_candidate_pool (researcher (crew w))) payload limit)
    as [seeds|original] eqn:H1;
    [|eexists; split; [apply Hfail|]; apply research_raises; exact H1].
  destruct (evaluate_stage (_bias_thresholds (evaluator (crew w))) seeds)
    as [evaluations|original] eqn:H2;
    [|eexists; split; [apply Hfail|]; apply (evaluate_raises _ _ _ seeds); eassumption].
  destruct (recommend_stage evaluations (policy (crew w))) as [ranked|original] eqn:H3;
    [|eexists; split; [apply Hfail|]; apply (recommend_raises _ _ _ seeds evaluations); eassumption].
  destruct (risk_stage evaluations) as [risk|original] eqn:H4;
    [|eexists; split; [apply Hfail|]; apply (risk_raises _ _ _ seeds evaluations ranked); eassumption].
  destruct (campaign_block_ok payload limit w1 seeds evaluations ranked risk H1 H2 H3 H4)
    as (w2 & Hblock & _).
  destruct (trace_run "crew" "run_campaign" [("job_title", LStr (jd_title payload))]
              (campaign_block payload limit) w0 w2 _ Hblock)
    as (w3 & Htrace & _).
  rewrite Htrace in Hrun. discriminate.
Qed.

(** *** Re-ranking *)

(** C4, as stated, fails: after a campaign has run, [rerank([])] falls back
    to the stored evaluations and returns their ranking. *)
Lemma rerank_empty_list_uses_snapshot :
  exists ranked w',
    rerank (Some []) None campaign_world = (Ok ranked, w')
    /\ map rc_name ranked = ["Marina Byte"; "Kai Ops"; "Nia Vector"; "Alex Dev"]
    /\ ranked <> []
    /\ events w' <> events campaign_world ++
         [{| log_level := WARNING; log_event := "rerank_without_evaluations";
             log_context := [] |}].
Proof.
  do 2 eexists. split; [vm_compute; reflexivity|].
  split; [reflexivity|]. split; discriminate.
Qed.

(** C4, amended: an empty list is treated as no list, so [rerank] works from
    the stored evaluations; when none are stored it returns the empty list,
    logs the warning, raises nothing and changes nothing else. *)
Theorem rerank_soft_empty (policy_arg : option RankingPolicy) (w : World) :
  rerank (Some []) policy_arg w = rerank None policy_arg w
  /\ (latest_evaluations (crew w) = [] ->
      rerank (Some []) policy_arg w
      = (Ok [], emit WARNING "rerank_without_evaluations" [] w)).
Proof.
  split; [reflexivity|]. intros Hnone.
  unfold rerank. rewrite bind_gets, Hnone. reflexivity.
Qed.

Lemma rerank_soft_empty_witness :
  rerank (Some []) None default_world
  = (Ok [], emit WARNING "rerank_without_evaluations" [] default_world).
Proof.
  apply (rerank_soft_empty None default_world). reflexivity.
Defined.

(** *** The bound job description *)


Lemma evaluate_seeds_ok thresholds seeds :
  is_Some (thresholds !! "default") ->
  exists evaluations,
    evaluate_seeds thresholds seeds = Ok evaluations
    /\ map ev_candidate_name evaluations = map seed_name seeds.
Proof.
  intros [fallback Hfallback]. unfold evaluate_seeds.
  induction seeds as [|seed seeds (evaluations & IH & Hnames)].
  - now exists [].
  - cbn [result_map]. rewrite IH.
    unfold evaluate_seed, _derive_bias_flags, getitem. rewrite Hfallback.
    eexists. split; [reflexivity|]. cbn [map ev_candidate_name]. now rewrite Hnames.
Qed.




(** *** Outreach *)

Lemma draft_frame campaign_id candidate template (w : World) :
  crew (snd (draft campaign_id candidate template w)) = crew w.
Proof. reflexivity. Qed.

Lemma M_map_frame {A B} (f : A -> M B) (l : list A) :
  (forall x w, crew (snd (f x w)) = crew w) ->
  forall w, crew (snd (M_map f l w)) = crew w.
Proof.
  intros Hf. induction l as [|x l IH]; intros w; [reflexivity|].
  cbn [M_map]. unfold mbind, M_bind, mret, M_ret.
  specialize (Hf x w). destruct (f x w) as [[y|exc] w1]; cbn [snd] in *; [|exact Hf].
  specialize (IH w1). destruct (M_map f l w1) as [[ys|exc] w2]; cbn [snd] in *; congruence.
Qed.

(** C10: [generate_outreach] leaves the crew as it found it, whatever the
    campaign id, the candidates and the template: the two snapshots and the
    risk history are the same after the call as before. *)
Theorem generate_outreach_frame (campaign_id : string)
    (candidates : option (list RankedCandidate)) (template : option OutreachTemplate)
    (w : World) :
  let w' := snd (generate_outreach campaign_id candidates template w) in
  crew w' = crew w
  /\ latest_candidates (crew w') = latest_candidates (crew w)
  /\ latest_evaluations (crew w') = latest_evaluations (crew w)
  /\ risk_history (crew w') = risk_history (crew w).
Proof.
  cbv zeta.
  assert (Hcrew : crew (snd (generate_outreach campaign_id candidates template w)) = crew w).
  { unfold generate_outreach. rewrite bind_gets.
    set (roster := match candidates with
                   | Some (candidate :: rest) => candidate :: rest
                   | _ => latest_candidates (crew w)
                   end).
    destruct roster as [|candidate rest]; [reflexivity|].
    apply M_map_frame. intros x w1. apply draft_frame. }
  now rewrite Hcrew.
Qed.

(** * Further properties of the agents *)

(** ** Evaluation *)

Lemma str_in_In (x : string) (l : list string) : str_in x l = true <-> In x l.
Proof.
  unfold str_in. rewrite existsb_exists. split.
  - intros (y & Hy & Heq). apply String.eqb_eq in Heq. now subst.
  - intros Hx. exists x. split; [exact Hx | apply String.eqb_refl].
Qed.

Lemma evaluate_seeds_cons_raise thresholds seed seeds :
  thresholds !! "default" = None ->
  evaluate_seeds thresholds (seed :: seeds) = Raise (KeyError "default").
Proof.
  intros Hnone. unfold evaluate_seeds. cbn [result_map].
  unfold evaluate_seed, _derive_bias_flags, getitem. now rewrite Hnone.
Qed.

(** X1: without a "default" entry among the thresholds, [evaluate] fails on
    every non-empty list of seeds with a [CrewError] around
    [KeyError('default')], whether or not the roles of the seeds have
    thresholds of their own, and leaves the crew alone; on the empty list it
    returns the empty list. *)
Theorem evaluate_needs_default (self : EvaluatorAgent) (seeds : list CandidateSeed)
    (w : World) :
  _bias_thresholds self !! "default" = None ->
  (exists w', evaluate self [] w = (Ok [], w') /\ crew w' = crew w)
  /\ (seeds <> [] ->
      exists w',
        evaluate self seeds w
        = (Raise (CrewError "evaluator failed during evaluate" (KeyError "default")), w')
        /\ crew w' = crew w).
Proof.
  intros Hnone. split.
  - destruct (evaluate_step self [] w) as (w' & Hrun & Hcrew). now exists w'.
  - intros Hseeds. destruct seeds as [|seed seeds]; [congruence|].
    destruct (evaluate_step self (seed :: seeds) w) as (w' & Hrun & Hcrew).
    exists w'. split; [|exact Hcrew]. rewrite Hrun.
    cbn [evaluate_stage source_stages]. now rewrite evaluate_seeds_cons_raise.
Qed.

Lemma evaluate_needs_default_witness :
  exists w',
    evaluate evaluator_without_default [alex_seed] default_world
    = (Raise (CrewError "evaluator failed during evaluate" (KeyError "default")), w').
Proof.
  destruct (evaluate_needs_default evaluator_without_default [alex_seed] default_world)
    as (_ & Hraise); [vm_compute; reflexivity|].
  destruct Hraise as (w' & Hrun & _); [discriminate|].
  now exists w'.
Defined.

Lemma evaluate_seeds_Forall2 thresholds seeds :
  is_Some (thresholds !! "default") ->
  exists evaluations,
    evaluate_seeds thresholds seeds = Ok evaluations
    /\ Forall2 evaluation_of_seed seeds evaluations.
Proof.
  intros [fallback Hfallback]. unfold evaluate_seeds.
  induction seeds as [|seed seeds (evaluations & IH & Hall)].
  - exists []. split; [reflexivity | constructor].
  - cbn [result_map]. rewrite IH.
    unfold evaluate_seed, _derive_bias_flags, getitem. rewrite Hfallback.
    eexists. split; [reflexivity|]. constructor; [|exact Hall].
    unfold evaluation_of_seed. cbn. repeat split. apply Q.le_min_l.
Qed.

(** X2: with a "default" threshold in place, [evaluate] returns one
    evaluation per seed, in the order of the seeds; each keeps the seed's
    id, name, role, rationale and tags, and scores [min(1, seed score + 0.1)],
    so never more than 1. *)
Theorem evaluate_one_per_seed (self : EvaluatorAgent) (seeds : list CandidateSeed)
    (w : World) :
  is_Some (_bias_thresholds self !! "default") ->
  exists evaluations w',
    evaluate self seeds w = (Ok evaluations, w')
    /\ crew w' = crew w
    /\ length evaluations = length seeds
    /\ Forall2 evaluation_of_seed seeds evaluations.
Proof.
  intros Hdefault.
  destruct (evaluate_seeds_Forall2 (_bias_thresholds self) seeds Hdefault)
    as (evaluations & Hok & Hall).
  destruct (evaluate_step self seeds w) as (w' & Hrun & Hcrew).
  exists evaluations, w'. split.
  - rewrite Hrun. cbn [evaluate_stage source_stages]. now rewrite Hok.
  - split; [exact Hcrew|]. split; [|exact Hall].
    symmetry. eapply Forall2_length, Hall.
Qed.

Lemma evaluate_one_per_seed_witness :
  exists evaluations w',
    evaluate (EvaluatorAgent_init None) [alex_seed] default_world = (Ok evaluations, w')
    /\ Forall2 evaluation_of_seed [alex_seed] evaluations.
Proof.
  destruct (evaluate_one_per_seed (EvaluatorAgent_init None) [alex_seed] default_world)
    as (evaluations & w' & Hrun & _ & _ & Hall); [now eexists|].
  now exists evaluations, w'.
Defined.

(** X3: the bias flags of an evaluation.  "Data Deficient" and "Manual
    Review Required" are flagged exactly when the seed carries the tag,
    "Bias Warning" exactly when the seed's score is below the threshold of
    its role (the "default" one when the role has none); nothing else is
    flagged, no flag twice; and the ranked entry has no note exactly when
    there is no flag. *)
Theorem bias_flags_of_evaluation (thresholds : gmap string Q) (fallback : Q)
    (seed : CandidateSeed) (evaluation : EvaluationResult) (ranking : RankingPolicy)
    (position : Z) :
  thresholds !! "default" = Some fallback ->
  evaluate_seed thresholds seed = Ok evaluation ->
  let flags := ev_bias_flags evaluation in
  (In "Data Deficient" flags <-> In "Data Deficient" (seed_tags seed))
  /\ (In "Manual Review Required" flags <-> In "Manual Review Required" (seed_tags seed))
  /\ (In "Bias Warning" flags
      <-> (seed_score seed < threshold_for thresholds fallback seed)%Q)
  /\ (forall flag, In flag flags ->
        flag = "Data Deficient" \/ flag = "Manual Review Required" \/ flag = "Bias Warning")
  /\ NoDup flags
  /\ (notes (rank_entry ranking (position, evaluation)) = None <-> flags = []).
Proof.
  intros Hfallback Heval. unfold evaluate_seed, _derive_bias_flags, getitem in Heval.
  rewrite Hfallback in Heval. cbn in Heval. injection Heval as <-.
  cbn [ev_bias_flags rank_entry notes]. fold (threshold_for thresholds fallback seed).
  rewrite <- !str_in_In, <- Qlt_bool_iff.
  destruct (str_in "Data Deficient" (seed_tags seed)),
           (str_in "Manual Review Required" (seed_tags seed)),
           (Qlt_bool (seed_score seed) (threshold_for thresholds fallback seed));
    cbn [app notes In].
  all: split; [split; intros H; try reflexivity; try discriminate H; intuition congruence|].
  all: split; [split; intros H; try reflexivity; try discriminate H; intuition congruence|].
  all: split; [split; intros H; try reflexivity; try discriminate H; intuition congruence|].
  all: split; [intros flag H; intuition (subst; auto)|].
  all: split; [apply (bool_decide_unpack _); vm_compute; exact I|].
  all: split; congruence.
Qed.

Lemma bias_flags_of_evaluation_witness :
  exists evaluation,
    evaluate_seed {[ "default" := 0.65%Q ]} alex_seed = Ok evaluation
    /\ In "Bias Warning" (ev_bias_flags evaluation)
    /\ NoDup (ev_bias_flags evaluation).
Proof.
  destruct (evaluate_seed {[ "default" := 0.65%Q ]} alex_seed) as [evaluation|exc] eqn:Heval;
    [|vm_compute in Heval; discriminate].
  assert (Hfallback : ({[ "default" := 0.65%Q ]} : gmap string Q) !! "default" = Some 0.65%Q)
    by (vm_compute; reflexivity).
  destruct (bias_flags_of_evaluation _ _ alex_seed evaluation default_policy 1 Hfallback Heval)
    as (_ & _ & Hwarn & _ & Hnodup & _).
  exists evaluation. split; [reflexivity|]. split; [|exact Hnodup].
  apply Hwarn. vm_compute. reflexivity.
Defined.

(** ** Ranking *)

Lemma rank_entries_payload (ranking : RankingPolicy) (l : list EvaluationResult) (start : Z) :
  map ranked_payload (map (rank_entry ranking) (enumerate l start))
  = map evaluation_payload l.
Proof.
  revert start. induction l as [|e l IH]; intros start; [reflexivity|].
  cbn [enumerate map]. now rewrite IH.
Qed.

(** X4: [recommend] never raises and neither drops, adds nor alters a
    candidate: the ranked entries carry the ids, names, roles, rationales,
    tags, bias flags and profile URLs of the evaluations, each evaluation
    once. *)
Theorem recommend_keeps_every_candidate (evaluations : list EvaluationResult)
    (ranking : RankingPolicy) (w : World) :
  exists ranked w',
    recommend evaluations ranking w = (Ok ranked, w')
    /\ length ranked = length evaluations
    /\ Permutation (map ranked_payload ranked) (map evaluation_payload evaluations).
Proof.
  destruct (recommend_run evaluations ranking w) as (w' & Hrun & _).
  exists (ranking_of evaluations ranking), w'. split; [exact Hrun|].
  assert (Hperm : Permutation (map ranked_payload (ranking_of evaluations ranking))
                              (map evaluation_payload evaluations)).
  { unfold ranking_of. rewrite rank_entries_payload.
    apply Permutation_sym, Permutation_map, sorted_reverse_perm. }
  split; [|exact Hperm].
  apply Permutation_length in Hperm. now rewrite !length_map in Hperm.
Qed.

Lemma tier_prefix_inj (a b : string) : "Tier " +:+ a = "Tier " +:+ b -> a = b.
Proof. intros H. cbv [String.append] in H. now injection H. Qed.

(** X5: the candidate at 0-based position [i] of a ranking is labelled
    "Tier 1 + i // 2", so two candidates carry the same tier label exactly
    when their positions fall in the same pair (0 and 1, 2 and 3, ...). *)
Theorem rank_label_pairs (evaluations : list EvaluationResult) (ranking : RankingPolicy)
    (i j : nat) (ri rj : RankedCandidate) :
  ranking_of evaluations ranking !! i = Some ri ->
  ranking_of evaluations ranking !! j = Some rj ->
  rank_label ri = "Tier " +:+ pretty (1 + Z.of_nat i / 2)
  /\ (rank_label ri = rank_label rj <-> (i / 2 = j / 2)%nat).
Proof.
  intros Hi Hj.
  apply ranking_of_lookup in Hi as (ei & _ & ->), Hj as (ej & _ & ->).
  cbn [rank_entry rank_label].
  replace (1 + Z.of_nat i - 1) with (Z.of_nat i) by lia.
  replace (1 + Z.of_nat j - 1) with (Z.of_nat j) by lia.
  split; [reflexivity|]. split.
  - intros Hlabel. apply tier_prefix_inj, (inj pretty) in Hlabel.
    apply Nat2Z.inj. rewrite !Nat2Z.inj_div. cbn [Z.of_nat Pos.of_succ_nat Pos.succ]. lia.
  - intros Hpair. do 3 f_equal.
    apply (f_equal Z.of_nat) in Hpair. rewrite !Nat2Z.inj_div in Hpair. exact Hpair.
Qed.

Lemma rank_label_pairs_witness :
  exists ri rj,
    ranking_of [cx_plain; cx_review; cx_over] default_policy !! 0%nat = Some ri
    /\ ranking_of [cx_plain; cx_review; cx_over] default_policy !! 1%nat = Some rj
    /\ rank_label ri = "Tier 1" /\ rank_label ri = rank_label rj.
Proof.
  do 2 eexists. split; [reflexivity|]. split; [reflexivity|].
  edestruct (rank_label_pairs [cx_plain; cx_review; cx_over] default_policy 0 1)
    as (Hlabel & Hsame); [reflexivity | reflexivity |].
  split; [exact Hlabel|]. apply Hsame. reflexivity.
Defined.

Lemma insert_desc_front {A} (key : A -> Q) (x : A) (l : list A) :
  Forall (key_ge key x) l -> insert_desc key x l = x :: l.
Proof.
  intros Hall. destruct Hall as [|y l Hy _]; [reflexivity|].
  cbn [insert_desc]. unfold key_ge in Hy. apply Qle_bool_iff in Hy. now rewrite Hy.
Qed.

Lemma sorted_reverse_fixed {A} (key : A -> Q) (l : list A) :
  StronglySorted (key_ge key) l -> sorted_reverse key l = l.
Proof.
  induction 1 as [|x l Hs IH Hx]; [reflexivity|].
  cbn [sorted_reverse fold_right]. fold (sorted_reverse key l).
  rewrite IH. now apply insert_desc_front.
Qed.

Lemma rank_entries_ids (ranking : RankingPolicy) (l : list EvaluationResult) (start : Z) :
  map rc_candidate_id (map (rank_entry ranking) (enumerate l start))
  = map ev_candidate_id l.
Proof.
  revert start. induction l as [|e l IH]; intros start; [reflexivity|].
  cbn [enumerate map rank_entry rc_candidate_id]. now rewrite IH.
Qed.

Lemma same_ranking_refl (l : list RankedCandidate) : same_ranking l l.
Proof. induction l as [|r l IH]; constructor; [now repeat split | exact IH]. Qed.

Lemma same_ranked_fields_eq (r1 r2 : RankedCandidate) :
  same_ranked_fields r1 r2 -> r1 = r2.
Proof.
  destruct r1, r2. unfold same_ranked_fields, ranked_payload. cbn.
  intros (Hpayload & -> & -> & -> & ->). now injection Hpayload as -> -> -> -> -> -> ->.
Qed.

Lemma same_ranking_eq (l1 l2 : list RankedCandidate) : same_ranking l1 l2 -> l1 = l2.
Proof.
  induction 1 as [|r1 r2 l1 l2 Hfields _ IH]; [reflexivity|].
  now rewrite (same_ranked_fields_eq r1 r2 Hfields), IH.
Qed.

(** X6: ranking is insensitive to a previous ranking of its input: sorting
    the sorted evaluations changes nothing, and [recommend] on the
    evaluations taken in ranked order gives entries that agree with those
    for the original list in every computed field, position by position
    (the two calls make their own entries, each with its own time). *)
Theorem recommend_resorted (evaluations : list EvaluationResult)
    (ranking : RankingPolicy) (w1 w2 : World) :
  sorted_evaluations (sorted_evaluations evaluations) = sorted_evaluations evaluations
  /\ exists ranked1 ranked2 w1' w2',
       recommend (sorted_evaluations evaluations) ranking w1 = (Ok ranked1, w1')
       /\ recommend evaluations ranking w2 = (Ok ranked2, w2')
       /\ same_ranking ranked1 ranked2.
Proof.
  assert (Hfixed : sorted_evaluations (sorted_evaluations evaluations)
                   = sorted_evaluations evaluations).
  { apply sorted_reverse_fixed, sorted_reverse_sorted. }
  split; [exact Hfixed|].
  destruct (recommend_run (sorted_evaluations evaluations) ranking w1) as (w1' & Hrun1 & _).
  destruct (recommend_run evaluations ranking w2) as (w2' & Hrun2 & _).
  do 4 eexists. split; [exact Hrun1|]. split; [exact Hrun2|].
  unfold ranking_of. rewrite Hfixed. apply same_ranking_refl.
Qed.

(** X7: the policy has no say in the order: under any two policies
    [recommend] lists the same candidates at the same positions, with the
    same tier labels and notes; only final scores (and the recommendation
    text quoting them) can differ. *)
Theorem recommend_order_ignores_policy (evaluations : list EvaluationResult)
    (first second : RankingPolicy) (w1 w2 : World) :
  exists ranked1 ranked2 w1' w2',
    recommend evaluations first w1 = (Ok ranked1, w1')
    /\ recommend evaluations second w2 = (Ok ranked2, w2')
    /\ Forall2 (fun r1 r2 =>
                  ranked_payload r1 = ranked_payload r2
                  /\ rank_label r1 = rank_label r2
                  /\ notes r1 = notes r2)
               ranked1 ranked2.
Proof.
  destruct (recommend_run evaluations first w1) as (w1' & Hrun1 & _).
  destruct (recommend_run evaluations second w2) as (w2' & Hrun2 & _).
  exists (ranking_of evaluations first), (ranking_of evaluations second), w1', w2'.
  split; [exact Hrun1|]. split; [exact Hrun2|].
  unfold ranking_of. generalize (enumerate (sorted_evaluations evaluations) 1).
  induction l as [|[position e] l IH]; cbn [map]; constructor; [|exact IH].
  now cbn.
Qed.

(** ** What the operations of the crew keep *)

Section Keeps.
Context (R : RecruitmentCrew -> RecruitmentCrew -> Prop) `{!PreOrder R}.

Lemma keeps_ret {A} (a : A) : keeps R (mret a).
Proof. intros w. cbn. reflexivity. Qed.

Lemma keeps_lift {A} (r : result A) : keeps R (lift r).
Proof. intros w. cbn. reflexivity. Qed.

Lemma keeps_gets {A} (f : World -> A) : keeps R (gets f).
Proof. intros w. cbn. reflexivity. Qed.

Lemma keeps_log level event context : keeps R (log level event context).
Proof. intros w. cbn. reflexivity. Qed.

Lemma keeps_uuid4_hex : keeps R uuid4_hex.
Proof. intros w. cbn. reflexivity. Qed.

Lemma keeps_modify (f : RecruitmentCrew -> RecruitmentCrew) :
  (forall self, R self (f self)) -> keeps R (modify (with_crew f)).
Proof. intros Hf w. cbn. apply Hf. Qed.

Lemma keeps_bind {A B} (m : M A) (k : A -> M B) :
  keeps R m -> (forall a, keeps R (k a)) -> keeps R (m ≫= k).
Proof.
  intros Hm Hk w. unfold mbind, M_bind. specialize (Hm w).
  destruct (m w) as [[a|exc] w1]; cbn [snd] in *; [|exact Hm].
  etransitivity; [exact Hm | apply Hk].
Qed.

Lemma keeps_trace {A} agent_name operation context (body : M A) :
  keeps R body -> keeps R (trace agent_name operation context body).
Proof.
  intros Hbody w. unfold trace.
  specialize (Hbody (emit INFO "agent_operation_start"
                       ([("agent", LStr agent_name); ("operation", LStr operation)]
                          ++ context) w)).
  destruct (body _) as [[a|exc] w1]; exact Hbody.
Qed.

Lemma keeps_M_map {A B} (f : A -> M B) (l : list A) :
  (forall x, keeps R (f x)) -> keeps R (M_map f l).
Proof.
  intros Hf. induction l as [|x l IH]; cbn [M_map]; [apply keeps_ret|].
  apply keeps_bind; [apply Hf|]. intros y.
  apply keeps_bind; [exact IH|]. intros ys. apply keeps_ret.
Qed.
End Keeps.

#[local] Instance same_configuration_preorder : PreOrder same_configuration.
Proof.
  split.
  - intros c. now repeat split.
  - intros a b c (H1 & H2 & H3 & H4 & H5 & H6 & H7 & H8)
                 (K1 & K2 & K3 & K4 & K5 & K6 & K7 & K8).
    repeat split; congruence.
Qed.

#[local] Instance history_grows_preorder : PreOrder history_grows.
Proof.
  split.
  - intros c. unfold history_grows. reflexivity.
  - intros a b c Hab Hbc. unfold history_grows in *.
    etransitivity; [exact Hab | exact Hbc].
Qed.

Ltac keeps_steps :=
  repeat first
    [ match goal with |- PreOrder _ => exact _ end
    | match goal with |- forall _, keeps _ _ => intros ? end
    | apply keeps_bind
    | apply keeps_trace
    | apply keeps_gets
    | apply keeps_log
    | apply keeps_ret
    | apply keeps_lift
    | apply keeps_uuid4_hex ].

Section KeepsCrew.
Context {stages : Stages}.

Lemma run_campaign_same_configuration job_description_arg limit :
  keeps same_configuration (run_campaign job_description_arg limit).
Proof.
  unfold run_campaign, campaign_block, research, evaluate, recommend, assess_risk,
    _record_state, _apply_policy.
  keeps_steps; apply keeps_modify; intros self; now repeat split.
Qed.

Lemma generate_outreach_same_configuration campaign_id candidates template :
  keeps same_configuration (generate_outreach campaign_id candidates template).
Proof.
  unfold generate_outreach. keeps_steps. cbv zeta.
  match goal with |- keeps _ (match ?roster with _ => _ end) => destruct roster end.
  - keeps_steps.
  - apply keeps_M_map; [exact _|]. intros candidate. unfold draft. keeps_steps.
Qed.

Lemma run_campaign_history_grows job_description_arg limit :
  keeps history_grows (run_campaign job_description_arg limit).
Proof.
  unfold run_campaign, campaign_block, research, evaluate, recommend, assess_risk,
    _record_state, _apply_policy.
  keeps_steps; apply keeps_modify; intros self; unfold history_grows; cbn.
  - reflexivity.
  - now apply prefix_app_r.
Qed.

Lemma rerank_history_grows evaluations policy_arg :
  keeps history_grows (rerank evaluations policy_arg).
Proof.
  unfold rerank. keeps_steps. cbv zeta.
  match goal with |- keeps _ (match ?source with _ => _ end) => destruct source end.
  - keeps_steps.
  - unfold set_crew_policy, set_policy, recommend, assess_risk, _record_state, _apply_policy.
    keeps_steps; apply keeps_modify; intros self; unfold history_grows; cbn;
      first [reflexivity | now apply prefix_app_r].
Qed.

Lemma generate_outreach_history_grows campaign_id candidates template :
  keeps history_grows (generate_outreach campaign_id candidates template).
Proof.
  unfold generate_outreach. keeps_steps. cbv zeta.
  match goal with |- keeps _ (match ?roster with _ => _ end) => destruct roster end.
  - keeps_steps.
  - apply keeps_M_map; [exact _|]. intros candidate. unfold draft. keeps_steps.
Qed.
End KeepsCrew.

(** X8: [run_campaign] and [generate_outreach] leave the configuration of
    the crew alone, whatever the stages do and whether the call returns or
    raises: policy, compliance policy, candidate pool, thresholds, models,
    bound job description and [jd_data] are as before.  In particular a job
    description passed to [run_campaign] is used for that run only and does
    not replace the bound one. *)
Theorem run_campaign_keeps_configuration (stages : Stages)
    (job_description_arg : option JobDescriptionModel) (limit : Z)
    (campaign_id : string) (candidates : option (list RankedCandidate))
    (template : option OutreachTemplate) (w : World) :
  same_configuration (crew w) (crew (snd (run_campaign job_description_arg limit w)))
  /\ same_configuration (crew w)
       (crew (snd (generate_outreach campaign_id candidates template w)))
  /\ job_description (crew (snd (run_campaign job_description_arg limit w)))
     = job_description (crew w).
Proof.
  split; [apply run_campaign_same_configuration|].
  split; [apply generate_outreach_same_configuration|].
  apply (run_campaign_same_configuration job_description_arg limit w).
Qed.

(** X9: the risk history is append-only: after [run_campaign], [rerank] or
    [generate_outreach], whatever the stages do and whether the call returns
    or raises, the history before the call is a prefix of the history after
    it. *)
Theorem risk_history_append_only (stages : Stages)
    (job_description_arg : option JobDescriptionModel) (limit : Z)
    (evaluations : option (list EvaluationResult)) (policy_arg : option RankingPolicy)
    (campaign_id : string) (candidates : option (list RankedCandidate))
    (template : option OutreachTemplate) (w : World) :
  risk_history (crew w)
    `prefix_of` risk_history (crew (snd (run_campaign job_description_arg limit w)))
  /\ risk_history (crew w)
       `prefix_of` risk_history (crew (snd (rerank evaluations policy_arg w)))
  /\ risk_history (crew w)
       `prefix_of` risk_history
                     (crew (snd (generate_outreach campaign_id candidates template w))).
Proof.
  split; [apply run_campaign_history_grows|].
  split; [apply rerank_history_grows | apply generate_outreach_history_grows].
Qed.

(** ** What the operations of the crew return and record *)

Lemma bind_modify {B} (f : World -> World) (k : unit -> M B) (w : World) :
  (modify f ≫= k) w = k tt (f w).
Proof. reflexivity. Qed.

Lemma evaluate_seeds_inv thresholds seeds evaluations :
  evaluate_seeds thresholds seeds = Ok evaluations ->
  Forall2 evaluation_of_seed seeds evaluations.
Proof.
  intros Hok. destruct (thresholds !! "default") as [fallback|] eqn:Hdefault.
  - destruct (evaluate_seeds_Forall2 thresholds seeds) as (evaluations' & Hok' & Hall);
      [rewrite Hdefault; now eexists|].
    rewrite Hok in Hok'. now injection Hok' as <-.
  - destruct seeds as [|seed seeds].
    + cbn in Hok. injection Hok as <-. constructor.
    + now rewrite evaluate_seeds_cons_raise in Hok.
Qed.

Lemma generate_outreach_same_crew campaign_id candidates template :
  keeps eq (generate_outreach campaign_id candidates template).
Proof.
  unfold generate_outreach. keeps_steps. cbv zeta.
  match goal with |- keeps _ (match ?roster with _ => _ end) => destruct roster end.
  - keeps_steps.
  - apply keeps_M_map; [exact _|]. intros candidate. unfold draft. keeps_steps.
Qed.

Lemma enumerate_length {A} (l : list A) (start : Z) :
  length (enumerate l start) = length l.
Proof. revert start. induction l as [|x l IH]; intros start; cbn; [|rewrite IH]; reflexivity. Qed.

Lemma ranking_of_length evaluations ranking :
  length (ranking_of evaluations ranking) = length evaluations.
Proof.
  unfold ranking_of. rewrite length_map, enumerate_length.
  symmetry. apply Permutation_length, sorted_reverse_perm.
Qed.

Lemma source_research_ok self job_description limit :
  research_stage (_candidate_pool self) job_description limit
  = Ok (seeds_of self job_description limit).
Proof. reflexivity. Qed.

Lemma source_recommend_ok evaluations ranking :
  recommend_stage evaluations ranking = Ok (ranking_of evaluations ranking).
Proof. reflexivity. Qed.

Lemma run_campaign_ok job_description_arg limit (w : World) evaluations :
  evaluate_seeds (_bias_thresholds (evaluator (crew w)))
    (seeds_of (researcher (crew w))
       (default (job_description (crew w)) job_description_arg) limit)
  = Ok evaluations ->
  exists risk w',
    risk_of evaluations = Ok risk
    /\ run_campaign job_description_arg limit w
       = (Ok (ranking_of evaluations (policy (crew w)), evaluations), w')
    /\ latest_candidates (crew w') = ranking_of evaluations (policy (crew w))
    /\ latest_evaluations (crew w') = evaluations
    /\ risk_history (crew w') = risk_history (crew w) ++ [risk].
Proof.
  intros Hevaluate. eexists.
  rewrite run_campaign_unfold. cbv zeta.
  set (payload := default (job_description (crew w)) job_description_arg) in *.
  set (w0 := emit INFO "crew_run_campaign_start" _ w).
  set (w1 := emit INFO "agent_operation_start"
               ([("agent", LStr "crew"); ("operation", LStr "run_campaign")]
                  ++ [("job_title", LStr (jd_title payload))]) w0).
  destruct (campaign_block_ok payload limit w1
              (seeds_of (researcher (crew w)) payload limit) evaluations
              (ranking_of evaluations (policy (crew w))) _
              (source_research_ok _ _ _) Hevaluate (source_recommend_ok _ _)
              (risk_of_ok evaluations))
    as (w2 & Hblock & K1 & K2 & K3).
  destruct (trace_run "crew" "run_campaign" [("job_title", LStr (jd_title payload))]
              (campaign_block payload limit) w0 w2 _ Hblock)
    as (w' & Htrace & Hw').
  exists w'. split; [apply risk_of_ok|]. split; [exact Htrace|].
  rewrite Hw'. auto.
Qed.

Lemma run_campaign_raise job_description_arg limit (w : World) exc :
  evaluate_seeds (_bias_thresholds (evaluator (crew w)))
    (seeds_of (researcher (crew w))
       (default (job_description (crew w)) job_description_arg) limit)
  = Raise exc ->
  exists w',
    run_campaign job_description_arg limit w
    = (Raise (CrewError "crew failed during run_campaign"
                (CrewError "evaluator failed during evaluate" exc)), w')
    /\ latest_candidates (crew w') = latest_candidates (crew w)
    /\ latest_evaluations (crew w') = latest_evaluations (crew w)
    /\ risk_history (crew w') = risk_history (crew w).
Proof.
  intros Hevaluate.
  rewrite run_campaign_unfold. cbv zeta.
  set (payload := default (job_description (crew w)) job_description_arg) in *.
  set (w0 := emit INFO "crew_run_campaign_start" _ w).
  set (w1 := emit INFO "agent_operation_start"
               ([("agent", LStr "crew"); ("operation", LStr "run_campaign")]
                  ++ [("job_title", LStr (jd_title payload))]) w0).
  assert (Hfail : StageFailure (crew w1) payload limit
                    (CrewError "evaluator failed during evaluate" exc)).
  { apply (evaluate_raises _ _ _ (seeds_of (researcher (crew w)) payload limit));
      [apply source_research_ok | exact Hevaluate]. }
  destruct (campaign_block_raises payload limit w1 _ Hfail) as (w2 & Hblock & K1 & K2 & K3).
  destruct (trace_run "crew" "run_campaign" [("job_title", LStr (jd_title payload))]
              (campaign_block payload limit) w0 w2 _ Hblock)
    as (w' & Htrace & Hw').
  exists w'. split; [exact Htrace|]. rewrite Hw'. auto.
Qed.

Lemma recommend_crew {stages : Stages} evaluations ranking (w : World) :
  exists w',
    recommend evaluations ranking w
    = (traced "recommender" "recommend" (recommend_stage evaluations ranking), w')
    /\ crew w' = crew (snd (_apply_policy ranking w)).
Proof.
  unfold recommend.
  edestruct (trace_run "recommender" "recommend" [("policy", LStr (pol_name ranking))]
               (lift (recommend_stage evaluations ranking)) (snd (_apply_policy ranking w)))
    as (w' & Hrun & Hcrew); [reflexivity|].
  exists w'. split; [|exact Hcrew].
  erewrite bind_ok; [exact Hrun | reflexivity].
Qed.

Lemma rerank_unfold evaluations policy_arg (w : World) :
  let source := rerank_source evaluations (crew w) in
  let active := rerank_policy policy_arg (crew w) in
  rerank evaluations policy_arg w
  = match source with
    | [] => (log WARNING "rerank_without_evaluations" [];; mret []) w
    | _ :: _ =>
        (set_crew_policy active;;
         set_policy active;;
         ranked ← recommend source active;
         risk ← assess_risk source;
         _record_state ranked source risk;;
         mret ranked) w
    end.
Proof.
  cbv zeta. unfold rerank. rewrite bind_gets. cbv zeta.
  unfold rerank_source. destruct evaluations as [[|e es]|]; try reflexivity;
    destruct (latest_evaluations (crew w)); reflexivity.
Qed.

Lemma rerank_soft evaluations policy_arg (w : World) :
  rerank_source evaluations (crew w) = [] ->
  rerank evaluations policy_arg w
  = (Ok [], emit WARNING "rerank_without_evaluations" [] w).
Proof. intros Hsource. rewrite rerank_unfold. cbv zeta. now rewrite Hsource. Qed.

Lemma rerank_outcome evaluations policy_arg (w : World) :
  rerank_source evaluations (crew w) <> [] ->
  let source := rerank_source evaluations (crew w) in
  let active := rerank_policy policy_arg (crew w) in
  exists risk w',
    risk_of source = Ok risk
    /\ rerank evaluations policy_arg w = (Ok (ranking_of source active), w')
    /\ policy (crew w') = active
    /\ active_policy (recommender (crew w')) = active
    /\ latest_candidates (crew w') = ranking_of source active
    /\ latest_evaluations (crew w') = source
    /\ risk_history (crew w') = risk_history (crew w) ++ [risk]
    /\ researcher (crew w') = researcher (crew w)
    /\ evaluator (crew w') = evaluator (crew w)
    /\ job_description (crew w') = job_description (crew w).
Proof.
  intros Hsource. cbv zeta.
  set (active := rerank_policy policy_arg (crew w)).
  rewrite rerank_unfold. cbv zeta. fold active.
  destruct (rerank_source evaluations (crew w)) as [|e es] eqn:Hs; [congruence|].
  rewrite <- Hs. clear Hsource.
  unfold set_crew_policy at 1. rewrite bind_modify.
  unfold set_policy, _apply_policy at 1. rewrite bind_modify.
  match goal with |- context [(recommend _ active ≫= _) ?w2] =>
    destruct (recommend_crew (rerank_source evaluations (crew w)) active w2)
      as (w3 & Hrun & Hcrew)
  end.
  rewrite source_recommend_ok in Hrun. cbn [traced] in Hrun.
  rewrite (bind_ok _ _ _ _ _ Hrun).
  unfold assess_risk, lift. cbn [risk_stage source_stages].
  do 2 eexists. split; [apply risk_of_ok|]. split.
  - erewrite bind_ok; [|rewrite risk_of_ok; reflexivity].
    unfold _record_state. rewrite bind_modify. reflexivity.
  - cbn. rewrite Hcrew. cbn. repeat split.
Qed.

(** X10: what a successful [run_campaign] returns and records: the
    evaluations of the seeds researched for the job description, one per
    seed, and their ranking under the crew's policy; both are stored as the
    latest snapshots, and the risk assessment of these evaluations is the one
    entry added to the risk history. *)
Theorem run_campaign_result (job_description_arg : option JobDescriptionModel) (limit : Z)
    (w w' : World) (ranked : list RankedCandidate) (evaluations : list EvaluationResult) :
  run_campaign job_description_arg limit w = (Ok (ranked, evaluations), w') ->
  let payload := default (job_description (crew w)) job_description_arg in
  let seeds := seeds_of (researcher (crew w)) payload limit in
  evaluate_seeds (_bias_thresholds (evaluator (crew w))) seeds = Ok evaluations
  /\ Forall2 evaluation_of_seed seeds evaluations
  /\ ranked = ranking_of evaluations (policy (crew w))
  /\ length ranked = length seeds
  /\ latest_candidates (crew w') = ranked
  /\ latest_evaluations (crew w') = evaluations
  /\ exists risk,
       risk_of evaluations = Ok risk
       /\ risk_history (crew w') = risk_history (crew w) ++ [risk].
Proof.
  intros Hrun payload seeds.
  destruct (evaluate_seeds (_bias_thresholds (evaluator (crew w))) seeds)
    as [evaluations'|exc] eqn:Hevaluate.
  - destruct (run_campaign_ok job_description_arg limit w evaluations' Hevaluate)
      as (risk & w'' & Hrisk & Hok & K1 & K2 & K3).
    rewrite Hok in Hrun. injection Hrun as <- <- <-.
    pose proof (evaluate_seeds_inv _ _ _ Hevaluate) as Hall.
    split; [reflexivity|]. split; [exact Hall|]. split; [reflexivity|]. split.
    + rewrite ranking_of_length. symmetry. eapply Forall2_length, Hall.
    + split; [exact K1|]. split; [exact K2|]. now exists risk.
  - destruct (run_campaign_raise job_description_arg limit w exc Hevaluate)
      as (w'' & Hraise & _).
    rewrite Hraise in Hrun. discriminate.
Qed.

Lemma run_campaign_result_witness :
  exists ranked evaluations w',
    run_campaign (Some test_jd) 4 default_world = (Ok (ranked, evaluations), w')
    /\ length ranked = 4%nat
    /\ latest_candidates (crew w') = ranked.
Proof.
  destruct (run_campaign (Some test_jd) 4 default_world) as [[[ranked evaluations]|exc] w']
    eqn:Hrun; [|vm_compute in Hrun; discriminate].
  destruct (run_campaign_result (Some test_jd) 4 default_world w' ranked evaluations Hrun)
    as (_ & _ & _ & Hlen & Hsnap & _).
  exists ranked, evaluations, w'. split; [reflexivity|]. split; [exact Hlen | exact Hsnap].
Defined.

(** X11: what [rerank] returns and records when it has evaluations to work
    with (the supplied ones, or else the stored ones): the ranking of these
    evaluations under the supplied policy, or else the crew's; the policy
    becomes the crew's and the recommender's policy for later calls, the
    evaluations and their ranking become the latest snapshots, and one risk
    assessment is added to the history. *)
Theorem rerank_records (evaluations : option (list EvaluationResult))
    (policy_arg : option RankingPolicy) (w : World) :
  rerank_source evaluations (crew w) <> [] ->
  let source := rerank_source evaluations (crew w) in
  let active := rerank_policy policy_arg (crew w) in
  exists ranked risk w',
    rerank evaluations policy_arg w = (Ok ranked, w')
    /\ ranked = ranking_of source active
    /\ policy (crew w') = active
    /\ active_policy (recommender (crew w')) = active
    /\ latest_candidates (crew w') = ranked
    /\ latest_evaluations (crew w') = source
    /\ risk_of source = Ok risk
    /\ risk_history (crew w') = risk_history (crew w) ++ [risk].
Proof.
  intros Hsource source active.
  destruct (rerank_outcome evaluations policy_arg w Hsource)
    as (risk & w' & Hrisk & Hrun & K1 & K2 & K3 & K4 & K5 & _).
  exists (ranking_of source active), risk, w'. repeat split; assumption.
Qed.

Lemma rerank_records_witness :
  exists ranked w',
    rerank (Some [cx_plain; cx_review]) (Some no_bonus) default_world = (Ok ranked, w')
    /\ policy (crew w') = no_bonus
    /\ latest_evaluations (crew w') = [cx_plain; cx_review].
Proof.
  destruct (rerank_records (Some [cx_plain; cx_review]) (Some no_bonus) default_world)
    as (ranked & risk & w' & Hrun & _ & Hpolicy & _ & _ & Hevaluations & _);
    [discriminate|].
  exists ranked, w'. split; [exact Hrun|]. split; [exact Hpolicy | exact Hevaluations].
Defined.

(** X12: the snapshots stay consistent: when the stored ranking is the
    ranking of the stored evaluations under the crew's policy (as it is for
    a new crew) it is so again after [run_campaign], after [rerank] and
    after [generate_outreach], whether the call returns or raises. *)
Theorem snapshots_stay_consistent
    (job_description_arg : option JobDescriptionModel) (limit : Z)
    (evaluations : option (list EvaluationResult)) (policy_arg : option RankingPolicy)
    (campaign_id : string) (candidates : option (list RankedCandidate))
    (template : option OutreachTemplate) (w : World) :
  snapshot_consistent (crew w) ->
  snapshot_consistent (crew (snd (run_campaign job_description_arg limit w)))
  /\ snapshot_consistent (crew (snd (rerank evaluations policy_arg w)))
  /\ snapshot_consistent
       (crew (snd (generate_outreach campaign_id candidates template w))).
Proof.
  intros Hconsistent. unfold snapshot_consistent in *. split; [|split].
  - pose proof (run_campaign_same_configuration job_description_arg limit w) as (Hpolicy & _).
    destruct (evaluate_seeds (_bias_thresholds (evaluator (crew w)))
                (seeds_of (researcher (crew w))
                   (default (job_description (crew w)) job_description_arg) limit))
      as [evaluations'|exc] eqn:Hevaluate.
    + destruct (run_campaign_ok job_description_arg limit w evaluations' Hevaluate)
        as (risk & w' & _ & Hok & K1 & K2 & _).
      rewrite Hok in Hpolicy |- *. cbn [snd] in *. now rewrite K1, K2, Hpolicy.
    + destruct (run_campaign_raise job_description_arg limit w exc Hevaluate)
        as (w' & Hraise & K1 & K2 & _).
      rewrite Hraise in Hpolicy |- *. cbn [snd] in *. now rewrite K1, K2, Hpolicy.
  - destruct (rerank_source evaluations (crew w)) as [|e es] eqn:Hsource.
    + rewrite (rerank_soft evaluations policy_arg w Hsource). exact Hconsistent.
    + destruct (rerank_outcome evaluations policy_arg w) as
        (risk & w' & _ & Hrun & K1 & _ & K3 & K4 & _); [congruence|].
      rewrite Hrun. cbn [snd]. now rewrite K1, K3, K4.
  - now rewrite <- (generate_outreach_same_crew campaign_id candidates template w).
Qed.

Lemma snapshots_stay_consistent_witness :
  snapshot_consistent (crew default_world)
  /\ snapshot_consistent (crew (snd (run_campaign (Some test_jd) 4 default_world))).
Proof.
  split; [reflexivity|].
  apply (snapshots_stay_consistent (Some test_jd) 4 None None "CAMP_001" None None
           default_world).
  reflexivity.
Defined.

(** X13: re-ranking is repeatable: on a crew whose stored ranking agrees,
    field by field, with the ranking of its stored evaluations under its
    policy, and which has at least one stored evaluation, [rerank()]
    without arguments, or with an empty list, returns a ranking that agrees
    with the stored one in every computed field.  The entries are new ones
    (each with its own time) and become the stored ranking; the stored
    evaluations and the policy are as before, and the risk history grows by
    one assessment. *)
Theorem rerank_repeatable (w : World) :
  same_ranking (latest_candidates (crew w))
    (ranking_of (latest_evaluations (crew w)) (policy (crew w))) ->
  latest_evaluations (crew w) <> [] ->
  exists ranked risk w',
    rerank None None w = (Ok ranked, w')
    /\ same_ranking ranked (latest_candidates (crew w))
    /\ latest_candidates (crew w') = ranked
    /\ latest_evaluations (crew w') = latest_evaluations (crew w)
    /\ policy (crew w') = policy (crew w)
    /\ risk_history (crew w') = risk_history (crew w) ++ [risk]
    /\ exists ranked_again w'',
         rerank (Some []) None w = (Ok ranked_again, w'')
         /\ same_ranking ranked_again (latest_candidates (crew w)).
Proof.
  intros Hconsistent Hstored.
  destruct (rerank_outcome None None w Hstored)
    as (risk & w' & _ & Hrun & K1 & _ & K3 & K4 & K5 & _).
  cbn [rerank_source rerank_policy default] in *.
  apply same_ranking_eq in Hconsistent.
  exists (ranking_of (latest_evaluations (crew w)) (policy (crew w))), risk, w'.
  split; [exact Hrun|].
  split; [rewrite Hconsistent; apply same_ranking_refl|].
  split; [exact K3|]. split; [exact K4|]. split; [exact K1|]. split; [exact K5|].
  exists (ranking_of (latest_evaluations (crew w)) (policy (crew w))), w'.
  split; [exact Hrun|]. rewrite Hconsistent. apply same_ranking_refl.
Qed.

Lemma rerank_repeatable_witness :
  exists ranked w',
    rerank None None campaign_world = (Ok ranked, w')
    /\ same_ranking ranked (latest_candidates (crew campaign_world))
    /\ latest_candidates (crew w') = ranked.
Proof.
  destruct (rerank_repeatable campaign_world)
    as (ranked & risk & w' & Hrun & Hsame & Hstored & _).
  - vm_compute. repeat (constructor; [repeat split|]). constructor.
  - vm_compute. discriminate.
  - exists ranked, w'. split; [exact Hrun|]. split; [exact Hsame | exact Hstored].
Defined.

(** ** Outreach *)

Lemma list_ascii_of_string_app (a b : string) :
  list_ascii_of_string (a +:+ b) = list_ascii_of_string a ++ list_ascii_of_string b.
Proof.
  induction a as [|c a IH]; [reflexivity|].
  simpl. now rewrite IH.
Qed.

Lemma markup_free_app (a b : string) :
  markup_free a -> markup_free b -> markup_free (a +:+ b).
Proof.
  unfold markup_free. rewrite list_ascii_of_string_app. intros Ha Hb.
  apply Forall_app. now split.
Qed.

Lemma html_escape_char_markup_free (c : ascii) : markup_free (PyStr.html_escape_char c).
Proof.
  unfold PyStr.html_escape_char, markup_free.
  destruct (PyStr.code c =? 38) eqn:H38; [repeat constructor|].
  destruct (PyStr.code c =? 60) eqn:H60; [repeat constructor|].
  destruct (PyStr.code c =? 62) eqn:H62; [repeat constructor|].
  destruct (PyStr.code c =? 34) eqn:H34; [repeat constructor|].
  destruct (PyStr.code c =? 39) eqn:H39; [repeat constructor|].
  cbn [list_ascii_of_string]. constructor; [|constructor].
  unfold markup_char. cbv zeta. now rewrite H60, H62, H34, H39.
Qed.

Lemma html_escape_markup_free (s : string) : markup_free (PyStr.html_escape s).
Proof.
  unfold PyStr.html_escape. induction s as [|c s IH]; cbn [PyStr.concat_map].
  - constructor.
  - apply markup_free_app; [apply html_escape_char_markup_free | exact IH].
Qed.

Lemma draft_run campaign_id candidate template :
  exists message,
    markup_free message
    /\ forall w, exists w',
         draft campaign_id candidate template w
         = (Ok {| draft_campaign_id := campaign_id;
                  draft_candidate_id := rc_candidate_id candidate;
                  draft_message := message;
                  draft_template := template;
                  draft_id := draft_id_of (uuid_source w (uuid_draws w)) |}, w')
         /\ crew w' = crew w
         /\ uuid_source w' = uuid_source w
         /\ uuid_draws w' = S (uuid_draws w).
Proof.
  eexists. split; [|intros w; eexists; split; [reflexivity|]; repeat split].
  unfold _sanitize.
  repeat (apply markup_free_app;
          [first [apply html_escape_markup_free | repeat constructor]|]).
  repeat constructor.
Qed.

(** X14: whatever the candidate and the template contain, the message of a
    draft holds no [<], no [>] and no quote character: every free-text
    field enters it through [html.escape].  [draft] never raises, and the
    draft names the campaign and the candidate it was made for. *)
Theorem draft_message_markup_free (campaign_id : string) (candidate : RankedCandidate)
    (template : OutreachTemplate) (w : World) :
  exists d w',
    draft campaign_id candidate template w = (Ok d, w')
    /\ markup_free (draft_message d)
    /\ draft_campaign_id d = campaign_id
    /\ draft_candidate_id d = rc_candidate_id candidate
    /\ draft_template d = template.
Proof.
  destruct (draft_run campaign_id candidate template) as (message & Hfree & Hrun).
  destruct (Hrun w) as (w' & Hdraft & _).
  do 2 eexists. split; [exact Hdraft|]. now repeat split.
Qed.

(** X15: drafting the same candidate with the same template twice gives the
    same message, whatever happened in between; the two draft ids are equal
    exactly when the two uuids agree on their first six hexadecimal digits,
    so distinct uuids do not guarantee distinct draft ids. *)
Theorem drafts_of_same_candidate (campaign_id : string) (candidate : RankedCandidate)
    (template : OutreachTemplate) (w1 w2 : World) :
  exists d1 d2 w1' w2',
    draft campaign_id candidate template w1 = (Ok d1, w1')
    /\ draft campaign_id candidate template w2 = (Ok d2, w2')
    /\ draft_message d1 = draft_message d2
    /\ draft_id d1 = draft_id_of (uuid_source w1 (uuid_draws w1))
    /\ (draft_id d1 = draft_id d2
        <-> PyStr.upper (PyStr.take 6 (uuid_source w1 (uuid_draws w1)))
            = PyStr.upper (PyStr.take 6 (uuid_source w2 (uuid_draws w2)))).
Proof.
  destruct (draft_run campaign_id candidate template) as (message & _ & Hrun).
  destruct (Hrun w1) as (w1' & Hdraft1 & _). destruct (Hrun w2) as (w2' & Hdraft2 & _).
  do 4 eexists. split; [exact Hdraft1|]. split; [exact Hdraft2|].
  cbn [draft_message draft_id]. split; [reflexivity|]. split; [reflexivity|].
  unfold draft_id_of. split.
  - intros H. cbv [String.append] in H. now injection H.
  - now intros ->.
Qed.

Lemma M_map_drafts campaign_id template (roster : list RankedCandidate) (w : World) :
  exists drafts w',
    M_map (fun candidate => draft campaign_id candidate template) roster w = (Ok drafts, w')
    /\ Forall2 (fun candidate d =>
                  draft_candidate_id d = rc_candidate_id candidate
                  /\ draft_campaign_id d = campaign_id
                  /\ draft_template d = template
                  /\ markup_free (draft_message d))
               roster drafts
    /\ map draft_id drafts
       = map (fun i => draft_id_of (uuid_source w (uuid_draws w + i)%nat))
             (seq 0 (length roster))
    /\ crew w' = crew w
    /\ uuid_source w' = uuid_source w
    /\ uuid_draws w' = (uuid_draws w + length roster)%nat.
Proof.
  revert w. induction roster as [|candidate roster IH]; intros w.
  - exists [], w. cbn. repeat split; try constructor. lia.
  - destruct (draft_run campaign_id candidate template) as (message & Hfree & Hrun).
    destruct (Hrun w) as (w1 & Hdraft & Hcrew1 & Hsource1 & Hdraws1).
    destruct (IH w1) as (drafts & w' & Hrest & Hall & Hids & Hcrew & Hsource & Hdraws).
    do 2 eexists. split.
    { cbn [M_map]. rewrite (bind_ok _ _ _ _ _ Hdraft), (bind_ok _ _ _ _ _ Hrest).
      reflexivity. }
    split; [constructor; [now repeat split | exact Hall]|].
    split.
    { cbn [map seq length draft_id]. rewrite Nat.add_0_r. f_equal.
      rewrite Hids, Hsource1, Hdraws1, <- seq_shift, map_map.
      apply map_ext. intros i. do 2 f_equal. lia. }
    split; [congruence|]. split; [congruence|].
    rewrite Hdraws, Hdraws1. cbn [length]. lia.
Qed.

(** X16: [generate_outreach] never raises.  With a roster (the supplied
    non-empty candidates, else the stored ranking) it returns one draft per
    candidate, in roster order, each naming the campaign, its candidate and
    the template in use (the default one when none is given), with a
    markup-free message and an id made from the next unused uuid; without a
    roster it returns the empty list and logs a warning. *)
Theorem generate_outreach_one_per_candidate (campaign_id : string)
    (candidates : option (list RankedCandidate)) (template : option OutreachTemplate)
    (w : World) :
  let roster := outreach_roster candidates (crew w) in
  let used := default default_template template in
  (roster = [] ->
   generate_outreach campaign_id candidates template w
   = (Ok [], emit WARNING "generate_outreach_no_candidates"
               [("campaign_id", LStr campaign_id)] w))
  /\ (roster <> [] ->
      exists drafts w',
        generate_outreach campaign_id candidates template w = (Ok drafts, w')
        /\ Forall2 (fun candidate d =>
                      draft_candidate_id d = rc_candidate_id candidate
                      /\ draft_campaign_id d = campaign_id
                      /\ draft_template d = used
                      /\ markup_free (draft_message d))
                   roster drafts
        /\ map draft_id drafts
           = map (fun i => draft_id_of (uuid_source w (uuid_draws w + i)%nat))
                 (seq 0 (length roster))
        /\ uuid_draws w' = (uuid_draws w + length roster)%nat).
Proof.
  cbv zeta.
  assert (Hunfold : generate_outreach campaign_id candidates template w
                    = match outreach_roster candidates (crew w) with
                      | [] => (log WARNING "generate_outreach_no_candidates"
                                 [("campaign_id", LStr campaign_id)];; mret []) w
                      | _ :: _ =>
                          M_map (fun candidate =>
                                   draft campaign_id candidate
                                     (default default_template template))
                                (outreach_roster candidates (crew w)) w
                      end).
  { unfold generate_outreach. rewrite bind_gets. cbv zeta. unfold outreach_roster.
    destruct candidates as [[|c cs]|]; try reflexivity;
      destruct (latest_candidates (crew w)); reflexivity. }
  rewrite Hunfold. clear Hunfold. split.
  - intros ->. reflexivity.
  - intros Hroster.
    destruct (outreach_roster candidates (crew w)) as [|c cs] eqn:Hr; [congruence|].
    destruct (M_map_drafts campaign_id (default default_template template) (c :: cs) w)
      as (drafts & w' & Hrun & Hall & Hids & _ & _ & Hdraws).
    exists drafts, w'. repeat split; assumption.
Qed.

Lemma generate_outreach_one_per_candidate_witness :
  exists drafts w',
    generate_outreach "CAMP_001" (Some [cx_markup]) None default_world = (Ok drafts, w')
    /\ Forall2 (fun candidate d => markup_free (draft_message d)) [cx_markup] drafts.
Proof.
  destruct (generate_outreach_one_per_candidate "CAMP_001" (Some [cx_markup]) None
              default_world) as (_ & Hdrafts).
  destruct Hdrafts as (drafts & w' & Hrun & Hall & _); [discriminate|].
  exists drafts, w'. split; [exact Hrun|].
  eapply Forall2_impl; [exact Hall|]. intros candidate d (_ & _ & _ & Hfree). exact Hfree.
Defined.

Lemma string_length_app (a b : string) :
  String.length (a +:+ b) = (String.length a + String.length b)%nat.
Proof. induction a as [|c a IH]; simpl; [reflexivity | now rewrite IH]. Qed.

Lemma html_escape_char_length (c : ascii) :
  (1 <= String.length (PyStr.html_escape_char c))%nat
  /\ (escaped_char c = false -> PyStr.html_escape_char c = String c EmptyString)
  /\ (escaped_char c = true -> (1 < String.length (PyStr.html_escape_char c))%nat).
Proof.
  unfold PyStr.html_escape_char, escaped_char, markup_char. cbv zeta.
  destruct (PyStr.code c =? 38); [cbn; split; [lia|split; [discriminate|lia]]|].
  destruct (PyStr.code c =? 60); [cbn; split; [lia|split; [discriminate|lia]]|].
  destruct (PyStr.code c =? 62); [cbn; split; [lia|split; [discriminate|lia]]|].
  destruct (PyStr.code c =? 34); [cbn; split; [lia|split; [discriminate|lia]]|].
  destruct (PyStr.code c =? 39); [cbn; split; [lia|split; [discriminate|lia]]|].
  cbn. split; [lia|]. split; [reflexivity | discriminate].
Qed.

Lemma html_escape_length (s : string) :
  (String.length s <= String.length (PyStr.html_escape s))%nat.
Proof.
  unfold PyStr.html_escape. induction s as [|c s IH]; cbn [PyStr.concat_map String.length].
  - lia.
  - rewrite string_length_app. pose proof (html_escape_char_length c) as (H1 & _). lia.
Qed.

(** X17: [html.escape] never shortens a string, and leaves it unchanged
    exactly when it contains none of [&], [<], [>] and the two quote
    characters. *)
Theorem html_escape_unchanged_iff (s : string) :
  (String.length s <= String.length (PyStr.html_escape s))%nat
  /\ (PyStr.html_escape s = s <-> escape_free s).
Proof.
  split; [apply html_escape_length|]. split.
  - intros Hsame. apply (f_equal String.length) in Hsame. revert Hsame.
    unfold PyStr.html_escape, escape_free.
    induction s as [|c s IH]; cbn [PyStr.concat_map String.length list_ascii_of_string];
      [constructor|].
    rewrite string_length_app. intros Hlen.
    pose proof (html_escape_char_length c) as (H1 & _ & Hlong).
    pose proof (html_escape_length s) as Hs. unfold PyStr.html_escape in Hs.
    constructor.
    + destruct (escaped_char c); [|reflexivity]. specialize (Hlong eq_refl). lia.
    + apply IH. lia.
  - unfold PyStr.html_escape, escape_free.
    induction s as [|c s IH]; cbn [PyStr.concat_map list_ascii_of_string]; [reflexivity|].
    intros Hfree. apply Forall_cons in Hfree as (Hc & Hfree).
    pose proof (html_escape_char_length c) as (_ & Hid & _).
    rewrite (Hid Hc), (IH Hfree). reflexivity.
Qed.

(** ** Construction *)

(** X18: the [jd_data] a crew keeps describes its bound job description:
    a crew built again from that dict is bound to the same title and
    content.  A dict source is kept as it is, a model source is bound as it
    is, and a complete dict binds its own title and content. *)
Theorem jd_data_round_trip (source : JDSource) (ranking : option RankingPolicy)
    (compliance_policy : option CompliancePolicy) (pool : option (list Profile))
    (thresholds : option (gmap string Q)) :
  let self := RecruitmentCrew_init source ranking compliance_policy pool thresholds in
  let again :=
    RecruitmentCrew_init (JDDict (jd_data self)) ranking compliance_policy pool thresholds in
  jd_title (job_description again) = jd_title (job_description self)
  /\ jd_content (job_description again) = jd_content (job_description self)
  /\ jd_data again = jd_data self
  /\ (forall d, source = JDDict d -> jd_data self = d)
  /\ (forall model, source = JDModel model -> job_description self = model)
  /\ (forall title content, source = JDDict (jd_dict title content) ->
        job_description self = mkJobDescription title content).
Proof.
  cbv zeta.
  assert (Hlookup : forall title content : string,
             jd_dict title content !! "title" = Some title
             /\ jd_dict title content !! "content" = Some content).
  { intros title content. unfold jd_dict. split.
    - apply lookup_insert_eq.
    - rewrite lookup_insert_ne by discriminate. apply lookup_singleton_eq. }
  split; [|split; [|split; [reflexivity|split; [|split]]]].
  - destruct source as [|d|model]; cbn; [| reflexivity |];
      fold (jd_dict "Talent Search" "No JD provided.");
      try fold (jd_dict (jd_title model) (jd_content model));
      now rewrite (proj1 (Hlookup _ _)).
  - destruct source as [|d|model]; cbn; [| reflexivity |];
      fold (jd_dict "Talent Search" "No JD provided.");
      try fold (jd_dict (jd_title model) (jd_content model));
      now rewrite (proj2 (Hlookup _ _)).
  - intros d ->. reflexivity.
  - intros model ->. reflexivity.
  - intros title content ->. cbn.
    destruct (Hlookup title content) as (-> & ->). reflexivity.
Qed.

(** ** Risk *)

Lemma Qdiv_Z_pos (a : Z) (p : positive) :
  (inject_Z a / inject_Z (Z.pos p) == a # p)%Q.
Proof. unfold Qeq, Qdiv, Qmult, Qinv, inject_Z. cbn. lia. Qed.

Lemma flag_density_form (evaluations : list EvaluationResult) :
  exists p, Z.max 1 (len evaluations) = Z.pos p
            /\ (flag_density evaluations == bias_flag_total evaluations # p)%Q.
Proof.
  unfold flag_density.
  destruct (Z.max 1 (len evaluations)) as [|p|p] eqn:Hmax; [lia| |lia].
  exists p. split; [reflexivity | apply Qdiv_Z_pos].
Qed.

Lemma bias_flag_total_nonneg evaluations : 0 <= bias_flag_total evaluations.
Proof. unfold bias_flag_total, len. lia. Qed.

Lemma bias_flag_total_flagged evaluations :
  Forall (fun e => ev_bias_flags e <> []) evaluations ->
  len evaluations <= bias_flag_total evaluations.
Proof.
  unfold bias_flag_total, len. induction 1 as [|e l He Hl IH]; cbn [map concat length].
  - lia.
  - rewrite length_app. destruct (ev_bias_flags e); [congruence|]. cbn [length]. lia.
Qed.

(** X19: the risk score lies between 0 and 1 and the flag count is not
    negative; the score is 0 exactly when no evaluation carries a flag, and
    then the level is "standard"; when there are evaluations and each
    carries at least one flag, the score is 1 and the level "elevated". *)
Theorem assess_risk_bounds (evaluations : list EvaluationResult) (w : World) :
  exists risk,
    assess_risk evaluations w = (Ok risk, w)
    /\ (0 <= risk_score risk <= 1)%Q
    /\ 0 <= risk_bias_flags risk
    /\ ((risk_score risk == 0)%Q <-> risk_bias_flags risk = 0)
    /\ (risk_bias_flags risk = 0 -> risk_level risk = "standard")
    /\ (evaluations <> [] ->
        Forall (fun e => ev_bias_flags e <> []) evaluations ->
        (risk_score risk == 1)%Q /\ risk_level risk = "elevated").
Proof.
  eexists. unfold assess_risk, lift. cbn [risk_stage source_stages].
  rewrite risk_of_ok. split; [reflexivity|].
  cbn [risk_score risk_bias_flags risk_level].
  destruct (flag_density_form evaluations) as (p & Hmax & Hform).
  pose proof (bias_flag_total_nonneg evaluations) as Hnonneg.
  assert (Hdensity : (0 <= flag_density evaluations)%Q).
  { rewrite Hform. unfold Qle. cbn. lia. }
  assert (Hzero : (Qmin 1 (flag_density evaluations) == 0)%Q
                  <-> bias_flag_total evaluations = 0).
  { split.
    - intros Hscore.
      destruct (Q.min_spec 1 (flag_density evaluations)) as [(_ & Heq)|(_ & Heq)];
        rewrite Heq in Hscore; [discriminate Hscore|].
      rewrite Hform in Hscore. unfold Qeq in Hscore. cbn in Hscore. lia.
    - intros Htotal. rewrite Q.min_r; rewrite Hform, Htotal; reflexivity || discriminate. }
  split; [split; [apply Q.min_glb; [discriminate | exact Hdensity] | apply Q.le_min_l]|].
  split; [exact Hnonneg|]. split; [exact Hzero|]. split.
  - intros Htotal. apply Hzero in Htotal.
    destruct (Qlt_bool 0.3 (Qmin 1 (flag_density evaluations))) eqn:Hcmp; [|reflexivity].
    apply Qlt_bool_iff in Hcmp. rewrite Htotal in Hcmp. discriminate Hcmp.
  - intros Hsome Hall. apply bias_flag_total_flagged in Hall.
    assert (Hone : (1 <= flag_density evaluations)%Q).
    { rewrite Hform. unfold Qle. cbn.
      assert (0 < len evaluations) by (unfold len; destruct evaluations; [congruence|cbn; lia]).
      lia. }
    assert (Hscore : (Qmin 1 (flag_density evaluations) == 1)%Q) by now apply Q.min_l.
    split; [exact Hscore|].
    destruct (Qlt_bool 0.3 (Qmin 1 (flag_density evaluations))) eqn:Hcmp; [reflexivity|].
    assert (Hlt : (0.3 < Qmin 1 (flag_density evaluations))%Q) by (rewrite Hscore; reflexivity).
    apply Qlt_bool_iff in Hlt. congruence.
Qed.

Lemma assess_risk_bounds_witness :
  exists risk,
    assess_risk [cx_flagged; cx_review] default_world = (Ok risk, default_world)
    /\ (risk_score risk == 1)%Q /\ risk_level risk = "elevated".
Proof.
  destruct (assess_risk_bounds [cx_flagged; cx_review] default_world)
    as (risk & Hrun & _ & _ & _ & _ & Hall).
  exists risk. split; [exact Hrun|]. apply Hall; [discriminate|].
  repeat constructor; discriminate.
Defined.

(** ** Research scores *)

(** X20: a seed's score never exceeds 0.95, and it does not decrease when
    the job description gets longer: for the same source and limit, each
    seed researched for the longer content scores at least as much as the
    seed of the same candidate for the shorter one. *)
Theorem research_scores_grow_with_content (self : ResearcherAgent)
    (shorter longer : JobDescriptionModel) (limit : Z) (w1 w2 : World) :
  (String.length (jd_content shorter) <= String.length (jd_content longer))%nat ->
  exists seeds1 seeds2 w1' w2',
    research self shorter limit w1 = (Ok seeds1, w1')
    /\ research self longer limit w2 = (Ok seeds2, w2')
    /\ Forall (fun seed => (seed_score seed <= 0.95)%Q) seeds1
    /\ Forall2 (fun s1 s2 =>
                  seed_name s1 = seed_name s2 /\ (seed_score s1 <= seed_score s2)%Q)
               seeds1 seeds2.
Proof.
  intros Hlen.
  destruct (research_run self shorter limit w1) as (w1' & Hrun1 & _).
  destruct (research_run self longer limit w2) as (w2' & Hrun2 & _).
  do 4 eexists. split; [exact Hrun1|]. split; [exact Hrun2|].
  assert (Hbonus : (content_bonus_of shorter <= content_bonus_of longer)%Q).
  { unfold content_bonus_of, Qdiv. apply Qmult_le_compat_r; [|discriminate].
    rewrite <- Zle_Qle. lia. }
  unfold seeds_of. generalize (slice_to (_candidate_pool self) limit). intros pool.
  split.
  - apply Forall_forall. intros seed Hin. apply list_elem_of_In, in_map_iff in Hin.
    destruct Hin as (profile & <- & _). cbn [research_seed seed_score]. apply Q.le_min_l.
  - induction pool as [|profile pool IH]; cbn [map]; constructor; [|exact IH].
    split; [reflexivity|]. cbn [research_seed seed_score].
    apply Q.min_le_compat_l, Qplus_le_r, Hbonus.
Qed.

Lemma research_scores_grow_with_content_witness :
  exists seeds1 seeds2 w1' w2',
    research default_researcher test_jd 4 default_world = (Ok seeds1, w1')
    /\ research default_researcher other_jd 4 default_world = (Ok seeds2, w2')
    /\ Forall2 (fun s1 s2 => (seed_score s1 <= seed_score s2)%Q) seeds1 seeds2.
Proof.
  destruct (research_scores_grow_with_content default_researcher test_jd other_jd 4
              default_world default_world)
    as (seeds1 & seeds2 & w1' & w2' & Hrun1 & Hrun2 & _ & Hall).
  - vm_compute. lia.
  - exists seeds1, seeds2, w1', w2'. split; [exact Hrun1|]. split; [exact Hrun2|].
    eapply Forall2_impl; [exact Hall|]. intros s1 s2 (_ & H). exact H.
Defined.

(** ** Candidate ids *)









(** * Further properties: the store and the HTTP handlers *)

(** ** Steps of the handler monad *)

Lemma hbind_done {A B} (m : Store.H A) (k : A -> Store.H B) (app app' : Store.App) (a : A) :
  m app = (Store.Done a, app') -> (m ≫= k) app = k a app'.
Proof. intros Hm. unfold mbind, Store.H_bind. now rewrite Hm. Qed.

Lemma hbind_read {A B} (f : Store.App -> A) (k : A -> Store.H B) (app : Store.App) :
  (Store.read f ≫= k) app = k (f app) app.
Proof. reflexivity. Qed.

Lemma hbind_failed {A B} (m : Store.H A) (k : A -> Store.H B) (app app' : Store.App)
    (failure : Store.Failure) :
  m app = (Store.Failed failure, app') -> (m ≫= k) app = (Store.Failed failure, app').
Proof. intros Hm. unfold mbind, Store.H_bind. now rewrite Hm. Qed.

(** ** The policy fields the ranking reads *)

Lemma rank_entry_bonus (first second : RankingPolicy) (entry : Z * EvaluationResult) :
  diversity_bonus first = diversity_bonus second ->
  rank_entry first entry = rank_entry second entry.
Proof.
  intros Hbonus. destruct entry as [position evaluation].
  unfold rank_entry, diversity_boost. now rewrite Hbonus.
Qed.

Lemma ranking_of_bonus (first second : RankingPolicy) evaluations :
  diversity_bonus first = diversity_bonus second ->
  ranking_of evaluations first = ranking_of evaluations second.
Proof.
  intros Hbonus. unfold ranking_of. apply map_ext. intros entry.
  now apply rank_entry_bonus.
Qed.

(** X22: [recommend] consults one field of the policy only: under two
    policies with the same diversity bonus it returns entries that agree in
    every computed field, position by position, whatever the names, bias
    tolerances and [respect_bias_flags] of the policies say (the two calls
    make their own entries, each with its own time). *)
Theorem recommend_reads_only_the_bonus (evaluations : list EvaluationResult)
    (first second : RankingPolicy) (w1 w2 : World) :
  diversity_bonus first = diversity_bonus second ->
  exists ranked1 ranked2 w1' w2',
    recommend evaluations first w1 = (Ok ranked1, w1')
    /\ recommend evaluations second w2 = (Ok ranked2, w2')
    /\ same_ranking ranked1 ranked2.
Proof.
  intros Hbonus.
  destruct (recommend_run evaluations first w1) as (w1' & Hrun1 & _).
  destruct (recommend_run evaluations second w2) as (w2' & Hrun2 & _).
  do 4 eexists. split; [exact Hrun1|]. split; [exact Hrun2|].
  rewrite (ranking_of_bonus first second evaluations Hbonus). apply same_ranking_refl.
Qed.

Lemma recommend_reads_only_the_bonus_witness :
  exists ranked1 ranked2 w1' w2',
    recommend [cx_review; cx_plain] default_policy default_world = (Ok ranked1, w1')
    /\ recommend [cx_review; cx_plain] strict_policy default_world = (Ok ranked2, w2')
    /\ same_ranking ranked1 ranked2.
Proof.
  apply (recommend_reads_only_the_bonus [cx_review; cx_plain] default_policy strict_policy).
  reflexivity.
Defined.

(** ** Metrics *)

Ltac dict_lookup :=
  repeat (rewrite lookup_insert_ne by discriminate);
  first [apply lookup_insert_eq | apply lookup_singleton_eq].

Lemma sum_ones {A} (l : list A) : sum (map (fun _ => 1) l) = len l.
Proof.
  unfold sum, len. induction l as [|x l IH]; [reflexivity|].
  cbn [map fold_left length]. rewrite sum_from. unfold sum. rewrite IH. lia.
Qed.

Lemma build_metrics_run ranked evaluations (app : Store.App) :
  exists metrics deficient,
    Api.build_metrics ranked evaluations app = (Store.Done metrics, tick app)
    /\ metrics !! "total_candidates" = Some (Store.VInt (len ranked))
    /\ metrics !! "bias_checks" = Some (Store.VInt (bias_flag_total evaluations))
    /\ metrics !! "bias_checks_passed"
       = Some (Store.VBool (bias_flag_total evaluations =? 0))
    /\ metrics !! "data_deficient_count" = Some (Store.VInt deficient)
    /\ 0 <= deficient <= len ranked.
Proof.
  do 2 eexists. split; [unfold Api.build_metrics; cbv zeta; rewrite sum_flags; reflexivity|].
  split; [dict_lookup|]. split; [dict_lookup|]. split; [dict_lookup|]. split; [dict_lookup|].
  rewrite sum_ones. unfold len. split; [lia|].
  apply inj_le, filter_length_le.
Qed.

Lemma clamped_density_zero evaluations :
  (Qmin 1 (flag_density evaluations) == 0)%Q <-> bias_flag_total evaluations = 0.
Proof.
  destruct (flag_density_form evaluations) as (p & _ & Hform). split.
  - intros Hscore.
    destruct (Q.min_spec 1 (flag_density evaluations)) as [(_ & Heq)|(_ & Heq)];
      rewrite Heq in Hscore; [discriminate Hscore|].
    rewrite Hform in Hscore. unfold Qeq in Hscore. cbn in Hscore. lia.
  - intros Htotal. rewrite Q.min_r; rewrite Hform, Htotal; reflexivity || discriminate.
Qed.

(** X23: the metrics of [build_metrics] agree with [assess_risk] on the
    same evaluations: "bias_checks" is the flag count of the assessment, and
    "bias_checks_passed" holds exactly when the risk score is 0, in which
    case the level is "standard".  "total_candidates" counts the ranked
    list, "data_deficient_count" a part of it.  The call reads the clock
    once and touches neither the crew nor the store. *)
Theorem build_metrics_agrees_with_risk (ranked : list RankedCandidate)
    (evaluations : list EvaluationResult) (app : Store.App) (w : World) :
  exists metrics risk passed deficient,
    Api.build_metrics ranked evaluations app = (Store.Done metrics, tick app)
    /\ assess_risk evaluations w = (Ok risk, w)
    /\ metrics !! "bias_checks" = Some (Store.VInt (risk_bias_flags risk))
    /\ metrics !! "bias_checks_passed" = Some (Store.VBool passed)
    /\ (passed = true <-> (risk_score risk == 0)%Q)
    /\ (passed = true -> risk_level risk = "standard")
    /\ metrics !! "total_candidates" = Some (Store.VInt (len ranked))
    /\ metrics !! "data_deficient_count" = Some (Store.VInt deficient)
    /\ 0 <= deficient <= len ranked
    /\ Store.world (tick app) = Store.world app
    /\ Store.store (tick app) = Store.store app.
Proof.
  destruct (build_metrics_run ranked evaluations app)
    as (metrics & deficient & Hrun & Htotal & Hchecks & Hpassed & Hdeficient & Hbound).
  exists metrics. eexists. exists (bias_flag_total evaluations =? 0), deficient.
  split; [exact Hrun|].
  split; [unfold assess_risk, lift; cbn [risk_stage source_stages];
          rewrite risk_of_ok; reflexivity|].
  cbn [risk_score risk_bias_flags risk_level].
  split; [exact Hchecks|]. split; [exact Hpassed|].
  assert (Hzero : (bias_flag_total evaluations =? 0) = true
                  <-> (Qmin 1 (flag_density evaluations) == 0)%Q).
  { rewrite clamped_density_zero. apply Z.eqb_eq. }
  split; [exact Hzero|]. split.
  - intros Hp. apply Hzero in Hp.
    destruct (Qlt_bool 0.3 (Qmin 1 (flag_density evaluations))) eqn:Hcmp; [|reflexivity].
    apply Qlt_bool_iff in Hcmp. rewrite Hp in Hcmp. discriminate Hcmp.
  - repeat split; try assumption; apply Hbound.
Qed.

(** ** The seed campaign *)

Lemma on_crew_run {A} (self : RecruitmentCrew) (operation : M A) (app : Store.App)
    (a : A) (w' : World) :
  operation (with_crew (fun _ => self) (Store.world app)) = (Ok a, w') ->
  Store.on_crew self operation app
  = (Store.Done a, Store.with_world (fun w => with_crew (fun _ => crew w) w') app).
Proof. intros Hrun. unfold Store.on_crew. now rewrite Hrun. Qed.

Lemma get_campaign_run (campaign_id : string) (app : Store.App) :
  Store.get_campaign campaign_id app = (Store.Done (campaigns app !! campaign_id), app).
Proof. reflexivity. Qed.

Lemma seed_run (w : World) :
  exists evaluations w',
    run_campaign None 4 (with_crew (fun _ => Store.seed_crew) w)
    = (Ok (ranking_of evaluations default_policy, evaluations), w')
    /\ bias_flag_total evaluations = 3
    /\ length evaluations = 4%nat.
Proof.
  set (ws := with_crew (fun _ => Store.seed_crew) w).
  assert (Hevaluate :
            { evaluations |
              evaluate_seeds (_bias_thresholds (evaluator (crew ws)))
                (seeds_of (researcher (crew ws)) (default (job_description (crew ws)) None) 4)
              = Ok evaluations
              /\ bias_flag_total evaluations = 3 /\ length evaluations = 4%nat }).
  { eexists. split; [vm_compute; reflexivity|]. split; vm_compute; reflexivity. }
  destruct Hevaluate as (evaluations & Hevaluate & Hflags & Hlength).
  destruct (run_campaign_ok None 4 ws evaluations Hevaluate) as (risk & w' & _ & Hrun & _).
  exists evaluations, w'. split; [exact Hrun|]. split; assumption.
Qed.

Lemma _build_metrics_run candidates (app : Store.App) :
  exists metrics,
    Store._build_metrics candidates app = (Store.Done metrics, tick app)
    /\ metrics !! "total_candidates" = Some (Store.VInt (len candidates))
    /\ metrics !! "bias_checks"
       = Some (Store.VInt
                 (sum (map (fun candidate => len (rc_bias_flags candidate)) candidates)))
    /\ metrics !! "bias_checks_passed"
       = Some (Store.VBool
                 (sum (map (fun candidate => len (rc_bias_flags candidate)) candidates)
                  =? 0)).
Proof.
  eexists. split; [reflexivity|]. split; [dict_lookup|]. split; dict_lookup.
Qed.

Lemma sanitized_flags (ranked : list RankedCandidate) :
  sum (map (fun candidate => len (rc_bias_flags candidate))
         (map Store.without_bias_flags ranked)) = 0.
Proof.
  rewrite map_map. cbn [Store.without_bias_flags rc_bias_flags].
  induction ranked as [|candidate ranked IH]; [reflexivity|].
  cbn [map]. unfold sum in *. cbn [fold_left]. exact IH.
Qed.

(** X24: loading [main.py] stores one campaign, CAMP_001, and never fails.
    Its candidates were stripped of their bias flags before the metrics were
    computed: the metrics report 0 bias checks and "bias_checks_passed", and
    the status endpoint 0 bias flags for 4 candidates, while the evaluations
    stored with the same campaign carry 3 flags.  The candidates are those
    of the ranking of the stored evaluations.  The crew of the application
    is not the one that ran the seed campaign: it is as constructed. *)
Theorem seed_campaign_hides_flags (uuids clock : nat -> string) :
  exists app record response,
    Api.startup uuids clock = (Store.Done tt, app)
    /\ campaigns app !! "CAMP_001" = Some record
    /\ size (campaigns app) = 1%nat
    /\ bias_flag_total (Store.cr_evaluations record) = 3
    /\ Forall (fun candidate => rc_bias_flags candidate = []) (Store.cr_candidates record)
    /\ map rc_candidate_id (Store.cr_candidates record)
       = map rc_candidate_id
           (ranking_of (Store.cr_evaluations record) default_policy)
    /\ Store.cr_metrics record !! "bias_checks" = Some (Store.VInt 0)
    /\ Store.cr_metrics record !! "bias_checks_passed" = Some (Store.VBool true)
    /\ Api.campaign_status "CAMP_001" app = (Store.Done response, app)
    /\ Api.status_bias_flags response = 0
    /\ Api.total_candidates response = 4
    /\ crew (Store.world app) = RecruitmentCrew_init JDNone None None None None.
Proof.
  unfold Api.startup, Store.CampaignStore_init.
  set (app0 := {| Store.world := _ |}).
  destruct (seed_run (Store.world app0)) as (evaluations & w' & Hrun & Hflags & Hlength).
  set (ranked := ranking_of evaluations default_policy) in *.
  apply (on_crew_run Store.seed_crew (run_campaign None 4) app0) in Hrun.
  set (app1 := Store.with_world _ app0) in Hrun.
  destruct (_build_metrics_run (map Store.without_bias_flags ranked) app1)
    as (metrics & Hmetrics & Htotal & Hchecks & Hpassed).
  rewrite sanitized_flags in Hchecks, Hpassed.
  do 3 eexists. split.
  { unfold Store._populate_seed_campaign.
    erewrite hbind_done; [|reflexivity].
    erewrite hbind_done; [|exact Hrun]. cbv beta iota zeta.
    erewrite hbind_done; [|exact Hmetrics].
    reflexivity. }
  cbn [campaigns Store.store Store._campaigns Store.with_store tick snd Store._timestamp
       Store.cr_evaluations Store.cr_candidates Store.cr_metrics Store.cr_campaign_id].
  split; [apply lookup_insert_eq|].
  cbn [Store.cr_evaluations Store.cr_candidates Store.cr_metrics].
  split; [now rewrite map_size_insert_None by apply lookup_empty|].
  split; [exact Hflags|].
  split; [apply Forall_map, Forall_forall; reflexivity|].
  split; [now rewrite map_map|].
  split; [exact Hchecks|]. split; [exact Hpassed|].
  split.
  { unfold Api.campaign_status.
    rewrite (hbind_done _ _ _ _ _ (get_campaign_run _ _)).
    unfold campaigns. cbn [Store.store Store._campaigns Store.with_store].
    rewrite lookup_insert_eq. reflexivity. }
  cbn [Api.status_bias_flags Api.total_candidates Store.cr_candidates].
  split; [apply sanitized_flags|].
  split; [unfold len, ranked; now rewrite length_map, ranking_of_length, Hlength|].
  reflexivity.
Qed.

(** ** Campaign ids *)

(** X25: campaign ids are derived from the number of stored campaigns, so
    a purge makes the store reuse one.  When the campaign with the latest
    number is still stored and another campaign is purged, the next
    [create_campaign] hands out the id of the stored campaign and replaces
    it: the store ends up with one campaign less than before the two calls,
    though the audit trail has grown by two entries. *)
Theorem create_after_purge_reuses_id (app : Store.App)
    (purged title description job_description : string)
    (candidates : list RankedCandidate) (evaluations : list EvaluationResult)
    (metrics : gmap string Store.Value) (serper_insights : Store.SerperInsights) :
  let newest := camp_id (Nat.pred (size (campaigns app))) in
  is_Some (campaigns app !! purged) ->
  is_Some (campaigns app !! newest) ->
  purged <> newest ->
  exists app1 record app2,
    Store.purge_campaign purged app = (Store.Done true, app1)
    /\ Store.create_campaign title description job_description candidates evaluations
         metrics serper_insights app1
       = (Store.Done record, app2)
    /\ Store.cr_campaign_id record = newest
    /\ campaigns app2 = <[newest := record]> (delete purged (campaigns app))
    /\ size (campaigns app2) = Nat.pred (size (campaigns app))
    /\ length (audit_trail app2) = (length (audit_trail app) + 2)%nat.
Proof.
  intros newest [old Hold] Hnewest Hdistinct.
  assert (Hsize : size (delete purged (campaigns app)) = Nat.pred (size (campaigns app))).
  { apply map_size_delete_Some. exists old. exact Hold. }
  do 3 eexists. split.
  { unfold Store.purge_campaign. rewrite hbind_read.
    fold (campaigns app). rewrite Hold. reflexivity. }
  split.
  { unfold Store.create_campaign, Store._next_id.
    reflexivity. }
  unfold campaigns, audit_trail in *.
  cbn [Store.cr_campaign_id Store.store Store._campaigns Store._audit_logs Store.with_store
       tick snd Store._timestamp].
  rewrite Hsize. fold (camp_id (Nat.pred (size (Store._campaigns (Store.store app))))).
  fold newest.
  split; [reflexivity|]. split; [reflexivity|]. split.
  - rewrite map_size_insert_Some; [exact Hsize|].
    rewrite lookup_delete_ne by exact Hdistinct. exact Hnewest.
  - rewrite !length_app. cbn [length]. lia.
Qed.

Lemma create_after_purge_reuses_id_witness :
  exists app1 record app2,
    Store.purge_campaign "CAMP_001" second_app = (Store.Done true, app1)
    /\ Store.create_campaign "Third" "Recruitment campaign" "Another description" [] []
         ∅ {| Store.serper_query := "Third"; Store.serper_insights := [] |} app1
       = (Store.Done record, app2)
    /\ Store.cr_campaign_id record = "CAMP_002"
    /\ size (campaigns app2) = 1%nat.
Proof.
  destruct (create_after_purge_reuses_id second_app "CAMP_001" "Third" "Recruitment campaign"
              "Another description" [] [] ∅
              {| Store.serper_query := "Third"; Store.serper_insights := [] |})
    as (app1 & record & app2 & Hpurge & Hcreate & Hid & _ & Hsize & _).
  - vm_compute; eexists; reflexivity.
  - vm_compute; eexists; reflexivity.
  - vm_compute; discriminate.
  - exists app1, record, app2. split; [exact Hpurge|]. split; [exact Hcreate|].
    split; [exact Hid|exact Hsize].
Defined.

(** ** Unknown campaigns *)

(** X26: an unknown campaign id changes nothing.  The store's lookup and
    updates return [None] or [False] and leave campaigns, audit trail and
    clock as they are; [update_status] returns without looking at the status
    it was given, so it does not raise for an invalid one; the endpoints
    answer 404 "Campaign not found" with the process as it was. *)
Theorem unknown_campaign_untouched (app : Store.App) (campaign_id : string)
    (candidates : list RankedCandidate) (evaluations : list EvaluationResult)
    (metrics : gmap string Store.Value) (written : list OutreachDraft)
    (status : Store.StatusArg) (ranking : Api.RankRequest)
    (outreach : option Api.OutreachRequest) :
  campaigns app !! campaign_id = None ->
  let missing := Store.HTTPException 404 "Campaign not found" in
  Store.get_campaign campaign_id app = (Store.Done None, app)
  /\ Store.update_candidates campaign_id candidates evaluations metrics app
     = (Store.Done None, app)
  /\ Store.add_outreach_drafts campaign_id written app = (Store.Done None, app)
  /\ Store.update_status campaign_id status app = (Store.Done tt, app)
  /\ Store.purge_campaign campaign_id app = (Store.Done false, app)
  /\ Api.campaign_status campaign_id app = (Store.Failed missing, app)
  /\ Api.campaign_candidates campaign_id app = (Store.Failed missing, app)
  /\ Api.rank_candidates campaign_id ranking app = (Store.Failed missing, app)
  /\ Api.generate_outreach campaign_id outreach app = (Store.Failed missing, app)
  /\ Api.purge_campaign campaign_id app = (Store.Failed missing, app).
Proof.
  intros Hunknown missing.
  assert (Hget : Store.get_campaign campaign_id app = (Store.Done None, app)).
  { rewrite get_campaign_run. now rewrite Hunknown. }
  assert (Hpurge : Store.purge_campaign campaign_id app = (Store.Done false, app)).
  { unfold Store.purge_campaign. rewrite hbind_read.
    fold (campaigns app). now rewrite Hunknown. }
  split; [exact Hget|].
  split; [unfold Store.update_candidates; now rewrite (hbind_done _ _ _ _ _ Hget)|].
  split; [unfold Store.add_outreach_drafts; now rewrite (hbind_done _ _ _ _ _ Hget)|].
  split; [unfold Store.update_status; now rewrite (hbind_done _ _ _ _ _ Hget)|].
  split; [exact Hpurge|].
  split; [unfold Api.campaign_status; now rewrite (hbind_done _ _ _ _ _ Hget)|].
  split; [unfold Api.campaign_candidates; now rewrite (hbind_done _ _ _ _ _ Hget)|].
  split; [unfold Api.rank_candidates; now rewrite (hbind_done _ _ _ _ _ Hget)|].
  split; [unfold Api.generate_outreach; now rewrite (hbind_done _ _ _ _ _ Hget)|].
  unfold Api.purge_campaign. now rewrite (hbind_done _ _ _ _ _ Hpurge).
Qed.

Lemma unknown_campaign_untouched_witness :
  Store.update_status "CAMP_404" (Store.Plain "archived") started_app
  = (Store.Done tt, started_app)
  /\ Api.purge_campaign "CAMP_404" started_app
     = (Store.Failed (Store.HTTPException 404 "Campaign not found"), started_app).
Proof.
  destruct (unknown_campaign_untouched started_app "CAMP_404" [] [] ∅ []
              (Store.Plain "archived")
              {| Api.strategy := None; Api.limit := None |} None)
    as (_ & _ & _ & Hstatus & _ & _ & _ & _ & _ & Hpurge).
  - vm_compute. reflexivity.
  - split; [exact Hstatus | exact Hpurge].
Defined.

(** ** The rank endpoint *)

Lemma safe_crew_call_ok {A} (operation : M A) (detail : string) (app : Store.App)
    (a : A) (w' : World) :
  operation (Store.world app) = (Ok a, w') ->
  Api.safe_crew_call operation detail app
  = (Store.Done a, Store.with_world (fun _ => w') app).
Proof. intros Hrun. unfold Api.safe_crew_call. now rewrite Hrun. Qed.

Lemma safe_crew_call_raise {A} (operation : M A) (detail : string) (app : Store.App)
    (exc : PyExn) (w' : World) :
  operation (Store.world app) = (Raise exc, w') ->
  Api.safe_crew_call operation detail app
  = (Store.Failed
       (Store.HTTPException 500
          ("Crew operation '" +:+ detail +:+ "' failed: " +:+ exn_str exc)),
     Store.with_world
       (fun _ => emit ERROR "crew-operation-failed"
                   [("detail", LStr detail); ("error", LStr (exn_str exc))] w')
       app).
Proof. intros Hrun. unfold Api.safe_crew_call. now rewrite Hrun. Qed.

Lemma record_audit_run campaign_id action details (app : Store.App) :
  Store.record_audit campaign_id action details app
  = (Store.Done tt,
     Store.with_store
       (fun self => {|
          Store._campaigns := Store._campaigns self;
          Store._audit_logs :=
            Store._audit_logs self
              ++ [{| Store.audit_timestamp := Store.clock_source app (Store.clock_draws app);
                     Store.audit_campaign_id := campaign_id;
                     Store.audit_action := action;
                     Store.audit_details := default ∅ details |}] |})
       (tick app)).
Proof. reflexivity. Qed.

Lemma update_candidates_run campaign_id candidates evaluations metrics (app : Store.App)
    (campaign : Store.CampaignRecord) :
  campaigns app !! campaign_id = Some campaign ->
  Store.update_candidates campaign_id candidates evaluations metrics app
  = (Store.Done (Some (ranked_record campaign candidates evaluations metrics)),
     with_campaign campaign_id (ranked_record campaign candidates evaluations metrics) app).
Proof.
  intros Hcampaign. unfold Store.update_candidates.
  rewrite (hbind_done _ _ _ _ _ (get_campaign_run _ _)), Hcampaign. reflexivity.
Qed.

(** X27: the rank endpoint on a stored campaign with evaluations always
    succeeds.  The strategy only names the policy: the ranking is the one of
    the campaign's evaluations under the default policy, whatever the
    strategy.  A limit that is missing, zero or negative keeps every
    candidate, a positive one the first [limit].  The campaign is stored as
    RANKED with the kept candidates and the new metrics, whose
    "bias_checks" count the flags of all evaluations; the crew remembers the
    whole ranking and the policy named by the strategy. *)
Theorem rank_candidates_ignores_strategy (app : Store.App) (campaign_id : string)
    (campaign : Store.CampaignRecord) (payload : Api.RankRequest) :
  campaigns app !! campaign_id = Some campaign ->
  Store.cr_evaluations campaign <> [] ->
  let full := ranking_of (Store.cr_evaluations campaign) default_policy in
  let kept := kept_of (Api.limit payload) full in
  exists response app' stored,
    Api.rank_candidates campaign_id payload app = (Store.Done response, app')
    /\ Api.ranked_candidates response = map Api._serialize_candidate kept
    /\ Api.rank_metrics response !! "total_candidates" = Some (Store.VInt (len kept))
    /\ Api.rank_metrics response !! "bias_checks"
       = Some (Store.VInt (bias_flag_total (Store.cr_evaluations campaign)))
    /\ campaigns app' = <[campaign_id := stored]> (campaigns app)
    /\ Store.cr_status stored = Store.RANKED
    /\ Store.cr_candidates stored = kept
    /\ Store.cr_evaluations stored = Store.cr_evaluations campaign
    /\ Store.cr_metrics stored = Api.rank_metrics response
    /\ latest_candidates (crew (Store.world app')) = full
    /\ latest_evaluations (crew (Store.world app')) = Store.cr_evaluations campaign
    /\ pol_name (policy (crew (Store.world app')))
       = or_str (Api.strategy payload) "balanced"
    /\ diversity_bonus (policy (crew (Store.world app'))) = diversity_bonus default_policy.
Proof.
  intros Hcampaign Hevaluations full kept.
  set (ranking := {| pol_name := or_str (Api.strategy payload) "balanced";
                     diversity_bonus := diversity_bonus default_policy;
                     bias_tolerance := bias_tolerance default_policy;
                     respect_bias_flags := respect_bias_flags default_policy |}).
  assert (Hsource : rerank_source (Some (Store.cr_evaluations campaign))
                      (crew (Store.world app))
                    = Store.cr_evaluations campaign).
  { unfold rerank_source. now destruct (Store.cr_evaluations campaign). }
  destruct (rerank_outcome (Some (Store.cr_evaluations campaign)) (Some ranking)
              (Store.world app))
    as (risk & w' & _ & Hrerank & Hpolicy & _ & Hlatest & Hstored & _);
    [now rewrite Hsource|].
  rewrite Hsource in Hrerank, Hlatest, Hstored.
  unfold rerank_policy in Hrerank, Hpolicy, Hlatest. cbn [default] in Hrerank, Hpolicy, Hlatest.
  rewrite (ranking_of_bonus ranking default_policy) in Hrerank, Hlatest by reflexivity.
  fold full in Hrerank, Hlatest.
  apply (safe_crew_call_ok _ "rerank" app) in Hrerank.
  set (app1 := Store.with_world (fun _ => w') app) in Hrerank.
  assert (Hkept : match Api.limit payload with
                  | Some n => if negb (n =? 0) && (0 <? n) then slice_to full n else full
                  | None => full
                  end = kept).
  { unfold kept, kept_of. destruct (Api.limit payload) as [n|]; [|reflexivity].
    destruct (Z.ltb_spec 0 n) as [Hpos|Hneg].
    - replace (n =? 0) with false by lia. cbn [negb andb]. unfold slice_to.
      now replace (n <? 0) with false by lia.
    - now rewrite andb_false_r. }
  destruct (build_metrics_run kept (Store.cr_evaluations campaign) app1)
    as (metrics & deficient & Hmetrics & Htotal & Hchecks & _).
  do 3 eexists. split.
  { unfold Api.rank_candidates.
    rewrite (hbind_done _ _ _ _ _ (get_campaign_run _ _)), Hcampaign.
    destruct (Store.cr_evaluations campaign) as [|e es] eqn:Hevs; [congruence|].
    rewrite <- Hevs in *. cbv zeta. fold ranking.
    rewrite (hbind_done _ _ _ _ _ Hrerank). rewrite Hkept.
    rewrite (hbind_done _ _ _ _ _ Hmetrics).
    rewrite (hbind_done _ _ _ _ _
               (update_candidates_run campaign_id kept _ metrics (tick app1) campaign
                  Hcampaign)).
    reflexivity. }
  cbn [Api.ranked_candidates Api.rank_metrics].
  split; [reflexivity|]. split; [exact Htotal|]. split; [exact Hchecks|].
  split; [reflexivity|].
  cbn [Store.cr_status Store.cr_candidates Store.cr_evaluations Store.cr_metrics].
  split; [reflexivity|]. split; [reflexivity|]. split; [reflexivity|]. split; [reflexivity|].
  unfold with_campaign, tick, app1.
  cbn [Store.world Store.with_world Store.with_store snd Store._timestamp].
  split; [exact Hlatest|]. split; [exact Hstored|].
  rewrite Hpolicy. split; reflexivity.
Qed.

Lemma rank_candidates_ignores_strategy_witness :
  exists response app',
    Api.rank_candidates "CAMP_001"
      {| Api.strategy := Some "diversity"; Api.limit := Some 2 |} started_app
    = (Store.Done response, app')
    /\ pol_name (policy (crew (Store.world app'))) = "diversity".
Proof.
  assert (Hseed : { campaign | campaigns started_app !! "CAMP_001" = Some campaign
                               /\ Store.cr_evaluations campaign <> [] }).
  { eexists. split; [vm_compute; reflexivity | discriminate]. }
  destruct Hseed as (campaign & Hcampaign & Hevaluations).
  destruct (rank_candidates_ignores_strategy started_app "CAMP_001" campaign
              {| Api.strategy := Some "diversity"; Api.limit := Some 2 |}
              Hcampaign Hevaluations)
    as (response & app' & stored & Hrun & _ & _ & _ & _ & _ & _ & _ & _ & _ & _ & Hname & _).
  exists response, app'. split; [exact Hrun | exact Hname].
Defined.

(** ** The create endpoint *)

Lemma _validate_jd_ok payload (app : Store.App) :
  valid_request payload ->
  Api._validate_jd (Api.req_title payload) (Api.req_content payload) app
  = (Store.Done tt, app).
Proof.
  intros (Htitle & Hcontent). unfold Api._validate_jd.
  replace (_ <? 5) with false by lia. now replace (_ <? 20) with false by lia.
Qed.

Lemma create_campaign_run title description job_description candidates evaluations metrics
    serper_insights (app : Store.App) :
  let record :=
    created_record app title description job_description candidates evaluations metrics
      serper_insights in
  Store.create_campaign title description job_description candidates evaluations metrics
    serper_insights app
  = (Store.Done record,
     with_audit
       (created_entry (Store.clock_source app (Store.clock_draws app))
          (camp_id (size (campaigns app))) title)
       (with_campaign (camp_id (size (campaigns app))) record (tick app))).
Proof. reflexivity. Qed.

Lemma create_campaign_valid_ok payload (app : Store.App) evaluations :
  valid_request payload ->
  evaluate_seeds (_bias_thresholds (evaluator (crew (Store.world app))))
    (seeds_of (researcher (crew (Store.world app))) (posted_jd payload) 4)
  = Ok evaluations ->
  exists response app' record,
    Api.create_campaign payload app = (Store.Done response, app')
    /\ Api.created_campaign_id response = camp_id (size (campaigns app))
    /\ Api.created_status response = Store.INITIALIZED
    /\ Api.created_metrics response = Store.cr_metrics record
    /\ campaigns app' = <[camp_id (size (campaigns app)) := record]> (campaigns app)
    /\ Store.cr_title record = Api.req_title payload
    /\ Store.cr_job_description record = Api.req_content payload
    /\ Store.cr_status record = Store.INITIALIZED
    /\ Store.cr_candidates record
       = ranking_of evaluations (policy (crew (Store.world app)))
    /\ Store.cr_evaluations record = evaluations
    /\ Store.cr_metrics record !! "total_candidates"
       = Some (Store.VInt (len (Store.cr_candidates record)))
    /\ Store.cr_metrics record !! "bias_checks"
       = Some (Store.VInt (bias_flag_total evaluations))
    /\ latest_candidates (crew (Store.world app')) = Store.cr_candidates record
    /\ latest_evaluations (crew (Store.world app')) = evaluations
    /\ same_configuration (crew (Store.world app)) (crew (Store.world app'))
    /\ (exists t1 t2,
          audit_trail app'
          = audit_trail app
              ++ [created_entry t1 (camp_id (size (campaigns app))) (Api.req_title payload);
                  initialized_entry t2 (camp_id (size (campaigns app)))
                    (Api.req_title payload)])
    /\ Store.clock_draws app' = (Store.clock_draws app + 3)%nat.
Proof.
  intros Hvalid Hevaluate.
  pose proof (run_campaign_same_configuration (Some (posted_jd payload)) 4
                (Store.world app)) as Hsame.
  destruct (run_campaign_ok (Some (posted_jd payload)) 4 (Store.world app) evaluations
              Hevaluate)
    as (risk & w' & _ & Hrun & Hlatest & Hstored & _).
  rewrite Hrun in Hsame. cbn [snd] in Hsame.
  set (ranked := ranking_of evaluations (policy (crew (Store.world app)))) in *.
  apply (safe_crew_call_ok _ "run_campaign" app) in Hrun.
  set (app1 := Store.with_world (fun _ => w') app) in Hrun.
  destruct (build_metrics_run ranked evaluations app1)
    as (metrics & deficient & Hmetrics & Htotal & Hchecks & _).
  set (insights := or_str (Some (jd_content (posted_jd payload))) (Api.req_title payload)).
  set (app2 := Store.with_world (emit INFO "serper-search" [("query", LStr insights)])
                 (tick app1)).
  pose proof (create_campaign_run (Api.req_title payload) (Api.req_description payload)
              (jd_content (posted_jd payload)) ranked evaluations metrics
              {| Store.serper_query := insights;
                 Store.serper_insights :=
                   [{| Store.insight_source := "SerperAI";
                       Store.insight_summary := "Top skills matched for " +:+ insights |}] |}
              app2)
    as Hcreate.
  cbv zeta in Hcreate.
  set (record := created_record app2 _ _ _ _ _ _ _) in Hcreate.
  do 2 eexists. exists record. split.
  { unfold Api.create_campaign.
    rewrite (hbind_done _ _ _ _ _ (_validate_jd_ok payload app Hvalid)).
    unfold Api._persist_campaign. fold (posted_jd payload).
    rewrite (hbind_done _ _ _ _ _ Hrun). cbv beta iota.
    rewrite (hbind_done _ _ _ _ _ Hmetrics).
    unfold Api.run_serper_search, Api.logger.
    rewrite (hbind_done _ (fun insights => (_ ≫= _)) (tick app1) app2 _ eq_refl).
    rewrite (hbind_done _ _ _ _ _ Hcreate).
    rewrite (hbind_done _ _ _ _ _ (record_audit_run _ _ _ _)).
    reflexivity. }
  cbn [Api.created_campaign_id Api.created_status Api.created_metrics].
  split; [reflexivity|]. split; [reflexivity|]. split; [reflexivity|].
  split; [reflexivity|]. split; [reflexivity|]. split; [reflexivity|].
  split; [reflexivity|]. split; [reflexivity|]. split; [reflexivity|].
  split; [exact Htotal|]. split; [exact Hchecks|].
  split; [exact Hlatest|]. split; [exact Hstored|]. split; [exact Hsame|].
  split.
  - do 2 eexists. unfold audit_trail, with_audit, with_campaign, tick.
    cbn [Store.store Store._audit_logs Store.with_store Store.with_world snd
         Store._timestamp default].
    rewrite <- app_assoc. reflexivity.
  - cbn. lia.
Qed.

(** X28: a failing create endpoint leaves the store, the clock and the
    snapshots of the crew alone, and fails in one of three ways: with 400
    "Invalid JD Title" when the stripped title has fewer than 5 characters;
    with 400 "Invalid JD content" when the title passes and the stripped
    content has fewer than 20, in both cases before anything is run or
    logged; or with 500 and a detail that does not depend on the cause,
    which happens only to a valid request when the evaluator has no
    "default" threshold. *)
Theorem create_campaign_failures (payload : Api.CampaignCreateRequest)
    (app app' : Store.App) (failure : Store.Failure) :
  Api.create_campaign payload app = (Store.Failed failure, app') ->
  Store.store app' = Store.store app
  /\ Store.clock_draws app' = Store.clock_draws app
  /\ latest_candidates (crew (Store.world app'))
     = latest_candidates (crew (Store.world app))
  /\ latest_evaluations (crew (Store.world app'))
     = latest_evaluations (crew (Store.world app))
  /\ ((failure = Store.HTTPException 400 "Invalid JD Title"
       /\ Z.of_nat (String.length (strip (Api.req_title payload))) < 5
       /\ app' = app)
      \/ (failure = Store.HTTPException 400 "Invalid JD content"
          /\ 5 <= Z.of_nat (String.length (strip (Api.req_title payload)))
          /\ Z.of_nat (String.length (strip (Api.req_content payload))) < 20
          /\ app' = app)
      \/ (failure
          = Store.HTTPException 500
              "Crew operation 'run_campaign' failed: crew failed during run_campaign"
          /\ valid_request payload
          /\ _bias_thresholds (evaluator (crew (Store.world app))) !! "default" = None)).
Proof.
  intros Hrun.
  destruct (Z.ltb_spec (Z.of_nat (String.length (strip (Api.req_title payload)))) 5)
    as [Htitle|Htitle].
  { unfold Api.create_campaign, Api._validate_jd in Hrun.
    replace (_ <? 5) with true in Hrun by lia.
    injection Hrun as <- <-. repeat split; try reflexivity. left. now repeat split. }
  destruct (Z.ltb_spec (Z.of_nat (String.length (strip (Api.req_content payload)))) 20)
    as [Hcontent|Hcontent].
  { unfold Api.create_campaign, Api._validate_jd in Hrun.
    replace (_ <? 5) with false in Hrun by lia.
    replace (_ <? 20) with true in Hrun by lia.
    injection Hrun as <- <-. repeat split; try reflexivity. right. left. now repeat split. }
  assert (Hvalid : valid_request payload) by (split; assumption).
  destruct (evaluate_seeds (_bias_thresholds (evaluator (crew (Store.world app))))
              (seeds_of (researcher (crew (Store.world app))) (posted_jd payload) 4))
    as [evaluations|exc] eqn:Hevaluate.
  { destruct (create_campaign_valid_ok payload app evaluations Hvalid Hevaluate)
      as (response & app'' & record & Hok & _).
    rewrite Hok in Hrun. discriminate Hrun. }
  destruct (run_campaign_raise (Some (posted_jd payload)) 4 (Store.world app) exc Hevaluate)
    as (w' & Hraise & Hlatest & Hstored & _).
  apply (safe_crew_call_raise _ "run_campaign" app) in Hraise.
  unfold Api.create_campaign in Hrun.
  rewrite (hbind_done _ _ _ _ _ (_validate_jd_ok payload app Hvalid)) in Hrun.
  unfold Api._persist_campaign in Hrun. fold (posted_jd payload) in Hrun.
  rewrite (hbind_failed _ _ _ _ _ Hraise) in Hrun.
  injection Hrun as <- <-.
  split; [reflexivity|]. split; [reflexivity|].
  split; [exact Hlatest|]. split; [exact Hstored|].
  right. right. split; [reflexivity|]. split; [exact Hvalid|].
  destruct (_bias_thresholds (evaluator (crew (Store.world app))) !! "default")
    as [fallback|] eqn:Hdefault; [|reflexivity].
  destruct (evaluate_seeds_ok (_bias_thresholds (evaluator (crew (Store.world app))))
              (seeds_of (researcher (crew (Store.world app))) (posted_jd payload) 4))
    as (evaluations & Hok & _); [rewrite Hdefault; now eexists|].
  rewrite Hok in Hevaluate. discriminate Hevaluate.
Qed.

Lemma create_campaign_failures_witness :
  Store.store (snd (Api.create_campaign short_request started_app))
  = Store.store started_app.
Proof.
  destruct (Api.create_campaign short_request started_app) as [out app'] eqn:Hrun.
  destruct out as [response|failure]; [vm_compute in Hrun; discriminate Hrun|].
  exact (proj1 (create_campaign_failures short_request started_app app' failure Hrun)).
Defined.

(** X29: a valid request to the create endpoint, on a crew with a "default"
    threshold, succeeds.  The campaign is stored under the id of [_next_id]
    as INITIALIZED, with the posted title and content, the snapshots the
    crew took of this run as candidates and evaluations, and the metrics of
    the response; the posted job description is used for this run only (the
    configuration of the crew is as before); the audit trail grows by
    "campaign_created" and "campaign_initialized", and the clock is read
    three times. *)
Theorem create_campaign_persists (payload : Api.CampaignCreateRequest) (app : Store.App) :
  valid_request payload ->
  is_Some (_bias_thresholds (evaluator (crew (Store.world app))) !! "default") ->
  exists response app' record,
    Api.create_campaign payload app = (Store.Done response, app')
    /\ Api.created_campaign_id response = camp_id (size (campaigns app))
    /\ Api.created_status response = Store.INITIALIZED
    /\ Api.created_metrics response = Store.cr_metrics record
    /\ campaigns app' = <[camp_id (size (campaigns app)) := record]> (campaigns app)
    /\ Store.cr_title record = Api.req_title payload
    /\ Store.cr_job_description record = Api.req_content payload
    /\ Store.cr_status record = Store.INITIALIZED
    /\ Store.cr_candidates record = latest_candidates (crew (Store.world app'))
    /\ Store.cr_evaluations record = latest_evaluations (crew (Store.world app'))
    /\ Store.cr_candidates record
       = ranking_of (Store.cr_evaluations record) (policy (crew (Store.world app)))
    /\ Store.cr_metrics record !! "total_candidates"
       = Some (Store.VInt (len (Store.cr_candidates record)))
    /\ Store.cr_metrics record !! "bias_checks"
       = Some (Store.VInt (bias_flag_total (Store.cr_evaluations record)))
    /\ same_configuration (crew (Store.world app)) (crew (Store.world app'))
    /\ (exists t1 t2,
          audit_trail app'
          = audit_trail app
              ++ [created_entry t1 (camp_id (size (campaigns app))) (Api.req_title payload);
                  initialized_entry t2 (camp_id (size (campaigns app)))
                    (Api.req_title payload)])
    /\ Store.clock_draws app' = (Store.clock_draws app + 3)%nat.
Proof.
  intros Hvalid Hdefault.
  destruct (evaluate_seeds_ok (_bias_thresholds (evaluator (crew (Store.world app))))
              (seeds_of (researcher (crew (Store.world app))) (posted_jd payload) 4)
              Hdefault)
    as (evaluations & Hevaluate & _).
  destruct (create_campaign_valid_ok payload app evaluations Hvalid Hevaluate)
    as (response & app' & record & Hrun & Hid & Hstatus & Hmetrics & Hcampaigns & Htitle
        & Hjd & Hrecorded & Hcandidates & Hevaluations & Htotal & Hchecks & Hlatest
        & Hstored & Hsame & Haudit & Hclock).
  exists response, app', record.
  rewrite Hlatest, Hstored, Hevaluations, <- Hcandidates.
  repeat (split; [assumption || reflexivity|]). exact Hclock.
Qed.

Lemma create_campaign_persists_witness :
  exists response app',
    Api.create_campaign sample_request started_app = (Store.Done response, app')
    /\ Api.created_campaign_id response = "CAMP_002".
Proof.
  destruct (create_campaign_persists sample_request started_app)
    as (response & app' & record & Hrun & Hid & _).
  - split; vm_compute; discriminate.
  - vm_compute. eexists. reflexivity.
  - exists response, app'. split; [exact Hrun|]. rewrite Hid. vm_compute. reflexivity.
Defined.

(** ** The outreach endpoint *)

Lemma add_outreach_drafts_run campaign_id written (app : Store.App)
    (campaign : Store.CampaignRecord) :
  campaigns app !! campaign_id = Some campaign ->
  Store.add_outreach_drafts campaign_id written app
  = (Store.Done (Some written),
     with_campaign campaign_id (drafted_record campaign written) app).
Proof.
  intros Hcampaign. unfold Store.add_outreach_drafts.
  rewrite (hbind_done _ _ _ _ _ (get_campaign_run _ _)), Hcampaign. reflexivity.
Qed.

Lemma generate_outreach_run campaign_id candidates template (w : World) :
  outreach_roster candidates (crew w) <> [] ->
  exists written w',
    generate_outreach campaign_id candidates template w = (Ok written, w')
    /\ Forall2 (fun candidate d =>
                  draft_candidate_id d = rc_candidate_id candidate
                  /\ draft_campaign_id d = campaign_id
                  /\ draft_template d = default default_template template
                  /\ markup_free (draft_message d))
               (outreach_roster candidates (crew w)) written
    /\ crew w' = crew w.
Proof.
  intros Hroster.
  assert (Hunfold : generate_outreach campaign_id candidates template w
                    = match outreach_roster candidates (crew w) with
                      | [] => (log WARNING "generate_outreach_no_candidates"
                                 [("campaign_id", LStr campaign_id)];; mret []) w
                      | _ :: _ =>
                          M_map (fun candidate =>
                                   draft campaign_id candidate
                                     (default default_template template))
                                (outreach_roster candidates (crew w)) w
                      end).
  { unfold generate_outreach. rewrite bind_gets. cbv zeta. unfold outreach_roster.
    destruct candidates as [[|c cs]|]; try reflexivity;
      destruct (latest_candidates (crew w)); reflexivity. }
  rewrite Hunfold.
  destruct (outreach_roster candidates (crew w)) as [|c cs] eqn:Hr; [congruence|].
  destruct (M_map_drafts campaign_id (default default_template template) (c :: cs) w)
    as (written & w' & Hrun & Hall & _ & Hcrew & _).
  exists written, w'. repeat split; assumption.
Qed.

(** X30: the outreach endpoint writes for the campaign's candidates, or for
    the latest ranking of the crew when the campaign has none, and succeeds
    whenever there is someone to write to.  The drafts replace whatever
    drafts the campaign had; there is one per candidate, in order, made with
    the template of the request (whose defaults are the endpoint's own, not
    those of [OutreachTemplate]) and free of markup; the rest of the
    campaign and the crew stay as they are, and the audit trail grows by one
    "outreach_generated" entry counting the drafts. *)
Theorem outreach_replaces_drafts (app : Store.App) (campaign_id : string)
    (campaign : Store.CampaignRecord) (payload : option Api.OutreachRequest) :
  campaigns app !! campaign_id = Some campaign ->
  let roster := outreach_roster (Some (Store.cr_candidates campaign)) (crew (Store.world app)) in
  roster <> [] ->
  exists response app' written timestamp,
    Api.generate_outreach campaign_id payload app = (Store.Done response, app')
    /\ campaigns app' = <[campaign_id := drafted_record campaign written]> (campaigns app)
    /\ Forall2 (fun candidate d =>
                  draft_candidate_id d = rc_candidate_id candidate
                  /\ draft_campaign_id d = campaign_id
                  /\ draft_template d = requested_template payload
                  /\ markup_free (draft_message d))
               roster written
    /\ map Api.out_draft_id (Api.drafts response) = map draft_id written
    /\ map Api.out_message (Api.drafts response) = map draft_message written
    /\ crew (Store.world app') = crew (Store.world app)
    /\ audit_trail app'
       = audit_trail app ++ [outreach_entry timestamp campaign_id (len written)].
Proof.
  intros Hcampaign roster Hroster.
  destruct (generate_outreach_run campaign_id (Some (Store.cr_candidates campaign))
              (Some (requested_template payload)) (Store.world app) Hroster)
    as (written & w' & Hrun & Hall & Hcrew).
  apply (safe_crew_call_ok _ "generate_outreach" app) in Hrun.
  set (app1 := Store.with_world (fun _ => w') app) in Hrun.
  exists {| Api.outreach_campaign_id := campaign_id;
            Api.drafts :=
              map (fun d => {| Api.out_draft_id := draft_id d;
                               Api.out_draft_candidate_id := draft_candidate_id d;
                               Api.out_message := draft_message d |})
                  written |}.
  eexists. exists written. eexists. split.
  { unfold Api.generate_outreach.
    rewrite (hbind_done _ _ _ _ _ (get_campaign_run _ _)), Hcampaign.
    cbv zeta. fold (requested_template payload).
    rewrite (hbind_done _ _ _ _ _ Hrun).
    rewrite (hbind_done _ _ _ _ _
               (add_outreach_drafts_run campaign_id written app1 campaign Hcampaign)).
    rewrite (hbind_done _ _ _ _ _ (record_audit_run _ _ _ _)).
    reflexivity. }
  split; [reflexivity|]. split; [exact Hall|].
  cbn [Api.drafts]. rewrite !map_map. cbn [Api.out_draft_id Api.out_message].
  split; [reflexivity|]. split; [reflexivity|].
  split; [exact Hcrew|]. reflexivity.
Qed.

Lemma outreach_replaces_drafts_witness :
  exists response app',
    Api.generate_outreach "CAMP_001" None started_app = (Store.Done response, app')
    /\ crew (Store.world app') = crew (Store.world started_app).
Proof.
  assert (Hseed : { campaign | campaigns started_app !! "CAMP_001" = Some campaign
                               /\ Store.cr_candidates campaign <> [] }).
  { eexists. split; [vm_compute; reflexivity | discriminate]. }
  destruct Hseed as (campaign & Hcampaign & Hcandidates).
  destruct (outreach_replaces_drafts started_app "CAMP_001" campaign None Hcampaign)
    as (response & app' & written & timestamp & Hrun & _ & _ & _ & _ & Hcrew & _).
  - unfold outreach_roster. destruct (Store.cr_candidates campaign); [congruence|discriminate].
  - exists response, app'. split; [exact Hrun | exact Hcrew].
Defined.
